(** * toki-reminder: recurrence resolution, job registry, reconciliation,
      countdown ticker and data file loading

    A shallow embedding of the scheduling core of the reminder bot
    (the main bot file and [dataManager.js]) together with the properties
    its specification states about it. *)

From Stdlib Require Import ZArith Lia.
From stdpp Require Import gmap strings list fin_maps pretty.

(** ** Outcomes of a JavaScript call *)

Inductive error :=
| TypeError        (* a property read on [undefined] *)
| ReferenceError   (* an identifier with no binding in scope *)
| StorageError     (* a rejected promise of the key-value store *)
| SyntaxError      (* [JSON.parse] on a malformed text *)
| ENOENT           (* a file system call on a missing path *)
| EISDIR.          (* a file operation on a directory *)

(** A call returns, throws, or never comes back (a loop that does not exit). *)
Inductive completion (A : Type) :=
| Return (a : A)
| Throw (e : error)
| Hang.
Arguments Return {A} a.
Arguments Throw {A} e.
Arguments Hang {A}.

(** ** moment values

    Every moment built in [setupReminder] is put in the user's zone with
    [.tz(userTimezone)].  A zone is modelled by a constant offset from UTC (a
    zone without daylight-saving changes, such as Asia/Tokyo), and a moment
    by its wall-clock reading in that zone: the number of milliseconds since
    1970-01-01T00:00:00.000 on the zone's own clock.  Two moments of one zone
    are ordered as instants exactly as their wall-clock readings are. *)

Module Moment.
Local Open Scope Z_scope.

Record zone := { zoneName : string; utcOffset : Z (* minutes east of UTC *) }.

Definition moment := Z.

Definition msPerSecond : Z := 1000.
Definition msPerMinute : Z := 60000.
Definition msPerHour : Z := 3600000.
Definition msPerDay : Z := 86400000.

(** [moment().tz(z)] for a clock reading [t] (milliseconds since the epoch). *)
Definition tz (t : Z) (z : zone) : moment := t + utcOffset z * msPerMinute.

(** [m.valueOf()]: the instant of a moment of zone [z]. *)
Definition valueOf (z : zone) (m : moment) : Z := m - utcOffset z * msPerMinute.

Definition dayNumber (m : moment) : Z := m / msPerDay.
Definition timeOfDay (m : moment) : Z := m mod msPerDay.

(** Getters. *)
Definition get_hour (m : moment) : Z := timeOfDay m / msPerHour.
Definition get_minute (m : moment) : Z := (timeOfDay m / msPerMinute) mod 60.
Definition get_second (m : moment) : Z := (timeOfDay m / msPerSecond) mod 60.
Definition get_millisecond (m : moment) : Z := timeOfDay m mod msPerSecond.

(** Setters [.hour(h)], [.minute(n)], [.second(s)]: the field is replaced and
    an out-of-range value carries over into the larger fields. *)
Definition hour (h : Z) (m : moment) : moment := m + (h - get_hour m) * msPerHour.
Definition minute (n : Z) (m : moment) : moment := m + (n - get_minute m) * msPerMinute.
Definition second (s : Z) (m : moment) : moment := m + (s - get_second m) * msPerSecond.

(** [.day()]: the weekday, 0 = Sunday; 1970-01-01 was a Thursday. *)
Definition day (m : moment) : Z := (dayNumber m + 4) mod 7.

(** [.add(n, 'day')]. *)
Definition add_days (n : Z) (m : moment) : moment := m + n * msPerDay.

(** [.day(n)] as a setter is [this.add(n - this.day(), 'd')]. *)
Definition set_day (n : Z) (m : moment) : moment := add_days (n - day m) m.

(** [.isBefore(other)]. *)
Definition isBefore (m other : moment) : bool := m <? other.

(** The proleptic Gregorian calendar, months numbered 0..11 as moment does. *)
Definition isLeapYear (y : Z) : bool :=
  ((y mod 4 =? 0) && negb (y mod 100 =? 0)) || (y mod 400 =? 0).

Definition daysInMonth (y mo : Z) : Z :=
  let y' := y + mo / 12 in
  let mo' := mo mod 12 in
  if mo' =? 1 then (if isLeapYear y' then 29 else 28)
  else if (mo' =? 3) || (mo' =? 5) || (mo' =? 8) || (mo' =? 10) then 30
  else 31.

(** Day number of the civil date [y]-[mo+1]-[d]. *)
Definition days_from_civil (y mo d : Z) : Z :=
  let m := mo + 1 in
  let y' := if m <=? 2 then y - 1 else y in
  let era := y' / 400 in
  let yoe := y' - era * 400 in
  let doy := (153 * (if 2 <? m then m - 3 else m + 9) + 2) / 5 + d - 1 in
  let doe := yoe * 365 + yoe / 4 - yoe / 100 + doy in
  era * 146097 + doe - 719468.

(** Civil date (year, month 0..11, day of month) of a day number. *)
Definition civil_from_days (z : Z) : Z * Z * Z :=
  let z' := z + 719468 in
  let era := z' / 146097 in
  let doe := z' - era * 146097 in
  let yoe := (doe - doe / 1460 + doe / 36524 - doe / 146096) / 365 in
  let doy := doe - (365 * yoe + yoe / 4 - yoe / 100) in
  let mp := (5 * doy + 2) / 153 in
  let d := doy - (153 * mp + 2) / 5 + 1 in
  let m := if mp <? 10 then mp + 3 else mp - 9 in
  (yoe + era * 400 + (if m <=? 2 then 1 else 0), m - 1, d).

Definition year (m : moment) : Z := fst (fst (civil_from_days (dayNumber m))).
Definition month (m : moment) : Z := snd (fst (civil_from_days (dayNumber m))).
Definition date (m : moment) : Z := snd (civil_from_days (dayNumber m)).

(** [.date(d)] as a setter: [Date.prototype.setDate], which carries over. *)
Definition set_date (d : Z) (m : moment) : moment := add_days (d - date m) m.

(** [.month(mo)] as a setter and [.add(n, 'month')] both go through moment's
    [setMonth]: the day of month is clamped to the length of the target
    month. *)
Definition setMonth (value : Z) (m : moment) : moment :=
  let y := year m in
  let dayOfMonth := Z.min (date m) (daysInMonth y value) in
  days_from_civil (y + value / 12) (value mod 12) dayOfMonth * msPerDay + timeOfDay m.

Definition add_months (n : Z) (m : moment) : moment := setMonth (month m + n) m.

(** [m.daysInMonth()]. *)
Definition daysInMonth_of (m : moment) : Z := daysInMonth (year m) (month m).

(** A wall-clock reading from its fields (months 0..11). *)
Definition local (y mo d h mi s ms : Z) : moment :=
  days_from_civil y mo d * msPerDay + h * msPerHour + mi * msPerMinute + s * msPerSecond + ms.

End Moment.

(** ** The bot's global state

    The bot keeps its live timers in module-level maps ([activeReminders],
    [activeCountdowns]); node-schedule and the timer system hold the timers
    themselves.  A reminder id is the string [`${userId}_${taskName}`]. *)

Module Bot.
Import Moment.
Local Open Scope Z_scope.

(** The [scheduleType] argument: an array of weekdays for a custom schedule,
    otherwise one of the strings 'daily', 'weekly', 'monthly'. *)
Inductive scheduleType :=
| SArray (days : list Z)
| SString (s : string).

(** The [time] argument is one of the values of [generateTimeOptions]
    ('HH:00'); we carry the pair that [time.split(':').map(Number)] yields. *)
Record timeOption := { hours : Z; minutes : Z }.

(** The record stored under [user_<id>.tasks.<taskName>]. *)
Record task := {
  name : string;
  schedule : scheduleType;
  time : timeOption;
  timezone : zone;
  nextReminder : Z   (* the instant of [nextRun.toISOString()] *)
}.

(** The row stored under [user_<id>].  Every top-level key the bot writes has
    the prefix [user_], so rows are keyed by the user id itself ([db_all]
    below gives the full ids).  Objects are
    association lists in the order [Object.entries] lists them, which is the
    order of insertion for names that are not array indices. *)
Record user := {
  userTimezone : option zone;
  reminderChannel : option string;
  tasks : option (list (string * task))
}.

Abbreviation job := nat (only parsing).        (* a handle returned by [nodeSchedule.scheduleJob] *)
Abbreviation interval := nat (only parsing).   (* a handle returned by [setInterval] *)

Record message := { guildId : string; messageId : string }.

(** What the callback given to [setInterval] in [startCountdownUpdate] closes
    over. *)
Record ticker := { tickerMessage : message; targetDate : Z }.

Record state := {
  activeReminders : gmap string (option job);  (* reminder id -> job, or [null] *)
  activeCountdowns : gmap string interval;  (* countdown id -> interval *)
  scheduledJobs : list (job * string);      (* node-schedule: jobs still scheduled, with the reminder id they fire for *)
  nextJob : job;
  intervals : gmap interval ticker;         (* timer system: intervals not yet cleared *)
  nextInterval : interval;
  ticks : list interval;                    (* log: the interval callbacks that have run, latest first *)
  messages : gmap string string;            (* channel: message id -> countdown line of its embed *)
  db : list (string * user)
}.

Definition initial : state :=
  {| activeReminders := ∅; activeCountdowns := ∅; scheduledJobs := []; nextJob := 0%nat;
     intervals := ∅; nextInterval := 0%nat; ticks := []; messages := ∅; db := [] |}.

Definition with_activeReminders (f : gmap string (option job) → gmap string (option job))
    (s : state) : state :=
  {| activeReminders := f (activeReminders s); activeCountdowns := activeCountdowns s;
     scheduledJobs := scheduledJobs s; nextJob := nextJob s; intervals := intervals s;
     nextInterval := nextInterval s; ticks := ticks s; messages := messages s; db := db s |}.

Definition with_activeCountdowns (f : gmap string interval → gmap string interval) (s : state) : state :=
  {| activeReminders := activeReminders s; activeCountdowns := f (activeCountdowns s);
     scheduledJobs := scheduledJobs s; nextJob := nextJob s; intervals := intervals s;
     nextInterval := nextInterval s; ticks := ticks s; messages := messages s; db := db s |}.

Definition with_messages (f : gmap string string → gmap string string) (s : state) : state :=
  {| activeReminders := activeReminders s; activeCountdowns := activeCountdowns s;
     scheduledJobs := scheduledJobs s; nextJob := nextJob s; intervals := intervals s;
     nextInterval := nextInterval s; ticks := ticks s; messages := f (messages s); db := db s |}.

Definition with_db (f : list (string * user) → list (string * user)) (s : state) : state :=
  {| activeReminders := activeReminders s; activeCountdowns := activeCountdowns s;
     scheduledJobs := scheduledJobs s; nextJob := nextJob s; intervals := intervals s;
     nextInterval := nextInterval s; ticks := ticks s; messages := messages s; db := f (db s) |}.

(** *** node-schedule and the timer system *)

(** [job.cancel()]: the job leaves the set of scheduled jobs. *)
Definition cancel (j : job) (s : state) : state :=
  {| activeReminders := activeReminders s; activeCountdowns := activeCountdowns s;
     scheduledJobs := filter (λ p, p.1 ≠ j) (scheduledJobs s); nextJob := nextJob s;
     intervals := intervals s; nextInterval := nextInterval s; ticks := ticks s;
     messages := messages s; db := db s |}.

(** The rule that [setupReminder] builds has [rule.hour = hours] and
    [rule.minute = minutes || 0].  node-schedule takes a rule whose hour is in
    0..23 and whose minute is in 0..59, and no other. *)
Definition validRule (rule : timeOption) : bool :=
  (0 <=? hours rule) && (hours rule <=? 23) && (0 <=? minutes rule) && (minutes rule <=? 59).

(** A new job for the reminder [reminderId] joins the scheduled jobs. *)
Definition addJob (reminderId : string) (s : state) : state :=
  {| activeReminders := activeReminders s; activeCountdowns := activeCountdowns s;
     scheduledJobs := (nextJob s, reminderId) :: scheduledJobs s; nextJob := S (nextJob s);
     intervals := intervals s; nextInterval := nextInterval s; ticks := ticks s;
     messages := messages s; db := db s |}.

(** [nodeSchedule.scheduleJob(rule, callback)] for the reminder [reminderId]:
    with a rule that node-schedule takes, a new job is scheduled and
    returned; with any other rule nothing is scheduled and the result is
    [null]. *)
Definition scheduleJob (rule : timeOption) (reminderId : string) (s : state)
  : option job * state :=
  if validRule rule then (Some (nextJob s), addJob reminderId s) else (None, s).

(** [clearInterval(h)]. *)
Definition clearInterval (h : interval) (s : state) : state :=
  {| activeReminders := activeReminders s; activeCountdowns := activeCountdowns s;
     scheduledJobs := scheduledJobs s; nextJob := nextJob s;
     intervals := delete h (intervals s); nextInterval := nextInterval s; ticks := ticks s;
     messages := messages s; db := db s |}.

(** [setInterval(callback, 60000)] with the callback's closure [c]. *)
Definition setInterval (c : ticker) (s : state) : interval * state :=
  (nextInterval s,
   {| activeReminders := activeReminders s; activeCountdowns := activeCountdowns s;
      scheduledJobs := scheduledJobs s; nextJob := nextJob s;
      intervals := <[nextInterval s := c]> (intervals s); nextInterval := S (nextInterval s);
      ticks := ticks s; messages := messages s; db := db s |}).

Definition log_tick (h : interval) (s : state) : state :=
  {| activeReminders := activeReminders s; activeCountdowns := activeCountdowns s;
     scheduledJobs := scheduledJobs s; nextJob := nextJob s; intervals := intervals s;
     nextInterval := nextInterval s; ticks := h :: ticks s; messages := messages s; db := db s |}.

(** The timers scheduled for a reminder id. *)
Definition liveTimers (reminderId : string) (s : state) : list job :=
  (filter (λ p, p.2 = reminderId) (scheduledJobs s)).*1.

(** *** The key-value store (quick.db)

    Paths are [user_<id>.timezone] and [user_<id>.tasks.<taskName>]; task and
    user names are taken without a dot, so a path has exactly these
    segments. *)

Fixpoint assoc_get {V} (k : string) (l : list (string * V)) : option V :=
  match l with
  | [] => None
  | (k', v) :: r => if decide (k' = k) then Some v else assoc_get k r
  end.

(** Assigning a property: an existing key keeps its place, a new key goes
    last. *)
Fixpoint assoc_set {V} (k : string) (v : V) (l : list (string * V)) : list (string * V) :=
  match l with
  | [] => [(k, v)]
  | (k', v') :: r => if decide (k' = k) then (k', v) :: r else (k', v') :: assoc_set k v r
  end.

Fixpoint assoc_delete {V} (k : string) (l : list (string * V)) : list (string * V) :=
  match l with
  | [] => []
  | (k', v') :: r => if decide (k' = k) then r else (k', v') :: assoc_delete k r
  end.

Definition emptyUser : user :=
  {| userTimezone := None; reminderChannel := None; tasks := None |}.

(** [db.get(`user_${userId}.timezone`)]: [undefined] when nothing is stored. *)
Definition db_get_timezone (userId : string) (d : list (string * user)) : option zone :=
  match assoc_get userId d with
  | Some u => userTimezone u
  | None => None
  end.

(** [db.get(`user_${userId}.tasks.${taskName}`)]. *)
Definition db_get_task (userId taskName : string) (d : list (string * user)) : option task :=
  match assoc_get userId d with
  | Some u => match tasks u with Some ts => assoc_get taskName ts | None => None end
  | None => None
  end.

(** [db.set(`user_${userId}.tasks.${taskName}`, t)]. *)
Definition db_set_task (userId taskName : string) (t : task) (d : list (string * user))
  : list (string * user) :=
  let u := default emptyUser (assoc_get userId d) in
  assoc_set userId
    {| userTimezone := userTimezone u; reminderChannel := reminderChannel u;
       tasks := Some (assoc_set taskName t (default [] (tasks u))) |} d.

(** [db.delete(`user_${userId}.tasks.${taskName}`)]. *)
Definition db_delete_task (userId taskName : string) (d : list (string * user))
  : list (string * user) :=
  match assoc_get userId d with
  | Some u =>
      match tasks u with
      | Some ts =>
          assoc_set userId
            {| userTimezone := userTimezone u; reminderChannel := reminderChannel u;
               tasks := Some (assoc_delete taskName ts) |} d
      | None => d
      end
  | None => d
  end.

(** What one call meets in its surroundings: the successive readings of the
    system clock ([moment()]), and whether the store rejects the read of the
    timezone and the write of the task record. *)
Record env := {
  clock : nat → Z;
  dbGetFails : bool;
  dbSetFails : bool
}.

(** ** setupReminder: the next run (lines 828-867) *)

Definition includes (l : list Z) (x : Z) : bool := existsb (Z.eqb x) l.

(** [while (!scheduleType.includes(nextRun.day())) nextRun.add(1, 'day')],
    run for at most [fuel] tests of the condition. *)
Fixpoint customLoop (fuel : nat) (days : list Z) (nextRun : moment) : option moment :=
  match fuel with
  | O => None
  | S fuel' =>
      if includes days (day nextRun) then Some nextRun
      else customLoop fuel' days (add_days 1 nextRun)
  end.

(** Seven tests see every weekday: a loop that has not left by then never
    leaves ([customLoop_stuck] below). *)
Definition weekLength : nat := 7.

(** [setupReminder] declares [userId], [taskName], [scheduleType] and [time];
    the identifier [scheduleDay] that its 'weekly' and 'monthly' branches read
    has a binding neither there nor at module level, so the read throws.  The
    body takes the binding in scope as [scheduleDay]. *)
Definition nextRunWith (scheduleDay : option Z) (clock : nat → Z) (userTimezone : zone)
    (scheduleType : scheduleType) (time : timeOption) : completion moment :=
  let now := tz (clock 0%nat) userTimezone in
  let nextRun :=
    second 0 (minute (minutes time) (hour (hours time) (tz (clock 1%nat) userTimezone))) in
  match scheduleType with
  | SArray days =>
      match customLoop weekLength days nextRun with
      | Some nextRun' => Return nextRun'
      | None => Hang
      end
  | SString s =>
      if decide (s = "daily") then
        Return (if isBefore nextRun now then add_days 1 nextRun else nextRun)
      else if decide (s = "weekly") then
        match scheduleDay with
        | None => Throw ReferenceError
        | Some scheduleDay =>
            Return
              (if negb (day nextRun =? scheduleDay) || isBefore nextRun now
               then set_day (scheduleDay + (if scheduleDay <? day nextRun then 7 else 0)) nextRun
               else nextRun)
        end
      else if decide (s = "monthly") then
        match scheduleDay with
        | None => Throw ReferenceError
        | Some scheduleDay =>
            let adjustedDay (k : nat) (mo : Z) :=
              Z.min scheduleDay (daysInMonth_of (setMonth mo (tz (clock k) userTimezone))) in
            let nextRun1 := set_date (adjustedDay 2%nat (month nextRun)) nextRun in
            Return
              (if isBefore nextRun1 now then
                 let nextRun2 := add_months 1 nextRun1 in
                 set_date (adjustedDay 3%nat (month nextRun2)) nextRun2
               else nextRun1)
        end
      else Return nextRun
  end.

(** The binding of [scheduleDay] in the scope of [setupReminder]: none. *)
Definition scheduleDay_in_scope : option Z := None.

Definition nextRunOf := nextRunWith scheduleDay_in_scope.

Definition reminderId (userId taskName : string) : string := userId +:+ "_" +:+ taskName.

(** ** setupReminder

    [activeReminders.get(reminderId).cancel()] on an entry that is [null]
    throws at once.  With no timezone stored, [moment().tz(undefined)] is
    [undefined] and the call of [.hour] on it throws.  What
    [nodeSchedule.scheduleJob] returns is registered as it is, a job or
    [null]. *)
Definition setupReminder (e : env) (userId taskName : string) (scheduleType : scheduleType)
    (time : timeOption) (s : state) : completion moment * state :=
  let id := reminderId userId taskName in
  if decide (activeReminders s !! id = Some None) then (Throw TypeError, s)
  else
    let s1 := match activeReminders s !! id with
              | Some (Some j) => cancel j s
              | _ => s
              end in
    if dbGetFails e then (Throw StorageError, s1)
    else
      match db_get_timezone userId (db s1) with
      | None => (Throw TypeError, s1)
      | Some userTimezone =>
          match nextRunOf (clock e) userTimezone scheduleType time with
          | Throw err => (Throw err, s1)
          | Hang => (Hang, s1)
          | Return nextRun =>
              let '(job, s2) := scheduleJob time id s1 in
              let s3 := with_activeReminders <[id := job]> s2 in
              if dbSetFails e then (Throw StorageError, s3)
              else
                (Return nextRun,
                 with_db (db_set_task userId taskName
                            {| name := taskName; schedule := scheduleType; time := time;
                               timezone := userTimezone;
                               nextReminder := valueOf userTimezone nextRun |}) s3)
          end
      end.

(** *** Stages of a call of [setupReminder] *)

(** The entry of a reminder id is [null]: every later call of
    [setupReminder] or [handleTaskCancellation] for the id throws on it. *)
Definition nullEntry (id : string) (s : state) : Prop := activeReminders s !! id = Some None.

#[global] Instance nullEntry_dec id s : Decision (nullEntry id s) :=
  decide (activeReminders s !! id = Some None).

(** The state in which [setupReminder] reads the timezone: the job registered
    for the id, if any, has been cancelled. *)
Definition cancelled (id : string) (s : state) : state :=
  match activeReminders s !! id with
  | Some (Some j) => cancel j s
  | _ => s
  end.

(** Arming and registering the new job, after the old one was cancelled. *)
Definition armed (id : string) (s : state) : state :=
  with_activeReminders <[id := Some (nextJob (cancelled id s))]> (addJob id (cancelled id s)).

(** Registering [null], after the old job was cancelled: what a rule that
    node-schedule does not take leads to. *)
Definition nulled (id : string) (s : state) : state :=
  with_activeReminders <[id := None]> (cancelled id s).

(** The state after [activeReminders.set(reminderId, job)]. *)
Definition registered (rule : timeOption) (id : string) (s : state) : state :=
  if validRule rule then armed id s else nulled id s.

(** [setupReminder] is an async function: at [await db.get(...)], after the
    registered job was cancelled, it gives the event loop away.  What it runs
    when the read settles, in the state [s1] it finds then: *)
Definition setupReminder_resume (e : env) (userId taskName : string)
    (scheduleType : scheduleType) (time : timeOption) (s1 : state) : completion moment * state :=
  let id := reminderId userId taskName in
  if dbGetFails e then (Throw StorageError, s1)
  else
    match db_get_timezone userId (db s1) with
    | None => (Throw TypeError, s1)
    | Some userTimezone =>
        match nextRunOf (clock e) userTimezone scheduleType time with
        | Throw err => (Throw err, s1)
        | Hang => (Hang, s1)
        | Return nextRun =>
            let '(job, s2) := scheduleJob time id s1 in
            let s3 := with_activeReminders <[id := job]> s2 in
            if dbSetFails e then (Throw StorageError, s3)
            else
              (Return nextRun,
               with_db (db_set_task userId taskName
                          {| name := taskName; schedule := scheduleType; time := time;
                             timezone := userTimezone;
                             nextReminder := valueOf userTimezone nextRun |}) s3)
        end
    end.

(** ** handleTaskCancellation

    [activeReminders.get(reminderId).cancel()] on an entry that is [null]
    throws before anything is deleted. *)
Definition handleTaskCancellation (dbDeleteFails : bool) (userId taskName : string) (s : state)
  : completion unit * state :=
  let id := reminderId userId taskName in
  let countdownId := userId +:+ "_" +:+ taskName +:+ "_countdown" in
  if decide (activeReminders s !! id = Some None) then (Throw TypeError, s)
  else
    let s1 := match activeReminders s !! id with
              | Some (Some j) => with_activeReminders (delete id) (cancel j s)
              | _ => s
              end in
    let s2 := match activeCountdowns s1 !! countdownId with
              | Some h => with_activeCountdowns (delete countdownId) (clearInterval h s1)
              | None => s1
              end in
    if dbDeleteFails then (Throw StorageError, s2)
    else (Return tt, with_db (db_delete_task userId taskName) s2).

(** ** The sweeps: what they walk

    [db.all()] of quick.db resolves to an array with one object
    [{ id, value }] for each row of the table, here [row_id] and
    [row_value].  [Object.entries] of an array lists its indices, as decimal
    strings, with its elements: these are the [key] and the [value] of the
    loops of both sweeps. *)
Record row := { row_id : string; row_value : user }.

Definition db_all (d : list (string * user)) : list row :=
  (λ r : string * user, {| row_id := "user_" +:+ r.1; row_value := r.2 |}) <$> d.

Definition entries {A} (a : list A) : list (string * A) :=
  imap (λ (i : nat) x, (pretty i, x)) a.

(** [value.tasks] where [value] is an element of the array: the element has
    the properties [id] and [value] and no other, so the read gives
    [undefined]. *)
Definition tasksOf (value : row) : option (list (string * task)) := None.

(** [key.replace('user_', '')] for a key that starts with 'user_'. *)
Definition withoutPrefix (key : string) : string :=
  String.substring 5 (String.length key - 5) key.

(** ** cleanupStaleReminders

    The two [for ... of Object.entries(...)] loops, inside one [try]: a call
    that throws would end the sweep. *)
Fixpoint cleanupTasks (envOf : string → env) (userId : string) (ts : list (string * task))
    (s : state) : completion unit * state :=
  match ts with
  | [] => (Return tt, s)
  | (taskName, t) :: rest =>
      let id := reminderId userId taskName in
      match activeReminders s !! id with
      | Some _ => cleanupTasks envOf userId rest s
      | None =>
          match setupReminder (envOf id) userId taskName (schedule t) (time t) s with
          | (Return _, s') => cleanupTasks envOf userId rest s'
          | (Throw err, s') => (Throw err, s')
          | (Hang, s') => (Hang, s')
          end
      end
  end.

Fixpoint cleanupEntries (envOf : string → env) (es : list (string * row)) (s : state)
  : completion unit * state :=
  match es with
  | [] => (Return tt, s)
  | (key, value) :: rest =>
      if String.prefix "user_" key then
        match tasksOf value with
        | Some ts =>
            match cleanupTasks envOf (withoutPrefix key) ts s with
            | (Return _, s') => cleanupEntries envOf rest s'
            | other => other
            end
        | None => cleanupEntries envOf rest s
        end
      else cleanupEntries envOf rest s
  end.

(** [dbAllFails]: [db.all()] rejects.  [envOf id] is what a call of
    [setupReminder] for the reminder [id] would meet.  The [catch] logs and
    returns; [None] stands for a sweep that never returns. *)
Definition cleanupStaleReminders (dbAllFails : bool) (envOf : string → env) (s : state)
  : option state :=
  if dbAllFails then Some s
  else
    match cleanupEntries envOf (entries (db_all (db s))) s with
    | (Return _, s') => Some s'
    | (Throw _, s') => Some s'
    | (Hang, _) => None
    end.

(** ** restoreReminders: [db.all()] outside any [try], a [try] around each
    call. *)
Fixpoint restoreTasks (envOf : string → env) (userId : string) (ts : list (string * task))
    (s : state) : option state :=
  match ts with
  | [] => Some s
  | (taskName, t) :: rest =>
      match setupReminder (envOf (reminderId userId taskName)) userId taskName
              (schedule t) (time t) s with
      | (Return _, s') => restoreTasks envOf userId rest s'
      | (Throw _, s') => restoreTasks envOf userId rest s'
      | (Hang, _) => None
      end
  end.

Fixpoint restoreEntries (envOf : string → env) (es : list (string * row)) (s : state)
  : option state :=
  match es with
  | [] => Some s
  | (key, value) :: rest =>
      if String.prefix "user_" key then
        match tasksOf value with
        | Some ts =>
            match restoreTasks envOf (withoutPrefix key) ts s with
            | Some s' => restoreEntries envOf rest s'
            | None => None
            end
        | None => restoreEntries envOf rest s
        end
      else restoreEntries envOf rest s
  end.

Definition restoreReminders (dbAllFails : bool) (envOf : string → env) (s : state)
  : completion unit * state :=
  if dbAllFails then (Throw StorageError, s)
  else
    match restoreEntries envOf (entries (db_all (db s))) s with
    | Some s' => (Return tt, s')
    | None => (Hang, s)
    end.

(** ** Sequences of schedule and cancel requests *)
Inductive request :=
| Schedule (e : env) (userId taskName : string) (scheduleType : scheduleType) (time : timeOption)
| Cancel (dbDeleteFails : bool) (userId taskName : string).

(** One request run to its end; a request that never returns leaves no later
    state. *)
Definition serve (r : request) (s : state) : option state :=
  match r with
  | Schedule e userId taskName scheduleType time =>
      match setupReminder e userId taskName scheduleType time s with
      | (Hang, _) => None
      | (_, s') => Some s'
      end
  | Cancel dbDeleteFails userId taskName =>
      Some (handleTaskCancellation dbDeleteFails userId taskName s).2
  end.

Fixpoint serveAll (rs : list request) (s : state) : option state :=
  match rs with
  | [] => Some s
  | r :: rest =>
      match serve r s with
      | Some s' => serveAll rest s'
      | None => None
      end
  end.

(** The bot as it starts, with the stored data [d]. *)
Definition boot (d : list (string * user)) : state := with_db (λ _, d) initial.

(** Every scheduled job is the one registered under its reminder id, and the
    registered handles are below [nextJob]. *)
Definition registry_ok (s : state) : Prop :=
  NoDup (scheduledJobs s).*1 ∧
  (∀ j id, (j, id) ∈ scheduledJobs s → activeReminders s !! id = Some (Some j)) ∧
  (∀ id j, activeReminders s !! id = Some (Some j) → (j < nextJob s)%nat).

(** ** formatCountdown and startCountdownUpdate *)

(** [now] is the reading of the clock inside [formatCountdown]. *)
Definition formatCountdown (now targetDate : Z) : string :=
  let diff := targetDate - now in
  if diff <=? 0 then "Reminder due now!"
  else
    let days := diff / msPerDay in
    let hours := (diff / msPerHour) mod 24 in
    let minutes := (diff / msPerMinute) mod 60 in
    let seconds := (diff / msPerSecond) mod 60 in
    String.concat " "
      ((if 0 <? days then [pretty days +:+ "d"] else []) ++
       (if 0 <? hours then [pretty hours +:+ "h"] else []) ++
       (if 0 <? minutes then [pretty minutes +:+ "m"] else []) ++
       (if 0 <? seconds then [pretty seconds +:+ "s"] else [])).

Definition countdownIdOf (m : message) : string := guildId m +:+ "_" +:+ messageId m.

Definition startCountdownUpdate (m : message) (targetDate : Z) (s : state) : interval * state :=
  let countdownId := countdownIdOf m in
  let s1 := match activeCountdowns s !! countdownId with
            | Some h => clearInterval h s
            | None => s
            end in
  let '(h, s2) := setInterval {| tickerMessage := m; targetDate := targetDate |} s1 in
  (h, with_activeCountdowns <[countdownId := h]> s2).

(** What one run of the interval callback meets: the clock at its start, the
    clock inside [formatCountdown], and whether the platform rejects the
    edit.  An edit of a message that is gone is rejected in any case. *)
Record tickEnv := { tickNow : Z; formatNow : Z; editRejects : bool }.

(** The callback given to [setInterval], for the interval [h]. *)
Definition countdownTick (h : interval) (c : ticker) (te : tickEnv) (s : state) : state :=
  let countdownId := countdownIdOf (tickerMessage c) in
  let stop := λ s, with_activeCountdowns (delete countdownId) (clearInterval h s) in
  let diff := targetDate c - tickNow te in
  if diff <=? 0 then
    (* [message.delete().catch(() => {})] *)
    with_messages (delete (messageId (tickerMessage c))) (stop s)
  else
    let countdown := formatCountdown (formatNow te) (targetDate c) in
    match messages s !! messageId (tickerMessage c) with
    | Some _ =>
        if editRejects te then stop s
        else with_messages <[messageId (tickerMessage c) := "Next reminder in: " +:+ countdown]> s
    | None => stop s
    end.

(** The timer system: the period of the interval [h] elapses.  Only an
    interval that has not been cleared runs its callback. *)
Definition fire (h : interval) (te : tickEnv) (s : state) : state :=
  match intervals s !! h with
  | Some c => countdownTick h c te (log_tick h s)
  | None => s
  end.

(** What can happen to the countdown tickers afterwards. *)
Inductive event :=
| Fire (h : interval) (te : tickEnv)
| Start (m : message) (targetDate : Z)
| CancelTask (dbDeleteFails : bool) (userId taskName : string).

Definition happen (ev : event) (s : state) : state :=
  match ev with
  | Fire h te => fire h te s
  | Start m targetDate => (startCountdownUpdate m targetDate s).2
  | CancelTask dbDeleteFails userId taskName =>
      (handleTaskCancellation dbDeleteFails userId taskName s).2
  end.

Definition happenAll (evs : list event) (s : state) : state := foldl (λ s ev, happen ev s) s evs.

(** Interval handles in use are below [nextInterval]. *)
Definition intervals_ok (s : state) : Prop :=
  ∀ h c, intervals s !! h = Some c → (h < nextInterval s)%nat.

(** ** Predicates used in the properties *)

(** The state a stopping tick leaves: the interval cleared and the registry
    entry deleted. *)
Definition stopped (h : interval) (c : ticker) (s : state) : state :=
  with_activeCountdowns (delete (countdownIdOf (tickerMessage c))) (clearInterval h (log_tick h s)).

(** Once its interval is cleared, a ticker's callback does not run again:
    the timer system runs the callbacks of live intervals only, and a handle
    is not given out twice. *)
Definition retired (h : interval) (s : state) : Prop :=
  intervals s !! h = None ∧ (h < nextInterval s)%nat.

End Bot.

(** ** dataManager.js *)

Module DataManager.

#[local] Set Warnings "-register-all".

Inductive json :=
| JNull
| JBool (b : bool)
| JNumber (n : Z)
| JString (s : string)
| JArray (l : list json)
| JObject (l : list (string * json)).

(** A path is the list of its segments below the root. *)
Abbreviation path := (list string) (only parsing).

Record filesystem := {
  dirs : gset (list string);
  files : gmap (list string) string
}.

Definition dirname (p : path) : path := removelast p.

(** The class: its one field is set by the constructor to
    [path.join(__dirname, '..', 'data', 'userData.json')]. *)
Record DataManager := { dataPath : list string }.

Definition constructor (dirname__ : path) : DataManager :=
  {| dataPath := removelast dirname__ ++ ["data"; "userData.json"] |}.

(** The file system calls, on a file system that grants what it is asked. *)

(** [fs.access(p)]: rejects when nothing is at [p]. *)
Definition access (p : path) (fs : filesystem) : completion unit :=
  if decide (is_Some (files fs !! p) ∨ p ∈ dirs fs) then Return tt else Throw ENOENT.

(** [fs.mkdir(p, { recursive: true })]: [p] and its ancestors. *)
Definition mkdir_recursive (p : path) (fs : filesystem) : filesystem :=
  {| dirs := dirs fs ∪ list_to_set ((λ n, take n p) <$> seq 0 (S (length p)));
     files := files fs |}.

(** [fs.writeFile(p, text)]: needs the directory of [p]. *)
Definition writeFile (p : path) (text : string) (fs : filesystem) : completion unit * filesystem :=
  if decide (p ∈ dirs fs) then (Throw EISDIR, fs)
  else if decide (dirname p ∈ dirs fs) then
    (Return tt, {| dirs := dirs fs; files := <[p := text]> (files fs) |})
  else (Throw ENOENT, fs).

(** [fs.readFile(p, 'utf8')]. *)
Definition readFile (p : path) (fs : filesystem) : completion string :=
  match files fs !! p with
  | Some text => Return text
  | None => if decide (p ∈ dirs fs) then Throw EISDIR else Throw ENOENT
  end.

Definition initialData : json := JObject [("users", JObject [])].

Definition quote : string := String (Ascii.ascii_of_nat 34) EmptyString.
Definition newline : string := String (Ascii.ascii_of_nat 10) EmptyString.

(** [JSON.stringify({ users: {} }, null, 2)]: an opening brace, the line
    [  "users": {}] and a closing brace. *)
Definition initialText : string :=
  "{" +:+ newline +:+ "  " +:+ quote +:+ "users" +:+ quote +:+ ": {}" +:+ newline +:+ "}".

Section WithJSON.

(** [JSON.parse]; [None] is a [SyntaxError]. *)
Variable JSON_parse : string → option json.

Definition parsed (text : string) : completion json :=
  match JSON_parse text with
  | Some v => Return v
  | None => Throw SyntaxError
  end.

Definition ensureDataFile (this : DataManager) (fs : filesystem) : completion unit * filesystem :=
  match access (dataPath this) fs with
  | Return _ => (Return tt, fs)
  | _ =>
      let fs1 := mkdir_recursive (dirname (dataPath this)) fs in
      writeFile (dataPath this) initialText fs1
  end.

Definition loadData (this : DataManager) (fs : filesystem) : completion json * filesystem :=
  match ensureDataFile this fs with
  | (Return _, fs1) =>
      match readFile (dataPath this) fs1 with
      | Return data => (parsed data, fs1)
      | Throw err => (Throw err, fs1)
      | Hang => (Hang, fs1)
      end
  | (Throw err, fs1) => (Throw err, fs1)
  | (Hang, fs1) => (Hang, fs1)
  end.

End WithJSON.

(** The file system after the data file of [this] was created in [fs]. *)
Definition created (this : DataManager) (fs : filesystem) : filesystem :=
  {| dirs := dirs (mkdir_recursive (dirname (dataPath this)) fs);
     files := <[dataPath this := initialText]> (files fs) |}.

Section WithStringify.

(** [JSON.stringify(data, null, 2)]. *)
Variable JSON_stringify : json → string.

(** [saveData] writes at once: it does not call [ensureDataFile]. *)
Definition saveData (this : DataManager) (data : json) (fs : filesystem)
  : completion unit * filesystem :=
  writeFile (dataPath this) (JSON_stringify data) fs.

End WithStringify.

End DataManager.

(** ** Concrete inputs *)

Module Scenario.
Import Moment Bot DataManager.
Local Open Scope Z_scope.

Definition tokyo : zone := {| zoneName := "Asia/Tokyo"; utcOffset := 540 |}.

(** A clock that stands still at the wall-clock reading [m] of [tokyo] while
    one call runs. *)
Definition clockAt (m : moment) : nat → Z := λ _, valueOf tokyo m.

Definition at_ (h mi : Z) : timeOption := {| hours := h; minutes := mi |}.

(** *** One user in Tokyo *)

Definition stored : list (string * user) :=
  [("42", {| userTimezone := Some tokyo; reminderChannel := Some "general"; tasks := None |})].

(** Monday 2024-01-01, 10:00 in Tokyo; the store answers. *)
Definition monday10 : env :=
  {| clock := λ _, valueOf tokyo (local 2024 0 1 10 0 0 0);
     dbGetFails := false; dbSetFails := false |}.

(** The same instant, with a store that rejects the write. *)
Definition monday10_write_rejected : env :=
  {| clock := λ _, valueOf tokyo (local 2024 0 1 10 0 0 0);
     dbGetFails := false; dbSetFails := true |}.

Definition requests : list request :=
  [ Schedule monday10 "42" "workout" (SString "daily") {| hours := 9; minutes := 0 |};
    Schedule monday10 "42" "workout" (SArray [1; 3]%Z) {| hours := 18; minutes := 0 |};
    Cancel false "42" "workout";
    Schedule monday10 "42" "stretch" (SString "daily") {| hours := 7; minutes := 0 |};
    Schedule monday10_write_rejected "42" "workout" (SString "daily") {| hours := 9; minutes := 0 |};
    Schedule monday10 "42" "workout" (SString "daily") {| hours := 20; minutes := 0 |} ].

Definition served : state := default initial (serveAll requests (boot stored)).

(** *** Stored tasks for the sweeps *)

Definition daily_at (taskName : string) (h : Z) : string * task :=
  (taskName,
   {| name := taskName; schedule := SString "daily"; time := {| hours := h; minutes := 0 |};
      timezone := tokyo; nextReminder := 0 |}).

(** One user with two stored tasks. *)
Definition stored_two : list (string * user) :=
  [("42", {| userTimezone := Some tokyo; reminderChannel := Some "general";
             tasks := Some [daily_at "a" 9; daily_at "b" 10] |})].

(** The store rejects the write of the first task only. *)
Definition write_of_a_rejected : string → env :=
  λ id, if decide (id = "42_a") then monday10_write_rejected else monday10.

(** A row that lost its timezone, before a row in order. *)
Definition stored_mixed : list (string * user) :=
  [("7", {| userTimezone := None; reminderChannel := None; tasks := Some [daily_at "a" 9] |});
   ("42", {| userTimezone := Some tokyo; reminderChannel := Some "general";
             tasks := Some [daily_at "b" 10] |})].

(** *** A ticker started one minute before its target *)

Definition reminderMessage : message := {| guildId := "guild"; messageId := "1001" |}.

(** The reminder was sent at [sentAt], with its next run a minute later. *)
Definition sentAt : Z := 1704070800000.

Definition channel : state :=
  with_messages <["1001" := "Next reminder in: 1m"]> initial.

Definition ticking : state := (startCountdownUpdate reminderMessage (sentAt + 60000) channel).2.

Definition firstTick : tickEnv :=
  {| tickNow := sentAt + 60000; formatNow := sentAt + 60000; editRejects := false |}.

(** *** An empty disk *)

Definition emptyDisk : filesystem := {| dirs := {[ [] ]}; files := ∅ |}.

Definition bot : DataManager := constructor ["bot"; "src"].

(** A parser that knows the initial text. *)
Definition parseInitial (text : string) : option json :=
  if decide (text = initialText) then Some initialData else None.

End Scenario.

(** ** The sweeps beside the requests *)

Module Lifecycle.
Import Moment Bot.
Local Open Scope Z_scope.

(** What the bot does over its life: requests of users, the hourly sweep and
    the sweep at start. *)
Inductive operation :=
| Request (r : request)
| Cleanup (dbAllFails : bool) (envOf : string → env)
| Restore (dbAllFails : bool) (envOf : string → env).

Definition perform (o : operation) (s : state) : option state :=
  match o with
  | Request r => serve r s
  | Cleanup dbAllFails envOf => cleanupStaleReminders dbAllFails envOf s
  | Restore dbAllFails envOf =>
      match restoreReminders dbAllFails envOf s with
      | (Hang, _) => None
      | (_, s') => Some s'
      end
  end.

Fixpoint performAll (os : list operation) (s : state) : option state :=
  match os with
  | [] => Some s
  | o :: rest =>
      match perform o s with
      | Some s' => performAll rest s'
      | None => None
      end
  end.

(** [registry_ok], and no job is registered under two ids. *)
Definition registry_strict (s : state) : Prop :=
  registry_ok s ∧
  ∀ id id' j,
    activeReminders s !! id = Some (Some j) → activeReminders s !! id' = Some (Some j) →
    id = id'.

(** Sweeps of [cleanupStaleReminders], one after the other. *)
Fixpoint cleanupAll (sweeps : list (bool * (string → env))) (s : state) : option state :=
  match sweeps with
  | [] => Some s
  | (dbAllFails, envOf) :: rest =>
      match cleanupStaleReminders dbAllFails envOf s with
      | Some s' => cleanupAll rest s'
      | None => None
      end
  end.

(** Every live interval is the one registered for its message. *)
Definition countdowns_ok (s : state) : Prop :=
  ∀ h c, intervals s !! h = Some c →
         activeCountdowns s !! countdownIdOf (tickerMessage c) = Some h.

End Lifecycle.

(** ** The menus: custom ids built and taken apart

    A button or select menu carries a [customId]; the handlers take it apart
    with [split('_')].  A screen is modelled by its components in order (the
    rows run together), a component by its custom id and, for a menu, the
    values of its options. *)

Module Flow.
Import Stdlib.Strings.Ascii.
Import Moment Bot.
Local Open Scope Z_scope.

(** [s.split(sep)] for a separator of one character. *)
Fixpoint split (sep : Ascii.ascii) (s : string) : list string :=
  match s with
  | EmptyString => [EmptyString]
  | String c r =>
      if decide (c = sep) then EmptyString :: split sep r
      else match split sep r with
           | x :: xs => String c x :: xs
           | [] => [String c EmptyString]
           end
  end.

(** [l.join(sep)]. *)
Definition join (sep : string) (l : list string) : string := String.concat sep l.

Fixpoint contains (c : Ascii.ascii) (s : string) : bool :=
  match s with
  | EmptyString => false
  | String c' r => if decide (c' = c) then true else contains c r
  end.

(** The value of a run of decimal digits. *)
Definition digit (c : Ascii.ascii) : option Z :=
  let n := Z.of_nat (Ascii.nat_of_ascii c) in
  if (48 <=? n) && (n <=? 57) then Some (n - 48) else None.

Fixpoint digits (acc : Z) (s : string) : option Z :=
  match s with
  | EmptyString => Some acc
  | String c r =>
      match digit c with
      | Some d => digits (10 * acc + d) r
      | None => None
      end
  end.

(** [Number(s)] where [s] is a run of decimal digits (0 for the empty run);
    what [Number] makes of any other string is left out of the model, which
    answers [None] there. *)
Definition Number (s : string) : option Z := digits 0 s.

(** [parseInt(s)] where [s] is a run of one or more decimal digits; [None]
    for any other string, as for [Number]. *)
Definition parseInt (s : string) : option Z :=
  if decide (s = "") then None else digits 0 s.

(** [`${x}`] for a value that may be [undefined]. *)
Definition shown (x : option string) : string := default "undefined" x.

(** *** generateTimeOptions *)

Record timeChoice := { label : string; value : string; description : string }.

(** [s.padStart(2, '0')]. *)
Definition padStart2 (s : string) : string :=
  match String.length s with
  | O => "00"
  | S O => "0" +:+ s
  | _ => s
  end.

Definition generateTimeOptions : list timeChoice :=
  (λ hour : Z,
     let hour12 := if hour =? 0 then 12 else if 12 <? hour then hour - 12 else hour in
     let ampm := if 12 <=? hour then "PM" else "AM" in
     let timeString := padStart2 (pretty hour) +:+ ":00" in
     {| label := timeString; value := timeString;
        description := pretty hour12 +:+ ":00 " +:+ ampm |})
  <$> (Z.of_nat <$> seq 0 24).

(** [const [hours, minutes] = time.split(':').map(Number)] with the
    [minutes || 0] of [setupReminder]. *)
Definition parseTime (time : string) : option timeOption :=
  let parts := split ":"%char time in
  match parts !! 0%nat with
  | Some h =>
      match Number h with
      | Some hours =>
          match parts !! 1%nat with
          | None => Some {| hours := hours; minutes := 0 |}
          | Some m =>
              match Number m with
              | Some minutes => Some {| hours := hours; minutes := minutes |}
              | None => None
              end
          end
      | None => None
      end
  | None => None
  end.

(** *** The screens *)

Inductive buttonStyle := Primary | Secondary | Success | Danger.

Inductive component :=
| Button (customId : string) (style : buttonStyle)
| SelectMenu (customId : string) (values : list string).

Definition DAYS : list (string * Z) :=
  [("Mon", 1); ("Tue", 2); ("Wed", 3); ("Thu", 4); ("Fri", 5); ("Sat", 6); ("Sun", 0)].

Definition showScheduleOptions (taskName : string) : list component :=
  [ Button ("schedule_daily_" +:+ taskName) Primary;
    Button ("schedule_weekly_" +:+ taskName) Primary;
    Button ("schedule_monthly_" +:+ taskName) Primary;
    Button ("schedule_custom_" +:+ taskName) Secondary ].

Definition showWeekDaySelection (taskName : string) : list component :=
  (λ day : string * Z, Button ("weekday_" +:+ pretty day.2 +:+ "_" +:+ taskName) Secondary)
  <$> DAYS.

Definition showDaySelection (taskName : string) : list component :=
  ((λ day : string * Z, Button ("day_" +:+ pretty day.2 +:+ "_" +:+ taskName) Secondary)
   <$> DAYS)
  ++ [Button ("confirm_days_" +:+ taskName) Success].

(** [scheduleDay] is [null] by default; [scheduleDay ? ... : ''] takes 0 for
    false as well. *)
Definition showTimeSelection (scheduleType taskName : string) (scheduleDay : option Z)
  : list component :=
  [ SelectMenu
      ("time_" +:+ scheduleType +:+ "_" +:+ taskName +:+
       match scheduleDay with
       | Some d => if d =? 0 then "" else "_" +:+ pretty d
       | None => ""
       end)
      (value <$> generateTimeOptions) ].

Definition showMonthDaySelection (taskName : string) : list component :=
  (λ day : Z, Button ("monthday_" +:+ pretty day +:+ "_" +:+ taskName) Secondary)
  <$> (Z.of_nat <$> seq 1 31).

(** *** The handlers of the buttons *)

(** [const [_, type, taskName] = interaction.customId.split('_')]; a type
    that is no case of the [switch] shows nothing. *)
Definition handleScheduleSelection (customId : string) : list component :=
  let parts := split "_"%char customId in
  let type := parts !! 1%nat in
  let taskName := shown (parts !! 2%nat) in
  if decide (type = Some "custom") then showDaySelection taskName
  else if decide (type = Some "weekly") then showWeekDaySelection taskName
  else if decide (type = Some "monthly") then showMonthDaySelection taskName
  else if decide (type = Some "daily") then showTimeSelection "daily" taskName None
  else [].

(** [None]: the day is not a run of digits, which [parseInt] of this model
    does not cover. *)
Definition handleWeekDaySelection (customId : string) : option (list component) :=
  let parts := split "_"%char customId in
  match parts !! 1%nat with
  | Some day =>
      match parseInt day with
      | Some d => Some (showTimeSelection "weekly" (shown (parts !! 2%nat)) (Some d))
      | None => None
      end
  | None => None
  end.

Definition handleMonthDaySelection (customId : string) : option (list component) :=
  let parts := split "_"%char customId in
  match parts !! 1%nat with
  | Some day =>
      match parseInt day with
      | Some d => Some (showTimeSelection "monthly" (shown (parts !! 2%nat)) (Some d))
      | None => None
      end
  | None => None
  end.

(** [selectedDays]: user id -> the [Set] of the days picked, in the order of
    insertion. *)
Definition toggle (day : string) (currentDays : list string) : list string :=
  if decide (day ∈ currentDays) then filter (λ x, x ≠ day) currentDays
  else currentDays ++ [day].

(** [handleDaySelection]: the new [selectedDays] and the buttons, the picked
    days in [ButtonStyle.Success].  [None]: the custom id has no day. *)
Definition handleDaySelection (userId customId : string) (selectedDays : gmap string (list string))
  : option (gmap string (list string) * list component) :=
  let parts := split "_"%char customId in
  match parts !! 1%nat with
  | Some day =>
      let taskName := shown (parts !! 2%nat) in
      let currentDays := toggle day (default [] (selectedDays !! userId)) in
      Some (<[userId := currentDays]> selectedDays,
            ((λ dayInfo : string * Z,
                Button ("day_" +:+ pretty dayInfo.2 +:+ "_" +:+ taskName)
                  (if decide (pretty dayInfo.2 ∈ currentDays) then Success else Secondary))
             <$> DAYS)
            ++ [Button ("confirm_days_" +:+ taskName) Success])
  | None => None
  end.

(** [handleDayConfirmation]: with no day picked an error is shown and
    [selectedDays] is left; [None] stands for that screen. *)
Definition handleDayConfirmation (userId customId : string)
    (selectedDays : gmap string (list string))
  : gmap string (list string) * option (list component) :=
  let parts := split "_"%char customId in
  let taskName := shown (parts !! 2%nat) in
  let selectedDaysList := default [] (selectedDays !! userId) in
  match selectedDaysList with
  | [] => (selectedDays, None)
  | _ =>
      (delete userId selectedDays,
       Some [ SelectMenu ("time_custom_" +:+ taskName +:+ "_" +:+ join "," selectedDaysList)
                (value <$> generateTimeOptions) ])
  end.

(** *** handleTimeChoice *)

Fixpoint numbers (l : list string) : option (list Z) :=
  match l with
  | [] => Some []
  | x :: r =>
      match Number x, numbers r with
      | Some n, Some ns => Some (n :: ns)
      | _, _ => None
      end
  end.

(** The arguments [taskName], [schedule], [selectedTime] of the call of
    [setupReminder] in [handleTimeChoice].  [None]: a part is missing or is
    no run of digits where a number is read. *)
Definition timeChoiceCall (customId selectedTime : string)
  : option (string * scheduleType * timeOption) :=
  let parts := split "_"%char customId in
  match parts !! 1%nat, parts !! 2%nat, parseTime selectedTime with
  | Some scheduleType, Some taskName, Some time =>
      match parts !! 3%nat with
      | Some customDays =>
          if decide (customDays = "") then Some (taskName, SString scheduleType, time)
          else
            match numbers (split ","%char customDays) with
            | Some days => Some (taskName, SArray days, time)
            | None => None
            end
      | None => Some (taskName, SString scheduleType, time)
      end
  | _, _, _ => None
  end.

Inductive reply :=
| TaskScheduled (nextInvocation : moment)
| SchedulingError.

(** [DAYS.find(day => day.value === d).label] throws for a [d] that is no
    weekday. *)
Definition describable (schedule : scheduleType) : bool :=
  match schedule with
  | SArray days => forallb (λ d, bool_decide (d ∈ DAYS.*2)) days
  | SString _ => true
  end.

(** [handleTimeChoice]: the call of [setupReminder] and the description of
    the schedule are in one [try]; the [catch] shows the scheduling error. *)
Definition handleTimeChoice (e : env) (userId customId selectedTime : string) (s : state)
  : option (completion reply * state) :=
  match timeChoiceCall customId selectedTime with
  | Some (taskName, schedule, time) =>
      Some
        match setupReminder e userId taskName schedule time s with
        | (Return nextInvocation, s') =>
            if describable schedule then (Return (TaskScheduled nextInvocation), s')
            else (Return SchedulingError, s')
        | (Throw _, s') => (Return SchedulingError, s')
        | (Hang, s') => (Hang, s')
        end
  | None => None
  end.

(** *** Which handler a custom id reaches *)

Inductive buttonHandler :=
| ScheduleSelection | DaySelection | WeekDaySelection | MonthDaySelection
| DayConfirmation | TaskButton.

(** The [switch (type)] of [handleButton]. *)
Definition handleButton (customId : string) : option buttonHandler :=
  let parts := split "_"%char customId in
  let type := shown (parts !! 0%nat) in
  if decide (type = "schedule") then Some ScheduleSelection
  else if decide (type = "day") then Some DaySelection
  else if decide (type = "weekday") then Some WeekDaySelection
  else if decide (type = "monthday") then Some MonthDaySelection
  else if decide (type = "confirm") then
    (if decide (parts !! 1%nat = Some "days") then Some DayConfirmation else None)
  else if decide (type = "add") then Some TaskButton
  else if decide (type = "remove") then Some TaskButton
  else None.

(** The [switch (type)] of [handleSelectMenu]. *)
Inductive selectHandler := TimezoneChoice | ChannelChoice | TimeChoice | TaskCancellation.

Definition handleSelectMenu (customId : string) : option selectHandler :=
  let type := shown (split "_"%char customId !! 0%nat) in
  if decide (type = "timezone") then Some TimezoneChoice
  else if decide (type = "channel") then Some ChannelChoice
  else if decide (type = "time") then Some TimeChoice
  else if decide (type = "cancel") then Some TaskCancellation
  else None.

(** *** The timezone menus *)

(** The custom id of the region menu of [handleTimezoneSelection]. *)
Definition handleTimezoneSelection (isFromAddTask : bool) : string :=
  "timezone_region" +:+ (if isFromAddTask then "_addtask" else "").

(** What [handleTimezoneChoice] shows: the timezones of the region, in a menu
    with the given custom id; or, once the timezone is stored, the schedule
    options of the pending task or the message that the timezone is set. *)
Inductive timezoneReply :=
| RegionTimezones (menuId : string)
| ScheduleOptions
| TimezoneSet.

(** [const [type, action] = interaction.customId.split('_')]. *)
Definition handleTimezoneChoice (customId : string) : timezoneReply :=
  let action := split "_"%char customId !! 1%nat in
  if String.prefix "timezone_region" customId then
    RegionTimezones ("timezone_select" +:+ (if decide (action = Some "addtask") then "_addtask" else ""))
  else if decide (action = Some "addtask") then ScheduleOptions
  else TimezoneSet.

(** What is left of a task name once a custom id that holds it has gone
    through [split('_')]: its part before the first underscore. *)
Definition firstSegment (taskName : string) : string := shown (split "_"%char taskName !! 0%nat).

(** Day buttons pressed one after the other. *)
Fixpoint pressAll (userId : string) (customIds : list string)
    (selectedDays : gmap string (list string)) : option (gmap string (list string)) :=
  match customIds with
  | [] => Some selectedDays
  | customId :: rest =>
      match handleDaySelection userId customId selectedDays with
      | Some (selectedDays', _) => pressAll userId rest selectedDays'
      | None => None
      end
  end.

Definition customIdOf (c : component) : string :=
  match c with
  | Button customId _ => customId
  | SelectMenu customId _ => customId
  end.

End Flow.

(** ** More concrete inputs *)

Module MoreInputs.
Import Moment Bot DataManager Scenario Lifecycle.
Local Open Scope Z_scope.

(** A start-up sweep, a request, an hourly sweep, a cancellation and another
    hourly sweep. *)
Definition lifetime : list operation :=
  [ Restore false (λ _, monday10);
    Request (Schedule monday10 "42" "a" (SArray [2; 4]) {| hours := 8; minutes := 0 |});
    Cleanup false write_of_a_rejected;
    Request (Cancel true "42" "b");
    Cleanup false (λ _, monday10) ].

Definition lived : state := default initial (performAll lifetime (boot stored_two)).

(** The task "workout" of [served] asked again, as a 'weekly' task, and two
    hourly sweeps after that. *)
Definition rescheduled : state :=
  (setupReminder monday10 "42" "workout" (SString "weekly") (at_ 9 0) served).2.

Definition hourly_sweeps : list (bool * (string → env)) :=
  [(false, λ _, monday10); (false, λ _, monday10)].

Definition swept_after_reschedule : state :=
  default initial (cleanupAll hourly_sweeps rescheduled).

(** The ticker of [ticking] started again for the same message, with a tick
    in between. *)
Definition earlyTick : tickEnv :=
  {| tickNow := sentAt + 10000; formatNow := sentAt + 10000; editRejects := false |}.

Definition ticker_events : list event :=
  [ Start reminderMessage (sentAt + 60000);
    Fire 0%nat earlyTick;
    Start reminderMessage (sentAt + 120000);
    Start {| guildId := "guild"; messageId := "1002" |} (sentAt + 120000) ].

(** A codec for the values that are one JSON string, without escapes: the
    text between the quotes. *)
Definition printAny (v : json) : string :=
  match v with
  | JString s => s
  | _ => "null"
  end.

Definition parseAny (text : string) : option json := Some (JString text).

End MoreInputs.

(** * Properties *)

(** ** moment values *)

Module MomentFacts.
Import Moment.
Local Open Scope Z_scope.

Example epoch_thursday : day (local 1970 0 1 12 0 0 0) = 4.
Proof. reflexivity. Qed.

Example monday_2024 : day (local 2024 0 1 10 0 0 0) = 1.
Proof. reflexivity. Qed.

Example fields_2024 :
  let m := local 2024 1 29 23 59 58 7 in
  (year m, month m, date m, get_hour m, get_minute m, get_second m, get_millisecond m)
  = (2024, 1, 29, 23, 59, 58, 7).
Proof. reflexivity. Qed.

Example add_month_clamps : add_months 1 (local 2023 0 31 9 0 0 0) = local 2023 1 28 9 0 0 0.
Proof. reflexivity. Qed.

Example add_month_december : add_months 1 (local 2023 11 31 9 0 0 0) = local 2024 0 31 9 0 0 0.
Proof. reflexivity. Qed.

Example set_date_carries : set_date 31 (local 2023 3 10 9 0 0 0) = local 2023 4 1 9 0 0 0.
Proof. reflexivity. Qed.

Lemma day_range m : 0 <= day m < 7.
Proof. unfold day. apply Z.mod_pos_bound. lia. Qed.

Lemma dayNumber_add_days n m : dayNumber (add_days n m) = dayNumber m + n.
Proof. unfold dayNumber, add_days. apply Z.div_add. unfold msPerDay. lia. Qed.

Lemma timeOfDay_add_days n m : timeOfDay (add_days n m) = timeOfDay m.
Proof. unfold timeOfDay, add_days. apply Z.mod_add. unfold msPerDay. lia. Qed.

Lemma day_add_days n m : day (add_days n m) = (day m + n) mod 7.
Proof.
  unfold day. rewrite dayNumber_add_days.
  rewrite Zplus_mod_idemp_l. f_equal. lia.
Qed.

Lemma add_days_add_days a b m : add_days a (add_days b m) = add_days (b + a) m.
Proof. unfold add_days. lia. Qed.

Lemma add_days_0 m : add_days 0 m = m.
Proof. unfold add_days. lia. Qed.

Lemma add_days_lt a b m : a < b → add_days a m < add_days b m.
Proof. unfold add_days, msPerDay. lia. Qed.

Lemma isBefore_lt m other : isBefore m other = true ↔ m < other.
Proof. unfold isBefore. apply Z.ltb_lt. Qed.

(** Instants of one zone are ordered as the wall-clock readings are. *)
Lemma valueOf_lt z m1 m2 : valueOf z m1 < valueOf z m2 ↔ m1 < m2.
Proof. unfold valueOf. lia. Qed.

Lemma tz_valueOf z m : tz (valueOf z m) z = m.
Proof. unfold tz, valueOf. lia. Qed.

End MomentFacts.

(** ** The next run computed by setupReminder *)

Module NextRun.
Import Moment MomentFacts Bot Scenario.
Local Open Scope Z_scope.

(** *** The custom loop *)

Lemma customLoop_Some fuel days m r :
  customLoop fuel days m = Some r →
  ∃ k, 0 <= k < Z.of_nat fuel ∧ r = add_days k m ∧ includes days (day r) = true ∧
       ∀ k', 0 <= k' < k → includes days (day (add_days k' m)) = false.
Proof.
  revert m. induction fuel as [|fuel IH]; intros m H; [discriminate|].
  cbn [customLoop] in H. destruct (includes days (day m)) eqn:Hin.
  - injection H as <-. exists 0. rewrite add_days_0. repeat split; [lia..|done|]. intros; lia.
  - destruct (IH _ H) as (k & Hk & -> & Hr & Hbefore).
    exists (k + 1). rewrite add_days_add_days in *.
    replace (1 + k) with (k + 1) in * by lia.
    repeat split; [lia..|done|].
    intros k' Hk'. destruct (decide (k' = 0)) as [->|Hne].
    + by rewrite add_days_0.
    + specialize (Hbefore (k' - 1) ltac:(lia)). rewrite add_days_add_days in Hbefore.
      by replace (1 + (k' - 1)) with k' in Hbefore by lia.
Qed.

Lemma customLoop_None fuel days m :
  customLoop fuel days m = None →
  ∀ k, 0 <= k < Z.of_nat fuel → includes days (day (add_days k m)) = false.
Proof.
  revert m. induction fuel as [|fuel IH]; intros m H k Hk; [lia|].
  cbn [customLoop] in H. destruct (includes days (day m)) eqn:Hin; [discriminate|].
  destruct (decide (k = 0)) as [->|Hne].
  - by rewrite add_days_0.
  - specialize (IH _ H (k - 1) ltac:(lia)). rewrite add_days_add_days in IH.
    by replace (1 + (k - 1)) with k in IH by lia.
Qed.

(** In seven tests the loop has seen every weekday. *)
Lemma week_covers days m :
  customLoop weekLength days m = None → ∀ w, 0 <= w < 7 → includes days w = false.
Proof.
  intros H w Hw.
  pose proof (customLoop_None _ _ _ H ((w - day m) mod 7)) as Hk.
  rewrite day_add_days in Hk.
  pose proof (day_range m) as Hd.
  replace ((day m + (w - day m) mod 7) mod 7) with w in Hk.
  - apply Hk. unfold weekLength. pose proof (Z.mod_pos_bound (w - day m) 7). lia.
  - rewrite Zplus_mod_idemp_r. replace (day m + (w - day m)) with w by lia.
    symmetry. apply Z.mod_small. lia.
Qed.

(** A loop that has not left after seven tests never leaves: the model's
    [Hang] is the source's endless loop. *)
Lemma customLoop_stuck days m :
  customLoop weekLength days m = None → ∀ fuel m', customLoop fuel days m' = None.
Proof.
  intros H fuel. induction fuel as [|fuel IH]; intros m'; [done|].
  cbn [customLoop]. rewrite (week_covers _ _ H _ (day_range m')). apply IH.
Qed.

(** With a weekday in the set, the loop leaves after at most six additions,
    on the first day from today on whose weekday is in the set. *)
Lemma customLoop_exits days m w :
  0 <= w < 7 → includes days w = true →
  ∃ k, 0 <= k <= 6 ∧ customLoop weekLength days m = Some (add_days k m) ∧
       includes days (day (add_days k m)) = true ∧
       ∀ k', 0 <= k' < k → includes days (day (add_days k' m)) = false.
Proof.
  intros Hw Hin. destruct (customLoop weekLength days m) as [r|] eqn:H.
  - destruct (customLoop_Some _ _ _ _ H) as (k & Hk & -> & Hr & Hbefore).
    exists k. unfold weekLength in Hk. repeat split; [lia..|done|done].
  - rewrite (week_covers _ _ H _ Hw) in Hin. discriminate.
Qed.

(** The loop never looks at the clock: when today's weekday is in the set it
    returns today's candidate as it is. *)
Lemma customLoop_today days m fuel :
  includes days (day m) = true → customLoop (S fuel) days m = Some m.
Proof. intros H. cbn [customLoop]. by rewrite H. Qed.

Example custom_monthday_hangs :
  nextRunOf (clockAt (local 2024 0 1 10 0 0 0)) tokyo (SArray [15]) (at_ 9 0) = Hang.
Proof. reflexivity. Qed.

(** *** What is thrown does not depend on the clock *)

Lemma nextRunOf_Throw clock clock' z st tm err :
  nextRunOf clock z st tm = Throw err → nextRunOf clock' z st tm = Throw err.
Proof.
  unfold nextRunOf, nextRunWith, scheduleDay_in_scope.
  destruct st as [days|s].
  - destruct (customLoop _ _ _); discriminate.
  - repeat case_decide; done.
Qed.

(** C1 (fails on the code): the next run returned for a custom schedule whose
    set holds today's weekday is today at the requested time, also when that
    time has passed.  On Monday 2024-01-01 at 10:00 a task for Mondays at
    09:00 gets the next run Monday 2024-01-01 09:00, an hour before now. *)
Theorem next_run_in_the_past :
  let now := local 2024 0 1 10 0 0 0 in
  nextRunOf (clockAt now) tokyo (SArray [1]) (at_ 9 0) = Return (local 2024 0 1 9 0 0 0) ∧
  local 2024 0 1 9 0 0 0 < tz (clockAt now 0%nat) tokyo.
Proof. split; [reflexivity | vm_compute; reflexivity]. Qed.

(** The daily branch compares with [isBefore]: a candidate equal to now is
    kept. *)
Example daily_equal_to_now :
  let now := local 2024 0 1 9 0 0 0 in
  nextRunOf (clockAt now) tokyo (SString "daily") (at_ 9 0) = Return now.
Proof. reflexivity. Qed.

(** The candidate: today's date of the second reading of the clock, at the
    requested hour and minute, second 0, with that reading's milliseconds. *)
Lemma candidate_fields h mi b :
  0 <= h < 24 → 0 <= mi < 60 →
  second 0 (minute mi (hour h b))
  = dayNumber b * msPerDay + h * msPerHour + mi * msPerMinute + get_millisecond b.
Proof.
  intros Hh Hmi.
  unfold second, minute, hour, get_second, get_minute, get_hour, get_millisecond,
    Moment.timeOfDay, dayNumber, msPerDay, msPerHour, msPerMinute, msPerSecond.
  Z.div_mod_to_equations. lia.
Qed.

(** The daily branch does compare with now: with a clock that does not run
    backwards its next run is never before now. *)
Lemma daily_not_before_now clock z tm :
  0 <= hours tm < 24 → 0 <= minutes tm < 60 →
  clock 0%nat <= clock 1%nat →
  ∃ r, nextRunOf clock z (SString "daily") tm = Return r ∧ tz (clock 0%nat) z <= r.
Proof.
  intros Hh Hmi Hclock. unfold nextRunOf, nextRunWith.
  rewrite decide_True by done. rewrite (candidate_fields _ _ _ Hh Hmi).
  set (b := tz (clock 1%nat) z). set (now := tz (clock 0%nat) z).
  assert (now <= b) as Hnow by (unfold now, b, tz; lia).
  assert (dayNumber b * msPerDay <= b < dayNumber b * msPerDay + msPerDay
          ∧ 0 <= get_millisecond b) as (Hb & Hms).
  { unfold dayNumber, get_millisecond, Moment.timeOfDay, msPerDay, msPerSecond.
    Z.div_mod_to_equations. lia. }
  eexists. split; [done|].
  unfold isBefore, add_days. unfold msPerDay, msPerHour, msPerMinute in *.
  destruct (Z.ltb_spec
              (dayNumber b * 86400000 + hours tm * 3600000 + minutes tm * 60000
               + get_millisecond b) now); lia.
Qed.

(** C4 (fails on the code): for a 'weekly' schedule no next run is computed;
    the branch reads [scheduleDay], which has no binding in [setupReminder],
    and throws at whatever time it runs. *)
Theorem weekly_throws (clock : nat → Z) (z : zone) (time : timeOption) :
  nextRunOf clock z (SString "weekly") time = Throw ReferenceError.
Proof. reflexivity. Qed.

(** Were [scheduleDay] bound, the branch would still keep a candidate of the
    target weekday whose time has passed: [.day(scheduleDay + 0)] moves
    nothing. *)
Lemma weekly_bound_same_day clock z time d :
  let now := tz (clock 0%nat) z in
  let nextRun := second 0 (minute (minutes time) (hour (hours time) (tz (clock 1%nat) z))) in
  day nextRun = d → nextRun < now →
  nextRunWith (Some d) clock z (SString "weekly") time = Return nextRun.
Proof.
  intros now nextRun Hd Hlt. unfold nextRunWith. repeat case_decide; try done.
  fold nextRun now. f_equal.
  rewrite Hd, Z.ltb_irrefl, Z.add_0_r.
  destruct (_ || _); [|done]. unfold set_day. rewrite Hd, Z.sub_diag. apply add_days_0.
Qed.

Example weekly_bound_wednesday_passed :
  nextRunWith (Some 3) (clockAt (local 2024 0 3 10 0 0 0)) tokyo (SString "weekly") (at_ 9 0)
  = Return (local 2024 0 3 9 0 0 0).
Proof. reflexivity. Qed.

Example weekly_bound_monday_to_wednesday :
  nextRunWith (Some 3) (clockAt (local 2024 0 1 8 0 0 0)) tokyo (SString "weekly") (at_ 9 0)
  = Return (local 2024 0 3 9 0 0 0).
Proof. reflexivity. Qed.

(** C5 (fails on the code): the custom loop stops on the first day whose
    weekday is in the set and never compares the candidate with now.  On
    Wednesday 2024-01-03 at 18:30, for the set Wednesday, Friday at 07:00, it
    makes no step and the next run is that Wednesday 07:00, before now. *)
Theorem custom_stops_before_now :
  let now := local 2024 0 3 18 30 0 0 in
  let candidate := local 2024 0 3 7 0 0 0 in
  customLoop weekLength [3; 5] candidate = Some candidate ∧
  nextRunOf (clockAt now) tokyo (SArray [3; 5]) (at_ 7 0) = Return candidate ∧
  isBefore candidate (tz (clockAt now 0%nat) tokyo) = true.
Proof. repeat split; reflexivity. Qed.

(** C6 (fails on the code): for a 'monthly' schedule no next run is computed;
    the branch reads [scheduleDay], which has no binding in [setupReminder],
    and throws before any clamp is taken. *)
Theorem monthly_throws (clock : nat → Z) (z : zone) (time : timeOption) :
  nextRunOf clock z (SString "monthly") time = Throw ReferenceError.
Proof. reflexivity. Qed.

(** Were [scheduleDay] bound, the branch would clamp per month. *)
Example monthly_bound_april :
  nextRunWith (Some 31) (clockAt (local 2023 3 10 10 0 0 0)) tokyo (SString "monthly") (at_ 9 0)
  = Return (local 2023 3 30 9 0 0 0).
Proof. reflexivity. Qed.

Example monthly_bound_april_passed :
  nextRunWith (Some 31) (clockAt (local 2023 3 30 10 0 0 0)) tokyo (SString "monthly") (at_ 9 0)
  = Return (local 2023 4 31 9 0 0 0).
Proof. reflexivity. Qed.

Example monthly_bound_february :
  nextRunWith (Some 29) (clockAt (local 2023 1 3 10 0 0 0)) tokyo (SString "monthly") (at_ 9 0)
  = Return (local 2023 1 28 9 0 0 0).
Proof. reflexivity. Qed.

End NextRun.

(** ** The registry of live timers *)

Module Registry.
Import Moment MomentFacts Bot Scenario.

Lemma NoDup_fst_filter {A B} (P : A * B → Prop) `{∀ x, Decision (P x)} (l : list (A * B)) :
  NoDup l.*1 → NoDup (filter P l).*1.
Proof.
  intros Hl. eapply sublist_NoDup; [exact Hl|].
  apply fmap_sublist, sublist_filter.
Qed.

Lemma boot_ok d : registry_ok (boot d).
Proof.
  repeat split; cbn.
  - constructor.
  - intros j id Hin. by apply elem_of_nil in Hin.
  - intros id j Hin. by rewrite lookup_empty in Hin.
Qed.

(** The jobs scheduled for an id are the registered one at most. *)
Lemma registry_ok_timers s id j :
  registry_ok s → j ∈ liveTimers id s → activeReminders s !! id = Some (Some j).
Proof.
  intros (_ & Hreg & _). unfold liveTimers.
  intros ([j' id'] & -> & [Hid Hin]%list_elem_of_filter)%list_elem_of_fmap.
  cbn in *. subst id'. by apply Hreg.
Qed.

(** One live timer at most, from the invariant. *)
Lemma registry_ok_at_most_one s id : registry_ok s → length (liveTimers id s) ≤ 1.
Proof.
  intros Hok. pose proof Hok as (Hnd & _ & _).
  pose proof (λ j, registry_ok_timers s id j Hok) as Hall. unfold liveTimers in *.
  assert (NoDup (filter (λ p : nat * string, p.2 = id) (scheduledJobs s)).*1) as Hnd'
    by by apply NoDup_fst_filter.
  destruct ((filter _ (scheduledJobs s)).*1) as [|j1 [|j2 l]]; cbn; [lia..|].
  pose proof (Hall j1 ltac:(set_solver)) as H1.
  pose proof (Hall j2 ltac:(set_solver)) as H2.
  assert (j1 = j2) as -> by congruence.
  apply NoDup_cons in Hnd' as [Hnotin _]. set_solver.
Qed.

(** No timer for an id whose entry is missing or [null]. *)
Lemma registry_ok_no_timer s id :
  registry_ok s → (∀ j, activeReminders s !! id ≠ Some (Some j)) → liveTimers id s = [].
Proof.
  intros Hok Hno. destruct (liveTimers id s) as [|j l] eqn:Hl; [done|].
  destruct (Hno j). apply registry_ok_timers; [done|]. rewrite Hl. by left.
Qed.

Lemma cancel_not_scheduled j s : j ∉ (scheduledJobs (cancel j s)).*1.
Proof.
  cbn. intros ([j' id] & -> & [Hne _]%list_elem_of_filter)%list_elem_of_fmap. by apply Hne.
Qed.

Lemma cancel_scheduled j j' id s :
  (j', id) ∈ scheduledJobs (cancel j s) ↔ j' ≠ j ∧ (j', id) ∈ scheduledJobs s.
Proof. cbn. by rewrite list_elem_of_filter. Qed.

Lemma cancel_ok j s : registry_ok s → registry_ok (cancel j s).
Proof.
  intros (Hnd & Hreg & Hlt). repeat split; cbn.
  - by apply NoDup_fst_filter.
  - intros j' id [_ Hin]%list_elem_of_filter. by apply Hreg.
  - done.
Qed.

Lemma cancelled_ok id s : registry_ok s → registry_ok (cancelled id s).
Proof. unfold cancelled. destruct (_ !! _) as [[j|]|]; [apply cancel_ok | done..]. Qed.

Lemma cancelled_no_timer id s : registry_ok s → liveTimers id (cancelled id s) = [].
Proof.
  intros Hok. pose proof Hok as (Hnd & Hreg & Hlt). unfold cancelled.
  destruct (activeReminders s !! id) as [[j|]|] eqn:Hj.
  - unfold liveTimers.
    destruct (filter _ (scheduledJobs (cancel j s))) as [|[j' id'] l] eqn:Hf; [done|].
    assert ((j', id') ∈ filter (λ p : nat * string, p.2 = id) (scheduledJobs (cancel j s)))
      as [Hid [Hne Hin]%cancel_scheduled]%list_elem_of_filter by (rewrite Hf; set_solver).
    cbn in Hid. subst id'. apply Hreg in Hin. congruence.
  - apply registry_ok_no_timer; [done|]. congruence.
  - apply registry_ok_no_timer; [done|]. congruence.
Qed.

Lemma cancelled_fields id s :
  activeReminders (cancelled id s) = activeReminders s ∧
  nextJob (cancelled id s) = nextJob s ∧ db (cancelled id s) = db s.
Proof. unfold cancelled. by destruct (_ !! _) as [[j|]|]. Qed.

Lemma cancelled_null id s : nullEntry id s → cancelled id s = s.
Proof. unfold nullEntry, cancelled. by intros ->. Qed.

Lemma armed_ok id s : registry_ok s → registry_ok (armed id s).
Proof.
  intros Hok. pose proof (cancelled_no_timer id s Hok) as Hnone.
  pose proof (cancelled_ok id s Hok) as (Hnd & Hreg & Hlt).
  unfold armed. set (s1 := cancelled id s) in *. repeat split; cbn.
  - apply NoDup_cons. split; [|done].
    intros ([j' id'] & Hj & Hin)%list_elem_of_fmap. cbn in Hj. subst j'.
    apply Hreg, Hlt in Hin. lia.
  - intros j id' [Heq|Hin]%elem_of_cons.
    + injection Heq as -> ->. apply lookup_insert_eq.
    + destruct (decide (id = id')) as [<-|Hne].
      * exfalso. unfold liveTimers in Hnone.
        assert ((j, id) ∈ filter (λ p : nat * string, p.2 = id) (scheduledJobs s1)) as Hf
          by by apply list_elem_of_filter.
        apply (list_elem_of_fmap_2 fst) in Hf. rewrite Hnone in Hf. by apply elem_of_nil in Hf.
      * rewrite lookup_insert_ne by done. by apply Hreg.
  - intros id' j. destruct (decide (id = id')) as [<-|Hne].
    + rewrite lookup_insert_eq. intros [= <-]. lia.
    + rewrite lookup_insert_ne by done. intros Hj%Hlt. lia.
Qed.

Lemma nulled_ok id s : registry_ok s → registry_ok (nulled id s).
Proof.
  intros Hok. pose proof (cancelled_no_timer id s Hok) as Hnone.
  pose proof (cancelled_ok id s Hok) as (Hnd & Hreg & Hlt).
  unfold nulled. set (s1 := cancelled id s) in *. repeat split; cbn.
  - done.
  - intros j id' Hin. destruct (decide (id = id')) as [<-|Hne].
    + exfalso. unfold liveTimers in Hnone.
      assert ((j, id) ∈ filter (λ p : nat * string, p.2 = id) (scheduledJobs s1)) as Hf
        by by apply list_elem_of_filter.
      apply (list_elem_of_fmap_2 fst) in Hf. rewrite Hnone in Hf. by apply elem_of_nil in Hf.
    + rewrite lookup_insert_ne by done. by apply Hreg.
  - intros id' j. destruct (decide (id = id')) as [<-|Hne].
    + by rewrite lookup_insert_eq.
    + rewrite lookup_insert_ne by done. apply Hlt.
Qed.

Lemma registered_ok tm id s : registry_ok s → registry_ok (registered tm id s).
Proof. unfold registered. destruct (validRule tm); [apply armed_ok|apply nulled_ok]. Qed.

Lemma with_db_ok f s : registry_ok s → registry_ok (with_db f s).
Proof. done. Qed.

(** A call for an id whose entry is [null] throws at the [cancel] and
    changes nothing. *)
Lemma setupReminder_null e userId taskName st tm s :
  nullEntry (reminderId userId taskName) s →
  setupReminder e userId taskName st tm s = (Throw TypeError, s).
Proof. intros Hnull. unfold setupReminder. by rewrite decide_True. Qed.

(** Any other call goes on from the cancelled state. *)
Lemma setupReminder_split e userId taskName st tm s :
  ¬ nullEntry (reminderId userId taskName) s →
  setupReminder e userId taskName st tm s
  = setupReminder_resume e userId taskName st tm (cancelled (reminderId userId taskName) s).
Proof. intros Hnull. unfold setupReminder. by rewrite decide_False. Qed.

Lemma scheduleJob_registered tm id s :
  with_activeReminders <[id := (scheduleJob tm id (cancelled id s)).1]>
    (scheduleJob tm id (cancelled id s)).2
  = registered tm id s.
Proof. unfold scheduleJob, registered. by destruct (validRule tm). Qed.

(** The states a call of [setupReminder] can end in. *)
Lemma setupReminder_cases e userId taskName st tm s :
  let id := reminderId userId taskName in
  let r := setupReminder e userId taskName st tm s in
  (r.2 = cancelled id s ∧ r.1 ≠ Hang ∧ (∀ a, r.1 ≠ Return a)) ∨
  (r = (Hang, cancelled id s)) ∨
  (r = (Throw StorageError, registered tm id s) ∧ dbSetFails e = true) ∨
  (∃ z nextRun,
      db_get_timezone userId (db s) = Some z ∧
      nextRunOf (clock e) z st tm = Return nextRun ∧
      r = (Return nextRun,
           with_db (db_set_task userId taskName
                      {| name := taskName; schedule := st; time := tm; timezone := z;
                         nextReminder := valueOf z nextRun |}) (registered tm id s))).
Proof.
  intros id r. subst r.
  destruct (decide (nullEntry id s)) as [Hnull|Hnull].
  { left. rewrite (setupReminder_null _ _ _ _ _ _ Hnull), (cancelled_null _ _ Hnull). done. }
  rewrite (setupReminder_split _ _ _ _ _ _ Hnull). unfold setupReminder_resume. fold id.
  destruct (cancelled_fields id s) as (Hreg & Hnext & Hdb).
  destruct (dbGetFails e); [left; cbn; naive_solver|].
  rewrite Hdb. destruct (db_get_timezone userId (db s)) as [z|]; [|left; cbn; naive_solver].
  destruct (nextRunOf (clock e) z st tm) as [nextRun|err|] eqn:Hnext';
    [|left; cbn; naive_solver|right; left; done].
  rewrite <- (scheduleJob_registered tm id s).
  destruct (scheduleJob tm id (cancelled id s)) as [job s2]. cbn [fst snd].
  destruct (dbSetFails e) eqn:Hset; [right; right; left; done|].
  right; right; right. eauto.
Qed.

Lemma setupReminder_ok e userId taskName st tm s :
  registry_ok s → registry_ok (setupReminder e userId taskName st tm s).2.
Proof.
  intros Hok.
  destruct (setupReminder_cases e userId taskName st tm s)
    as [(-> & _)|[->|[(-> & _)|(z & nextRun & _ & _ & ->)]]]; cbn [snd].
  - by apply cancelled_ok.
  - by apply cancelled_ok.
  - by apply registered_ok.
  - by apply with_db_ok, registered_ok.
Qed.

(** A cancellation for an id whose entry is [null] throws at the [cancel]
    and changes nothing. *)
Lemma handleTaskCancellation_null fails userId taskName s :
  nullEntry (reminderId userId taskName) s →
  handleTaskCancellation fails userId taskName s = (Throw TypeError, s).
Proof. intros Hnull. unfold handleTaskCancellation. by rewrite decide_True. Qed.

Lemma handleTaskCancellation_ok fails userId taskName s :
  registry_ok s → registry_ok (handleTaskCancellation fails userId taskName s).2.
Proof.
  intros Hok. unfold handleTaskCancellation.
  set (id := reminderId userId taskName).
  case_decide as Hnull; [done|].
  set (s1 := match activeReminders s !! id with
             | Some (Some j) => with_activeReminders (delete id) (cancel j s)
             | _ => s
             end).
  assert (registry_ok s1) as Hok1.
  { subst s1. destruct (activeReminders s !! id) as [[j|]|] eqn:Hj; [|done..].
    destruct Hok as (Hnd & Hreg & Hlt). repeat split; cbn.
    - by apply NoDup_fst_filter.
    - intros j' id' [Hne Hin]%list_elem_of_filter. cbn in Hne.
      destruct (decide (id = id')) as [<-|Hid].
      + apply Hreg in Hin. congruence.
      + rewrite lookup_delete_ne by done. by apply Hreg.
    - intros id' j'. destruct (decide (id = id')) as [<-|Hid].
      + by rewrite lookup_delete_eq.
      + rewrite lookup_delete_ne by done. apply Hlt. }
  clearbody s1.
  assert (registry_ok
            match activeCountdowns s1 !! (userId +:+ "_" +:+ taskName +:+ "_countdown") with
            | Some h =>
                with_activeCountdowns (delete (userId +:+ "_" +:+ taskName +:+ "_countdown"))
                  (clearInterval h s1)
            | None => s1
            end) as Hok2 by (destruct (activeCountdowns s1 !! _); done).
  by destruct fails.
Qed.

Lemma serve_ok r s s' : registry_ok s → serve r s = Some s' → registry_ok s'.
Proof.
  intros Hok. destruct r as [e userId taskName st tm|fails userId taskName]; cbn.
  - pose proof (setupReminder_ok e userId taskName st tm s Hok) as Hok'.
    destruct (setupReminder e userId taskName st tm s) as [[?|?|] s'']; naive_solver.
  - intros [= <-]. by apply handleTaskCancellation_ok.
Qed.

Lemma serveAll_ok rs s s' : registry_ok s → serveAll rs s = Some s' → registry_ok s'.
Proof.
  revert s. induction rs as [|r rs IH]; intros s Hok; cbn.
  - by intros [= <-].
  - destruct (serve r s) as [s1|] eqn:Hr; [|done]. eauto using serve_ok.
Qed.

(** The handle registered for an id is not scheduled after a call of
    [setupReminder] for that id, however the call ends. *)
Lemma setupReminder_cancels_old e userId taskName st tm s j :
  registry_ok s →
  activeReminders s !! reminderId userId taskName = Some (Some j) →
  j ∉ (scheduledJobs (setupReminder e userId taskName st tm s).2).*1.
Proof.
  intros Hok Hj. set (id := reminderId userId taskName) in *.
  assert (j ∉ (scheduledJobs (cancelled id s)).*1) as Hc.
  { unfold cancelled. rewrite Hj. apply cancel_not_scheduled. }
  assert (j ∉ (scheduledJobs (registered tm id s)).*1) as Ha.
  { unfold registered, armed, nulled. destruct (validRule tm); cbn; [|done].
    apply not_elem_of_cons. split; [|done].
    destruct (cancelled_fields id s) as (_ & -> & _).
    destruct Hok as (_ & _ & Hlt). apply Hlt in Hj. lia. }
  destruct (setupReminder_cases e userId taskName st tm s)
    as [(-> & _)|[->|[(-> & _)|(z & nextRun & _ & _ & ->)]]]; done.
Qed.

Lemma assoc_get_set_eq {V} k (v : V) l : assoc_get k (assoc_set k v l) = Some v.
Proof.
  induction l as [|[k' v'] l IH]; cbn.
  - by rewrite decide_True.
  - destruct (decide (k' = k)) as [->|Hne]; cbn.
    + by rewrite decide_True.
    + by rewrite decide_False.
Qed.

Lemma assoc_get_set_ne {V} k k' (v : V) l :
  k ≠ k' → assoc_get k' (assoc_set k v l) = assoc_get k' l.
Proof.
  intros Hne. induction l as [|[k0 v0] l IH]; cbn.
  - by rewrite decide_False.
  - destruct (decide (k0 = k)) as [->|Hne0]; cbn.
    + by rewrite !decide_False.
    + by rewrite IH.
Qed.

Lemma db_get_task_set userId taskName t d :
  db_get_task userId taskName (db_set_task userId taskName t d) = Some t.
Proof.
  unfold db_get_task, db_set_task. rewrite assoc_get_set_eq. cbn. apply assoc_get_set_eq.
Qed.

Lemma db_get_timezone_set userId taskName t d userId' :
  db_get_timezone userId' (db_set_task userId taskName t d) = db_get_timezone userId' d.
Proof.
  unfold db_get_timezone, db_set_task.
  destruct (decide (userId = userId')) as [<-|Hne].
  - rewrite assoc_get_set_eq. cbn. by destruct (assoc_get userId d).
  - by rewrite assoc_get_set_ne.
Qed.

Lemma armed_timer id s : registry_ok s → liveTimers id (armed id s) = [nextJob s].
Proof.
  intros Hok. pose proof (cancelled_no_timer id s Hok) as Hnone.
  destruct (cancelled_fields id s) as (_ & Hnext & _).
  unfold liveTimers in *.
  change (scheduledJobs (armed id s))
    with ((nextJob (cancelled id s), id) :: scheduledJobs (cancelled id s)).
  rewrite filter_cons_True by done. rewrite fmap_cons, Hnone, Hnext. done.
Qed.

Lemma armed_registered id s : activeReminders (armed id s) !! id = Some (Some (nextJob s)).
Proof.
  destruct (cancelled_fields id s) as (_ & Hnext & _).
  unfold armed. cbn. by rewrite lookup_insert_eq, Hnext.
Qed.

Lemma armed_db id s : db (armed id s) = db s.
Proof. destruct (cancelled_fields id s) as (_ & _ & Hdb). unfold armed. by cbn. Qed.

Lemma nulled_timer id s : registry_ok s → liveTimers id (nulled id s) = [].
Proof. intros Hok. by apply (cancelled_no_timer id s). Qed.

Lemma nulled_registered id s : nullEntry id (nulled id s).
Proof. unfold nullEntry, nulled. cbn. apply lookup_insert_eq. Qed.

Lemma nulled_db id s : db (nulled id s) = db s.
Proof. destruct (cancelled_fields id s) as (_ & _ & Hdb). unfold nulled. by cbn. Qed.

Lemma registered_valid tm id s : validRule tm = true → registered tm id s = armed id s.
Proof. unfold registered. by intros ->. Qed.

Lemma registered_invalid tm id s : validRule tm = false → registered tm id s = nulled id s.
Proof. unfold registered. by intros ->. Qed.

(** A call that gets as far as the write. *)
Lemma setupReminder_reaches_write e userId taskName st tm s z nextRun :
  ¬ nullEntry (reminderId userId taskName) s →
  dbGetFails e = false →
  db_get_timezone userId (db s) = Some z →
  nextRunOf (clock e) z st tm = Return nextRun →
  setupReminder e userId taskName st tm s =
    if dbSetFails e then (Throw StorageError, registered tm (reminderId userId taskName) s)
    else (Return nextRun,
          with_db (db_set_task userId taskName
                     {| name := taskName; schedule := st; time := tm; timezone := z;
                        nextReminder := valueOf z nextRun |})
                  (registered tm (reminderId userId taskName) s)).
Proof.
  intros Hnull Hget Htz Hnext. rewrite (setupReminder_split _ _ _ _ _ _ Hnull).
  unfold setupReminder_resume.
  set (id := reminderId userId taskName).
  destruct (cancelled_fields id s) as (_ & _ & Hdb).
  rewrite Hget, Hdb, Htz, Hnext. rewrite <- (scheduleJob_registered tm id s).
  destruct (scheduleJob tm id (cancelled id s)) as [job s2]. cbn [fst snd].
  by destruct (dbSetFails e).
Qed.

Example served_timers :
  liveTimers "42_workout" served = [4%nat] ∧ liveTimers "42_stretch" served = [2%nat] ∧
  (scheduledJobs served).*1 = [4%nat; 2%nat].
Proof. repeat split; vm_compute; reflexivity. Qed.

(** C2: after any finite sequence of schedule and cancel requests, each run to
    its end, from the bot's start with any stored data, every reminder id has
    at most one scheduled job; and a call of [setupReminder] for an id with a
    registered job first cancels that job, so that the new job is scheduled
    in a state with no timer for the id and the old handle is not scheduled
    afterwards. *)
Theorem at_most_one_live_timer d rs s :
  serveAll rs (boot d) = Some s →
  (∀ id, length (liveTimers id s) ≤ 1) ∧
  (∀ id, liveTimers id (cancelled id s) = []) ∧
  (∀ e userId taskName st tm j,
      activeReminders s !! reminderId userId taskName = Some (Some j) →
      j ∉ (scheduledJobs (setupReminder e userId taskName st tm s).2).*1).
Proof.
  intros Hs. pose proof (serveAll_ok _ _ _ (boot_ok d) Hs) as Hok.
  repeat split.
  - intros id. by apply registry_ok_at_most_one.
  - intros id. by apply cancelled_no_timer.
  - intros e userId taskName st tm j Hj. by apply setupReminder_cancels_old.
Qed.

Lemma at_most_one_live_timer_witness :
  serveAll requests (boot stored) = Some served ∧
  ((∀ id, length (liveTimers id served) ≤ 1) ∧
   (∀ id, liveTimers id (cancelled id served) = []) ∧
   (∀ e userId taskName st tm j,
       activeReminders served !! reminderId userId taskName = Some (Some j) →
       j ∉ (scheduledJobs (setupReminder e userId taskName st tm served).2).*1)).
Proof.
  split; [vm_compute; reflexivity|].
  apply (at_most_one_live_timer stored requests served). vm_compute; reflexivity.
Defined.

(** A call for a 'weekly' or 'monthly' schedule cancels the registered job
    and throws: nothing is scheduled in its place. *)
Lemma setupReminder_weekly_monthly e userId taskName s tm st z :
  st = SString "weekly" ∨ st = SString "monthly" →
  ¬ nullEntry (reminderId userId taskName) s →
  dbGetFails e = false →
  db_get_timezone userId (db s) = Some z →
  setupReminder e userId taskName st tm s
  = (Throw ReferenceError, cancelled (reminderId userId taskName) s).
Proof.
  intros Hst Hnull Hget Htz. rewrite (setupReminder_split _ _ _ _ _ _ Hnull).
  unfold setupReminder_resume.
  destruct (cancelled_fields (reminderId userId taskName) s) as (_ & _ & Hdb).
  rewrite Hget, Hdb, Htz. by destruct Hst as [-> | ->].
Qed.

(** *** Calls that overlap

    The sequences above run each call to its end.  Two calls for one id that
    are both waiting for the store when the first goes on are not such a
    sequence: each schedules a job, and the first job stays scheduled though
    the registry points to the second. *)
Example overlapping_calls :
  let waiting1 := cancelled "42_workout" (boot stored) in
  let waiting2 := cancelled "42_workout" waiting1 in
  let resumed1 := (setupReminder_resume monday10 "42" "workout" (SString "daily") (at_ 9 0)
                     waiting2).2 in
  let resumed2 := (setupReminder_resume monday10 "42" "workout" (SString "daily") (at_ 9 0)
                     resumed1).2 in
  liveTimers "42_workout" resumed2 = [1%nat; 0%nat] ∧
  activeReminders resumed2 !! "42_workout" = Some (Some 1%nat).
Proof. split; vm_compute; reflexivity. Qed.

(** *** A time that node-schedule does not take *)

(** With an hour outside 0..23 or a minute outside 0..59, a call that gets as
    far as scheduling returns as any other and the record is written, but
    [nodeSchedule.scheduleJob] gave [null]: the id has no timer and its entry
    is [null]. *)
Lemma setupReminder_invalid_time e userId taskName st tm s z nextRun :
  registry_ok s →
  validRule tm = false →
  ¬ nullEntry (reminderId userId taskName) s →
  dbGetFails e = false → dbSetFails e = false →
  db_get_timezone userId (db s) = Some z →
  nextRunOf (clock e) z st tm = Return nextRun →
  let id := reminderId userId taskName in
  let r := setupReminder e userId taskName st tm s in
  r.1 = Return nextRun ∧ liveTimers id r.2 = [] ∧ nullEntry id r.2 ∧
  db_get_task userId taskName (db r.2) =
    Some {| name := taskName; schedule := st; time := tm; timezone := z;
            nextReminder := valueOf z nextRun |}.
Proof.
  intros Hok Hrule Hnull Hget Hset Htz Hnext id r. subst r.
  rewrite (setupReminder_reaches_write _ _ _ _ _ _ _ _ Hnull Hget Htz Hnext), Hset.
  fold id. rewrite (registered_invalid _ _ _ Hrule). cbn [fst snd].
  split; [done|]. split; [by apply (nulled_timer id s)|]. split; [apply nulled_registered|].
  cbn. apply db_get_task_set.
Qed.

(** C3 as stated fails: with a store that rejects the write, the call throws,
    nothing is saved, and the job it scheduled stays scheduled. *)
Lemma write_rejected_timer_armed :
  let r := setupReminder monday10_write_rejected "42" "workout" (SString "daily")
             {| hours := 9; minutes := 0 |} (boot stored) in
  r.1 = Throw StorageError ∧
  db_get_task "42" "workout" (db r.2) = None ∧
  liveTimers "42_workout" r.2 = [0%nat].
Proof. repeat split; vm_compute; reflexivity. Qed.

(** C3 (amended): [setupReminder] schedules and registers the job first and
    writes the task record afterwards.  In a call that gets as far as the
    write, with a time of the day that node-schedule takes (hour 0..23,
    minute 0..59), a rejected write makes the call throw with the store
    unchanged and the new job scheduled and registered; an accepted write
    saves the record and returns the next run. *)
Theorem arm_then_write e userId taskName st tm s z nextRun :
  registry_ok s →
  (0 <= hours tm <= 23)%Z → (0 <= minutes tm <= 59)%Z →
  ¬ nullEntry (reminderId userId taskName) s →
  dbGetFails e = false →
  db_get_timezone userId (db s) = Some z →
  nextRunOf (clock e) z st tm = Return nextRun →
  let id := reminderId userId taskName in
  let r := setupReminder e userId taskName st tm s in
  liveTimers id r.2 = [nextJob s] ∧
  activeReminders r.2 !! id = Some (Some (nextJob s)) ∧
  if dbSetFails e then r.1 = Throw StorageError ∧ db r.2 = db s
  else r.1 = Return nextRun ∧
       db_get_task userId taskName (db r.2) =
         Some {| name := taskName; schedule := st; time := tm; timezone := z;
                 nextReminder := valueOf z nextRun |}.
Proof.
  intros Hok Hh Hm Hnull Hget Htz Hnext id r. subst r.
  assert (validRule tm = true) as Hrule by (unfold validRule; lia).
  rewrite (setupReminder_reaches_write _ _ _ _ _ _ _ _ Hnull Hget Htz Hnext). fold id.
  rewrite (registered_valid _ _ _ Hrule).
  destruct (dbSetFails e); cbn [fst snd].
  - split; [by apply armed_timer|]. split; [apply armed_registered|].
    split; [done|apply armed_db].
  - split; [by apply (armed_timer id s)|]. split; [apply armed_registered|].
    split; [done|]. cbn. apply db_get_task_set.
Qed.

Lemma arm_then_write_witness :
  let r := setupReminder monday10_write_rejected "42" "workout" (SString "daily")
             {| hours := 9; minutes := 0 |} (boot stored) in
  liveTimers "42_workout" r.2 = [0%nat] ∧
  activeReminders r.2 !! "42_workout" = Some (Some 0%nat) ∧
  r.1 = Throw StorageError ∧ db r.2 = stored.
Proof.
  apply (arm_then_write monday10_write_rejected "42" "workout" (SString "daily")
           {| hours := 9; minutes := 0 |} (boot stored) tokyo (local 2024 0 2 9 0 0 0)).
  - apply boot_ok.
  - cbn. lia.
  - cbn. lia.
  - unfold nullEntry. vm_compute. discriminate.
  - reflexivity.
  - reflexivity.
  - reflexivity.
Defined.

End Registry.

(** ** The reconciliation sweeps *)

Module Sweep.
Import Moment MomentFacts Bot Scenario NextRun Registry.

(** *** The keys that the loops see *)

(** A decimal numeral does not start with 'user_'. *)
Lemma pretty_N_go_no_user x s :
  String.prefix "user_" s = false → String.prefix "user_" (pretty_N_go x s) = false.
Proof.
  revert s. induction (N.lt_wf_0 x) as [x _ IH]; intros s Hs.
  assert (x = 0 ∨ 0 < x)%N as [->|Hx] by lia.
  - by rewrite pretty_N_go_0.
  - rewrite pretty_N_go_step by done. apply IH.
    { by apply N.div_lt. }
    unfold pretty_N_char. by repeat case_match.
Qed.

Lemma index_no_user (i : nat) : String.prefix "user_" (pretty i) = false.
Proof.
  unfold pretty, pretty_nat, pretty, pretty_N. case_decide; [done|].
  by apply pretty_N_go_no_user.
Qed.

(** So no key of [Object.entries(await db.all())] passes the test
    [key.startsWith('user_')], whatever the table holds. *)
Lemma entries_no_user {A} (a : list A) :
  Forall (λ e : string * A, String.prefix "user_" e.1 = false) (entries a).
Proof.
  apply Forall_forall. intros e (i & x & -> & _)%elem_of_lookup_imap. apply index_no_user.
Qed.

Lemma cleanupEntries_skips envOf es s :
  Forall (λ e : string * row, String.prefix "user_" e.1 = false) es →
  cleanupEntries envOf es s = (Return tt, s).
Proof.
  induction es as [|[key value] es IH]; [done|].
  intros [Hkey Hes]%Forall_cons. cbn in Hkey. cbn [cleanupEntries]. rewrite Hkey. by apply IH.
Qed.

Lemma restoreEntries_skips envOf es s :
  Forall (λ e : string * row, String.prefix "user_" e.1 = false) es →
  restoreEntries envOf es s = Some s.
Proof.
  induction es as [|[key value] es IH]; [done|].
  intros [Hkey Hes]%Forall_cons. cbn in Hkey. cbn [restoreEntries]. rewrite Hkey. by apply IH.
Qed.

(** Both sweeps come to their end without a call of [setupReminder]: they
    leave the state as it was. *)
Lemma cleanupStaleReminders_unchanged dbAllFails envOf s :
  cleanupStaleReminders dbAllFails envOf s = Some s.
Proof.
  unfold cleanupStaleReminders. destruct dbAllFails; [done|].
  by rewrite cleanupEntries_skips by apply entries_no_user.
Qed.

Lemma restoreReminders_unchanged dbAllFails envOf s :
  restoreReminders dbAllFails envOf s
  = (if dbAllFails then Throw StorageError else Return tt, s).
Proof.
  unfold restoreReminders. destruct dbAllFails; [done|].
  by rewrite restoreEntries_skips by apply entries_no_user.
Qed.

(** *** The inner loops, were they reached

    The loop over the tasks of one user is written with one [try] around the
    whole sweep in [cleanupStaleReminders] and with a [try] around each call
    in [restoreReminders]: on a list of tasks, the first stops at the first
    call that throws and the second goes on. *)
Lemma cleanupTasks_stops envOf userId taskName t rest s err s' :
  activeReminders s !! reminderId userId taskName = None →
  setupReminder (envOf (reminderId userId taskName)) userId taskName (schedule t) (time t) s
    = (Throw err, s') →
  cleanupTasks envOf userId ((taskName, t) :: rest) s = (Throw err, s').
Proof. intros Habs Hcall. cbn. by rewrite Habs, Hcall. Qed.

Lemma restoreTasks_goes_on envOf userId taskName t rest s err s' :
  setupReminder (envOf (reminderId userId taskName)) userId taskName (schedule t) (time t) s
    = (Throw err, s') →
  restoreTasks envOf userId ((taskName, t) :: rest) s = restoreTasks envOf userId rest s'.
Proof. intros Hcall. cbn. by rewrite Hcall. Qed.

(** *** The claims *)


(** The sweep on a bot with two live jobs and their stored tasks. *)
Example sweep_of_served :
  cleanupStaleReminders false (λ _, monday10) served = Some served ∧
  scheduledJobs served = [(4%nat, "42_workout"); (2%nat, "42_stretch")].
Proof. split; [apply cleanupStaleReminders_unchanged|vm_compute; reflexivity]. Qed.

(** C8 (fails on the code): with the row of user 7, which has no timezone,
    before the row of user 42, whose task b could be set up, neither sweep
    reaches task b: both come to their end with nothing scheduled for it.
    No record is processed, the sound ones no more than the malformed one:
    the keys of the loops are the indices '0' and '1' of the array that
    [db.all()] resolves to, and neither starts with 'user_'. *)
Theorem sweep_reaches_no_record :
  let s := boot stored_mixed in
  let swept := default initial (cleanupStaleReminders false (λ _, monday10) s) in
  let restored := (restoreReminders false (λ _, monday10) s).2 in
  (entries (db_all (db s))).*1 = ["0"; "1"] ∧
  row_id <$> (entries (db_all (db s))).*2 = ["user_7"; "user_42"] ∧
  db_get_timezone "7" (db s) = None ∧
  db_get_timezone "42" (db s) = Some tokyo ∧
  db_get_task "42" "b" (db s) = Some (daily_at "b" 10).2 ∧
  (setupReminder monday10 "42" "b" (SString "daily") (at_ 10 0) s).1
    = Return (local 2024 0 1 10 0 0 0) ∧
  cleanupStaleReminders false (λ _, monday10) s = Some swept ∧
  restoreReminders false (λ _, monday10) s = (Return tt, restored) ∧
  liveTimers "42_b" swept = [] ∧ activeReminders swept !! "42_b" = None ∧
  liveTimers "42_b" restored = [] ∧ activeReminders restored !! "42_b" = None.
Proof. repeat split; vm_compute; reflexivity. Qed.

End Sweep.

(** ** The countdown ticker *)

Module Countdown.
Import Moment Bot Scenario.
Local Open Scope Z_scope.

Lemma fire_armed h c te s :
  intervals s !! h = Some c → fire h te s = countdownTick h c te (log_tick h s).
Proof. unfold fire. by intros ->. Qed.

Lemma fire_cleared h te s : intervals s !! h = None → fire h te s = s.
Proof. unfold fire. by intros ->. Qed.

(** A tick before the target, with the display in place and the edit
    accepted, rewrites the countdown line and leaves the ticker running. *)
Lemma fire_running h c te s line :
  intervals s !! h = Some c →
  tickNow te < targetDate c →
  messages s !! messageId (tickerMessage c) = Some line →
  editRejects te = false →
  let s' := fire h te s in
  intervals s' !! h = Some c ∧
  activeCountdowns s' = activeCountdowns s ∧
  messages s' !! messageId (tickerMessage c)
    = Some ("Next reminder in: " +:+ formatCountdown (formatNow te) (targetDate c)).
Proof.
  intros Hh Hlt Hm He. rewrite (fire_armed _ _ _ _ Hh). unfold countdownTick.
  destruct (Z.leb_spec (targetDate c - tickNow te) 0) as [Hle|_]; [lia|].
  cbn [messages log_tick]. rewrite Hm, He. cbn. by rewrite lookup_insert_eq.
Qed.

Lemma fire_stops h c te s :
  intervals s !! h = Some c →
  targetDate c <= tickNow te ∨ editRejects te = true
    ∨ messages s !! messageId (tickerMessage c) = None →
  fire h te s =
    if targetDate c - tickNow te <=? 0
    then with_messages (delete (messageId (tickerMessage c))) (stopped h c s)
    else stopped h c s.
Proof.
  intros Hh Hstop. rewrite (fire_armed _ _ _ _ Hh). unfold countdownTick, stopped.
  destruct (Z.leb_spec (targetDate c - tickNow te) 0) as [Hle|Hgt]; [done|].
  cbn [messages log_tick].
  destruct Hstop as [Hpast|[He|Hm]]; [lia| |].
  - rewrite He. by destruct (messages s !! _).
  - by rewrite Hm.
Qed.

Lemma retired_happen h ev s :
  retired h s →
  retired h (happen ev s) ∧
  ∃ new, ticks (happen ev s) = new ++ ticks s ∧ h ∉ new.
Proof.
  intros [Hnone Hlt]. destruct ev as [h' te|m target|fails userId taskName]; cbn [happen].
  - unfold fire. destruct (intervals s !! h') as [c|] eqn:Hh'.
    + assert (h ≠ h') as Hne by congruence.
      assert (∀ s0, retired h s0 → retired h (clearInterval h' s0)) as Hclear.
      { intros s0 [Hn0 Hl0]. split; cbn; [|done].
        by rewrite lookup_delete_ne. }
      assert (retired h (log_tick h' s)) as Hlog by done.
      split.
      * unfold countdownTick.
        destruct (_ <=? 0); [by apply Hclear|].
        destruct (messages (log_tick h' s) !! _); [|by apply Hclear].
        destruct (editRejects te); [by apply Hclear|done].
      * exists [h']. split; [|by intros [= ->]%list_elem_of_singleton].
        unfold countdownTick.
        destruct (_ <=? 0); [done|].
        destruct (messages (log_tick h' s) !! _); [|done].
        by destruct (editRejects te).
    + split; [done|]. exists []. split; [done|]. by intros []%elem_of_nil.
  - split.
    + unfold startCountdownUpdate.
      destruct (activeCountdowns s !! countdownIdOf m) as [h'|]; cbn.
      * split; cbn; [|lia]. rewrite lookup_insert_ne by lia.
        destruct (decide (h' = h)) as [->|Hne];
          [by rewrite lookup_delete_eq|by rewrite lookup_delete_ne].
      * split; cbn; [|lia]. by rewrite lookup_insert_ne by lia.
    + exists []. split; [|by intros []%elem_of_nil].
      unfold startCountdownUpdate. by destruct (activeCountdowns s !! countdownIdOf m).
  - assert (∀ s0, ticks (handleTaskCancellation fails userId taskName s0).2 = ticks s0 ∧
                  nextInterval (handleTaskCancellation fails userId taskName s0).2
                    = nextInterval s0 ∧
                  (intervals s0 !! h = None →
                   intervals (handleTaskCancellation fails userId taskName s0).2 !! h = None))
      as Hcancel.
    { intros s0. unfold handleTaskCancellation.
      case_decide as Hnull; [done|].
      set (s1 := match activeReminders s0 !! reminderId userId taskName with
                 | Some (Some j) =>
                     with_activeReminders (delete (reminderId userId taskName)) (cancel j s0)
                 | _ => s0
                 end).
      assert (ticks s1 = ticks s0 ∧ nextInterval s1 = nextInterval s0 ∧
              intervals s1 = intervals s0) as (Ht & Hn & Hi)
        by (subst s1; by destruct (activeReminders s0 !! _) as [[?|]|]).
      rewrite <- Ht, <- Hn, <- Hi. clearbody s1.
      destruct (activeCountdowns s1 !! _) as [h'|]; destruct fails; cbn;
        repeat split; try done.
      all: intros Hs1; destruct (decide (h' = h)) as [->|Hne];
        [by rewrite lookup_delete_eq|by rewrite lookup_delete_ne]. }
    destruct (Hcancel s) as (Ht & Hn & Hi). split.
    + split; [by apply Hi|]. by rewrite Hn.
    + exists []. split; [done|]. by intros []%elem_of_nil.
Qed.

Lemma retired_forever h evs s :
  retired h s → ∃ new, ticks (happenAll evs s) = new ++ ticks s ∧ h ∉ new.
Proof.
  revert s. induction evs as [|ev evs IH]; intros s Hret; cbn.
  - exists []. split; [done|]. by intros []%elem_of_nil.
  - destruct (retired_happen h ev s Hret) as (Hret' & new & Hnew & Hh).
    destruct (IH _ Hret') as (new' & Hnew' & Hh').
    exists (new' ++ new). split.
    + unfold happenAll in Hnew'. by rewrite Hnew', Hnew, app_assoc.
    + by intros [?|?]%elem_of_app.
Qed.

Lemma stopped_retired h c s :
  intervals_ok s → intervals s !! h = Some c → retired h (stopped h c s).
Proof.
  intros Hok Hh. split; cbn.
  - apply lookup_delete_eq.
  - by eapply Hok.
Qed.

(** [startCountdownUpdate] keeps the handles in use below the counter. *)
Lemma startCountdownUpdate_ok m target s :
  intervals_ok s → intervals_ok (startCountdownUpdate m target s).2.
Proof.
  intros Hok h c. unfold startCountdownUpdate.
  assert (∀ h', intervals_ok (clearInterval h' s)) as Hclear.
  { intros h' h0 c0. cbn. intros [_ H]%lookup_delete_Some. by eapply Hok. }
  destruct (activeCountdowns s !! countdownIdOf m) as [h'|]; cbn.
  - intros [[<- _]|[_ H]]%lookup_insert_Some; [lia|].
    apply (Hclear h') in H. cbn in H. lia.
  - intros [[<- _]|[_ H]]%lookup_insert_Some; [lia|].
    apply Hok in H. lia.
Qed.

Lemma ticking_ok : intervals_ok ticking.
Proof.
  apply startCountdownUpdate_ok. intros h c. cbn. by rewrite lookup_empty.
Qed.

(** C9: a tick of a running ticker at which the target has passed removes
    the display, clears the interval and the registry entry, and is the
    ticker's last: whatever happens afterwards, its callback does not run
    again.  A tick whose edit is rejected, or whose display is gone, stops
    the ticker in the same way. *)
Theorem countdown_stops h c te s :
  intervals_ok s →
  intervals s !! h = Some c →
  targetDate c <= tickNow te ∨ editRejects te = true
    ∨ messages s !! messageId (tickerMessage c) = None →
  let s' := fire h te s in
  intervals s' !! h = None ∧
  activeCountdowns s' !! countdownIdOf (tickerMessage c) = None ∧
  (targetDate c <= tickNow te → messages s' !! messageId (tickerMessage c) = None) ∧
  ticks s' = h :: ticks s ∧
  ∀ evs, ∃ new, ticks (happenAll evs s') = new ++ ticks s' ∧ h ∉ new.
Proof.
  intros Hok Hh Hstop s'. subst s'. rewrite (fire_stops _ _ _ _ Hh Hstop).
  pose proof (stopped_retired _ _ _ Hok Hh) as Hret.
  destruct (Z.leb_spec (targetDate c - tickNow te) 0) as [Hle|Hgt].
  - repeat split.
    + apply Hret.
    + cbn. apply lookup_delete_eq.
    + intros _. cbn. apply lookup_delete_eq.
    + intros evs. by apply retired_forever.
  - repeat split.
    + apply Hret.
    + cbn. apply lookup_delete_eq.
    + intros Hpast. lia.
    + intros evs. by apply retired_forever.
Qed.

Lemma countdown_stops_witness :
  let s' := fire 0%nat firstTick ticking in
  intervals s' !! 0%nat = None ∧
  activeCountdowns s' !! "guild_1001" = None ∧
  messages s' !! "1001" = None ∧
  ticks s' = [0%nat] ∧
  ∀ evs, ∃ new, ticks (happenAll evs s') = new ++ ticks s' ∧ 0%nat ∉ new.
Proof.
  destruct (countdown_stops 0%nat
              {| tickerMessage := reminderMessage; targetDate := sentAt + 60000 |}
              firstTick ticking)
    as (H1 & H2 & H3 & H4 & H5).
  - exact ticking_ok.
  - vm_compute; reflexivity.
  - left. cbn. lia.
  - cbv zeta. split; [exact H1|]. split; [exact H2|].
    split; [apply H3; cbn; lia|]. split; [exact H4|exact H5].
Defined.

(** Ticks before the target keep the ticker running. *)
Example tick_before_target :
  let te := {| tickNow := sentAt + 10000; formatNow := sentAt + 10000; editRejects := false |} in
  let s' := fire 0%nat te ticking in
  is_Some (intervals s' !! 0%nat) ∧ messages s' !! "1001" = Some "Next reminder in: 50s".
Proof. split; [by eexists|]; vm_compute; reflexivity. Qed.

End Countdown.

(** ** Loading the data file *)

Module DataFile.
Import DataManager Scenario.

Lemma dirname_dataPath dirname__ :
  dirname (dataPath (constructor dirname__)) = removelast dirname__ ++ ["data"].
Proof. unfold dirname, constructor. cbn [dataPath]. by rewrite removelast_app. Qed.

Lemma mkdir_recursive_self p fs : p ∈ dirs (mkdir_recursive p fs).
Proof.
  unfold mkdir_recursive; cbn [dirs].
  apply elem_of_union_r, elem_of_list_to_set, list_elem_of_fmap.
  exists (length p). split; [by rewrite firstn_all|]. apply elem_of_seq. lia.
Qed.

Lemma mkdir_recursive_only_shorter p q fs :
  q ∈ dirs (mkdir_recursive p fs) → q ∈ dirs fs ∨ length q ≤ length p.
Proof.
  unfold mkdir_recursive; cbn [dirs]. intros [?|Hin]%elem_of_union; [by left|right].
  apply elem_of_list_to_set, list_elem_of_fmap in Hin as (n & -> & _).
  rewrite length_take. lia.
Qed.

Lemma dataPath_not_created dirname__ fs :
  let this := constructor dirname__ in
  dataPath this ∉ dirs fs → dataPath this ∉ dirs (mkdir_recursive (dirname (dataPath this)) fs).
Proof.
  intros this Hnot [Hin|Hlen]%mkdir_recursive_only_shorter; [done|].
  subst this. rewrite dirname_dataPath in Hlen. unfold constructor in Hlen. cbn in Hlen.
  rewrite !length_app in Hlen. cbn in Hlen. lia.
Qed.

Section WithJSON.

Variable JSON_parse : string → option json.

(** With nothing at the path, [ensureDataFile] makes the directory and
    writes the initial text. *)
Lemma ensureDataFile_absent dirname__ fs :
  let this := constructor dirname__ in
  access (dataPath this) fs = Throw ENOENT →
  ensureDataFile this fs = (Return tt, created this fs).
Proof.
  intros this Hacc. unfold ensureDataFile. rewrite Hacc.
  assert (dataPath this ∉ dirs fs) as Hnodir.
  { unfold access in Hacc. case_decide as H; [done|]. intros Hin. apply H. by right. }
  unfold writeFile.
  rewrite decide_False by by apply dataPath_not_created.
  rewrite decide_True by apply mkdir_recursive_self. done.
Qed.

Lemma ensureDataFile_present this fs text :
  files fs !! dataPath this = Some text → ensureDataFile this fs = (Return tt, fs).
Proof.
  intros Hfile. unfold ensureDataFile, access.
  rewrite decide_True; [done|]. left. by eexists.
Qed.

(** C10: with no data file, [loadData] makes the directory of the file,
    writes the initial text into the file and returns the parse of that text,
    the initial object; with a data file it returns the parse of the file's
    text.  It never throws for a missing file. *)
Theorem loadData_creates_missing_file dirname__ fs :
  let this := constructor dirname__ in
  JSON_parse initialText = Some initialData →
  (access (dataPath this) fs = Throw ENOENT →
     loadData JSON_parse this fs = (Return initialData, created this fs) ∧
     files (created this fs) !! dataPath this = Some initialText ∧
     dirname (dataPath this) ∈ dirs (created this fs)) ∧
  (∀ text, files fs !! dataPath this = Some text →
     loadData JSON_parse this fs = (parsed JSON_parse text, fs)) ∧
  (loadData JSON_parse this fs).1 ≠ Throw ENOENT.
Proof.
  intros this Hparse. subst this. set (this := constructor dirname__) in *.
  assert (access (dataPath this) fs = Throw ENOENT →
          loadData JSON_parse this fs = (Return initialData, created this fs)) as Habsent.
  { intros Hacc. unfold loadData. subst this. rewrite (ensureDataFile_absent dirname__ fs Hacc).
    unfold readFile, created. cbn [files]. rewrite lookup_insert_eq.
    unfold parsed. by rewrite Hparse. }
  assert (∀ text, files fs !! dataPath this = Some text →
          loadData JSON_parse this fs = (parsed JSON_parse text, fs)) as Hpresent.
  { intros text Hfile. unfold loadData. rewrite (ensureDataFile_present _ _ _ Hfile).
    unfold readFile. by rewrite Hfile. }
  split; [|split; [done|]].
  - intros Hacc. split; [by apply Habsent|]. split.
    + cbn. apply lookup_insert_eq.
    + apply mkdir_recursive_self.
  - destruct (files fs !! dataPath this) as [text|] eqn:Hfile.
    + rewrite (Hpresent _ eq_refl). unfold parsed. by destruct (JSON_parse text).
    + destruct (decide (dataPath this ∈ dirs fs)) as [Hdir|Hnodir].
      * unfold loadData, ensureDataFile, access.
        rewrite decide_True by by right. unfold readFile. rewrite Hfile.
        by rewrite decide_True.
      * rewrite Habsent; [done|]. unfold access. rewrite decide_False; [done|].
        intros [[text Ht]|Hin]; [congruence|done].
Qed.

End WithJSON.

Lemma loadData_creates_missing_file_witness :
  loadData parseInitial bot emptyDisk = (Return initialData, created bot emptyDisk) ∧
  files (created bot emptyDisk) !! ["bot"; "data"; "userData.json"] = Some initialText ∧
  ["bot"; "data"] ∈ dirs (created bot emptyDisk).
Proof.
  destruct (loadData_creates_missing_file parseInitial ["bot"; "src"] emptyDisk) as (H & _ & _).
  - reflexivity.
  - apply H. vm_compute. reflexivity.
Defined.

End DataFile.

(** * More of the code *)

(** ** The next run, branch by branch *)

Module NextRunMore.
Import Moment MomentFacts Bot Scenario NextRun Registry.
Local Open Scope Z_scope.

Lemma includes_elem days w : includes days w = true ↔ w ∈ days.
Proof.
  unfold includes. rewrite existsb_exists. split.
  - intros (x & Hin & ->%Z.eqb_eq). by apply list_elem_of_In.
  - intros Hin. exists w. split; [by apply list_elem_of_In|apply Z.eqb_refl].
Qed.

Lemma includes_not_elem days w : includes days w = false ↔ w ∉ days.
Proof.
  rewrite <- includes_elem. destruct (includes days w); split; try done.
Qed.

(** X1: a custom schedule with a weekday in its array: the next run is the
    candidate moved on by whole days to the first day, today included, whose
    weekday is in the array; that takes six days at most. *)
Theorem custom_first_matching_day clock z days tm w :
  w ∈ days → 0 <= w < 7 →
  let candidate := second 0 (minute (minutes tm) (hour (hours tm) (tz (clock 1%nat) z))) in
  ∃ k, 0 <= k <= 6 ∧
       nextRunOf clock z (SArray days) tm = Return (add_days k candidate) ∧
       day (add_days k candidate) ∈ days ∧
       ∀ k', 0 <= k' < k → day (add_days k' candidate) ∉ days.
Proof.
  intros Hin Hw candidate. apply includes_elem in Hin.
  destruct (customLoop_exits days candidate w Hw Hin) as (k & Hk & Hloop & Hday & Hbefore).
  exists k. split; [done|]. split.
  - unfold nextRunOf, nextRunWith. fold candidate. by rewrite Hloop.
  - split; [by apply includes_elem|]. intros k' Hk'. by apply includes_not_elem, Hbefore.
Qed.

Lemma custom_first_matching_day_witness :
  let candidate :=
    second 0 (minute 0 (hour 7 (tz (clockAt (local 2024 0 1 18 30 0 0) 1%nat) tokyo))) in
  ∃ k, 0 <= k <= 6 ∧
       nextRunOf (clockAt (local 2024 0 1 18 30 0 0)) tokyo (SArray [3; 5]) (at_ 7 0)
         = Return (add_days k candidate) ∧
       day (add_days k candidate) ∈ [3; 5] ∧
       ∀ k', 0 <= k' < k → day (add_days k' candidate) ∉ [3; 5].
Proof.
  apply (custom_first_matching_day (clockAt (local 2024 0 1 18 30 0 0)) tokyo [3; 5] (at_ 7 0) 3).
  - by left.
  - lia.
Defined.

Lemma customLoop_no_weekday days :
  (∀ d, d ∈ days → d < 0 ∨ 6 < d) → ∀ fuel m, customLoop fuel days m = None.
Proof.
  intros Hnone fuel. induction fuel as [|fuel IH]; intros m; [done|].
  cbn [customLoop]. destruct (includes days (day m)) eqn:Hin; [|apply IH].
  apply includes_elem, Hnone in Hin. pose proof (day_range m). lia.
Qed.

(** X2: a custom schedule whose array holds no weekday 0..6, the empty array
    among them: the loop of [setupReminder] never ends.  The call has by then
    cancelled the job registered for the id and never returns.  (Only a call
    for an id whose entry is [null] does not get that far: it throws at the
    [cancel].) *)
Theorem custom_without_weekday_never_returns e userId taskName days tm s z :
  (∀ d, d ∈ days → d < 0 ∨ 6 < d) →
  dbGetFails e = false →
  db_get_timezone userId (db s) = Some z →
  setupReminder e userId taskName (SArray days) tm s
  = if decide (nullEntry (reminderId userId taskName) s) then (Throw TypeError, s)
    else (Hang, cancelled (reminderId userId taskName) s).
Proof.
  intros Hnone Hget Htz. case_decide as Hnull; [by apply setupReminder_null|].
  rewrite (setupReminder_split _ _ _ _ _ _ Hnull). unfold setupReminder_resume.
  destruct (cancelled_fields (reminderId userId taskName) s) as (_ & _ & Hdb).
  rewrite Hget, Hdb, Htz. unfold nextRunOf, nextRunWith.
  by rewrite (customLoop_no_weekday _ Hnone).
Qed.

Lemma custom_without_weekday_never_returns_witness :
  setupReminder monday10 "42" "rent" (SArray [15]) (at_ 9 0) (boot stored)
  = if decide (nullEntry (reminderId "42" "rent") (boot stored)) then (Throw TypeError, boot stored)
    else (Hang, cancelled (reminderId "42" "rent") (boot stored)).
Proof.
  apply (custom_without_weekday_never_returns monday10 "42" "rent" [15] (at_ 9 0)
           (boot stored) tokyo).
  - intros d ->%list_elem_of_singleton. lia.
  - reflexivity.
  - reflexivity.
Defined.

Lemma candidate_clock h mi b :
  0 <= h < 24 → 0 <= mi < 60 →
  let c := second 0 (minute mi (hour h b)) in
  get_hour c = h ∧ get_minute c = mi ∧ get_second c = 0 ∧
  dayNumber c = dayNumber b ∧ get_millisecond c = get_millisecond b.
Proof.
  intros Hh Hmi c. subst c. rewrite (candidate_fields _ _ _ Hh Hmi).
  unfold get_second, get_minute, get_hour, get_millisecond,
    Moment.timeOfDay, dayNumber, msPerDay, msPerHour, msPerMinute, msPerSecond.
  repeat split; Z.div_mod_to_equations; lia.
Qed.

(** X3: a daily schedule: the next run is at the requested hour and minute,
    second 0, on the day of the clock's reading or the day after; it is never
    before now and less than a day after the reading. *)
Theorem daily_today_or_tomorrow clock z tm :
  0 <= hours tm < 24 → 0 <= minutes tm < 60 →
  clock 0%nat <= clock 1%nat →
  ∃ r, nextRunOf clock z (SString "daily") tm = Return r ∧
       tz (clock 0%nat) z <= r < tz (clock 1%nat) z + msPerDay ∧
       (dayNumber r = dayNumber (tz (clock 1%nat) z)
        ∨ dayNumber r = dayNumber (tz (clock 1%nat) z) + 1) ∧
       get_hour r = hours tm ∧ get_minute r = minutes tm ∧ get_second r = 0.
Proof.
  intros Hh Hmi Hclock. unfold nextRunOf, nextRunWith.
  rewrite decide_True by done.
  set (b := tz (clock 1%nat) z). set (now := tz (clock 0%nat) z).
  set (c := second 0 (minute (minutes tm) (hour (hours tm) b))).
  destruct (candidate_clock _ _ b Hh Hmi) as (H1 & H2 & H3 & H4 & H5). fold c in H1, H2, H3, H4, H5.
  assert (now <= b) as Hnow by (unfold now, b, tz; lia).
  assert (dayNumber b * msPerDay <= c < dayNumber b * msPerDay + msPerDay) as Hc.
  { rewrite <- H4. unfold dayNumber, msPerDay. Z.div_mod_to_equations. lia. }
  assert (dayNumber b * msPerDay <= b < dayNumber b * msPerDay + msPerDay) as Hb.
  { unfold dayNumber, msPerDay. Z.div_mod_to_equations. lia. }
  eexists. split; [done|]. unfold isBefore.
  destruct (Z.ltb_spec c now) as [Hlt|Hge].
  - assert (get_hour (add_days 1 c) = get_hour c ∧ get_minute (add_days 1 c) = get_minute c
            ∧ get_second (add_days 1 c) = get_second c) as (E1 & E2 & E3).
    { unfold get_hour, get_minute, get_second. by rewrite timeOfDay_add_days. }
    rewrite dayNumber_add_days, E1, E2, E3, H4.
    repeat split; try done; [|unfold add_days..|by right].
    + unfold add_days. unfold msPerDay in *. lia.
    + unfold msPerDay in *. lia.
  - rewrite H4. repeat split; try done; [unfold msPerDay in *; lia|by left].
Qed.

Lemma daily_today_or_tomorrow_witness :
  ∃ r, nextRunOf (clockAt (local 2024 0 1 10 0 0 0)) tokyo (SString "daily") (at_ 9 0) = Return r ∧
       tz (clockAt (local 2024 0 1 10 0 0 0) 0%nat) tokyo <= r
         < tz (clockAt (local 2024 0 1 10 0 0 0) 1%nat) tokyo + msPerDay ∧
       (dayNumber r = dayNumber (tz (clockAt (local 2024 0 1 10 0 0 0) 1%nat) tokyo)
        ∨ dayNumber r = dayNumber (tz (clockAt (local 2024 0 1 10 0 0 0) 1%nat) tokyo) + 1) ∧
       get_hour r = 9 ∧ get_minute r = 0 ∧ get_second r = 0.
Proof.
  apply (daily_today_or_tomorrow (clockAt (local 2024 0 1 10 0 0 0)) tokyo (at_ 9 0)).
  - cbn. lia.
  - cbn. lia.
  - reflexivity.
Defined.

End NextRunMore.

(** ** Requests and sweeps over the bot's life *)

Module LifecycleFacts.
Import Moment MomentFacts Bot Scenario Lifecycle MoreInputs NextRun NextRunMore Registry Sweep.
Local Open Scope Z_scope.

(** *** The strict invariant *)

Lemma boot_strict d : registry_strict (boot d).
Proof. split; [apply boot_ok|]. intros id id' j H. cbn in H. by rewrite lookup_empty in H. Qed.

Lemma cancelled_strict id s : registry_strict s → registry_strict (cancelled id s).
Proof.
  intros [Hok Hinj]. split; [by apply cancelled_ok|].
  by destruct (cancelled_fields id s) as (-> & _ & _).
Qed.

Lemma armed_strict id s : registry_strict s → registry_strict (armed id s).
Proof.
  intros [Hok Hinj]. split; [by apply armed_ok|].
  destruct Hok as (_ & _ & Hlt).
  destruct (cancelled_fields id s) as (Hreg & Hnext & _).
  unfold armed. cbn. rewrite Hreg, Hnext. intros a b j.
  destruct (decide (id = a)) as [<-|Ha]; destruct (decide (id = b)) as [<-|Hb];
    rewrite ?lookup_insert_eq, ?lookup_insert_ne by done; try done.
  - intros [= <-] Hb'%Hlt. lia.
  - intros Ha'%Hlt [= <-]. lia.
  - apply Hinj.
Qed.

Lemma nulled_strict id s : registry_strict s → registry_strict (nulled id s).
Proof.
  intros [Hok Hinj]. split; [by apply nulled_ok|].
  destruct (cancelled_fields id s) as (Hreg & _ & _).
  unfold nulled. cbn. rewrite Hreg. intros a b j.
  destruct (decide (id = a)) as [<-|Ha]; destruct (decide (id = b)) as [<-|Hb];
    rewrite ?lookup_insert_eq, ?lookup_insert_ne by done; try done.
  apply Hinj.
Qed.

Lemma registered_strict tm id s : registry_strict s → registry_strict (registered tm id s).
Proof. unfold registered. destruct (validRule tm); [apply armed_strict|apply nulled_strict]. Qed.

Lemma setupReminder_strict e userId taskName st tm s :
  registry_strict s → registry_strict (setupReminder e userId taskName st tm s).2.
Proof.
  intros Hs.
  destruct (setupReminder_cases e userId taskName st tm s)
    as [(-> & _)|[->|[(-> & _)|(z & nextRun & _ & _ & ->)]]]; cbn [snd].
  - by apply cancelled_strict.
  - by apply cancelled_strict.
  - by apply registered_strict.
  - by apply (registered_strict _ _ s).
Qed.

(** What [handleTaskCancellation] does to the two registries of jobs, for an
    id whose entry is not [null]. *)
Lemma handleTaskCancellation_jobs fails userId taskName s :
  let id := reminderId userId taskName in
  let s' := (handleTaskCancellation fails userId taskName s).2 in
  ¬ nullEntry id s →
  activeReminders s' = delete id (activeReminders s) ∧
  scheduledJobs s' = scheduledJobs (cancelled id s) ∧
  nextJob s' = nextJob s.
Proof.
  intros id s' Hnull. subst s'. unfold handleTaskCancellation, cancelled. fold id.
  rewrite decide_False by done.
  destruct (activeReminders s !! id) as [[j|]|] eqn:Hj.
  - destruct (activeCountdowns _ !! _); by destruct fails.
  - done.
  - rewrite (delete_id _ _ Hj). destruct (activeCountdowns _ !! _); by destruct fails.
Qed.

Lemma handleTaskCancellation_strict fails userId taskName s :
  registry_strict s → registry_strict (handleTaskCancellation fails userId taskName s).2.
Proof.
  intros [Hok Hinj]. split; [by apply handleTaskCancellation_ok|].
  destruct (decide (nullEntry (reminderId userId taskName) s)) as [Hnull|Hnull].
  { by rewrite (handleTaskCancellation_null _ _ _ _ Hnull). }
  destruct (handleTaskCancellation_jobs fails userId taskName s Hnull) as (-> & _ & _).
  intros a b j [_ Ha]%lookup_delete_Some [_ Hb]%lookup_delete_Some. by eapply Hinj.
Qed.

Lemma filter_filter_keep {A} (P Q : A → Prop) `{∀ x, Decision (P x)} `{∀ x, Decision (Q x)}
    (l : list A) :
  (∀ x, x ∈ l → P x → Q x) → filter P (filter Q l) = filter P l.
Proof.
  induction l as [|x l IH]; intros Hl; [done|].
  assert (filter P (filter Q l) = filter P l) as IH'
    by (apply IH; intros y Hy; apply Hl; by right).
  rewrite (filter_cons Q). destruct (decide (Q x)) as [Hq|Hq].
  - rewrite !(filter_cons P). by rewrite IH'.
  - rewrite (filter_cons P). destruct (decide (P x)) as [Hp|Hp]; [|done].
    destruct Hq. apply Hl; [by left|done].
Qed.

(** Cancelling the job of one id takes no timer of another id away. *)
Lemma cancelled_other id id' s :
  registry_strict s → id' ≠ id → liveTimers id' (cancelled id s) = liveTimers id' s.
Proof.
  intros [(Hnd & Hreg & Hlt) Hinj] Hne. unfold cancelled, liveTimers.
  destruct (activeReminders s !! id) as [[j|]|] eqn:Hj; [|done..]. cbn [cancel scheduledJobs].
  f_equal. apply filter_filter_keep. intros [j' id''] Hin Hid. cbn in *. subst id''.
  intros ->. apply Hreg in Hin. apply Hne. by eapply Hinj.
Qed.

(** *** Cancelling a task *)

(** X4: [handleTaskCancellation] leaves the id with no timer and, unless its
    entry was [null], with no entry, whether or not the store accepts the
    delete, and leaves the timers and entries of every other id as they
    were.  On an entry that is [null] it throws at the [cancel] and changes
    nothing. *)
Theorem cancellation_removes_only_its_timer dbDeleteFails userId taskName s :
  registry_strict s →
  let id := reminderId userId taskName in
  let r := handleTaskCancellation dbDeleteFails userId taskName s in
  liveTimers id r.2 = [] ∧
  (if decide (nullEntry id s) then r = (Throw TypeError, s)
   else activeReminders r.2 !! id = None) ∧
  ∀ id', id' ≠ id →
    liveTimers id' r.2 = liveTimers id' s ∧
    activeReminders r.2 !! id' = activeReminders s !! id'.
Proof.
  intros Hs id r. subst r. case_decide as Hnull.
  - rewrite (handleTaskCancellation_null _ _ _ _ Hnull). cbn [snd].
    split; [|done]. apply registry_ok_no_timer; [apply Hs|].
    unfold nullEntry in Hnull. fold id. congruence.
  - destruct (handleTaskCancellation_jobs dbDeleteFails userId taskName s Hnull)
      as (Hreg & Hjobs & _).
    fold id in Hreg, Hjobs. unfold liveTimers. rewrite Hreg, Hjobs.
    split; [by apply (cancelled_no_timer id s), Hs|].
    split; [apply lookup_delete_eq|].
    intros id' Hne. split; [by apply (cancelled_other id id' s)|by apply lookup_delete_ne].
Qed.

Lemma serveAll_strict rs s s' : registry_strict s → serveAll rs s = Some s' → registry_strict s'.
Proof.
  revert s. induction rs as [|r rs IH]; intros s Hs; cbn.
  - by intros [= <-].
  - destruct (serve r s) as [s1|] eqn:Hr; [|done]. apply IH.
    destruct r as [e userId taskName st tm|fails userId taskName]; cbn in Hr.
    + pose proof (setupReminder_strict e userId taskName st tm s Hs) as Hs'.
      destruct (setupReminder e userId taskName st tm s) as [[?|?|] s'']; naive_solver.
    + injection Hr as <-. by apply handleTaskCancellation_strict.
Qed.

Lemma served_strict : registry_strict served.
Proof. apply (serveAll_strict requests (boot stored)); [apply boot_strict|]. vm_compute; reflexivity. Qed.

Lemma cancellation_removes_only_its_timer_witness :
  let r := handleTaskCancellation true "42" "workout" served in
  liveTimers "42_workout" r.2 = [] ∧
  (if decide (nullEntry "42_workout" served) then r = (Throw TypeError, served)
   else activeReminders r.2 !! "42_workout" = None) ∧
  ∀ id', id' ≠ "42_workout" →
    liveTimers id' r.2 = liveTimers id' served ∧
    activeReminders r.2 !! id' = activeReminders served !! id'.
Proof. apply (cancellation_removes_only_its_timer true "42" "workout" served), served_strict. Defined.

(** *** The sweeps keep the invariants *)

Lemma perform_ok o s s' : registry_ok s → perform o s = Some s' → registry_ok s'.
Proof.
  intros Hs. destruct o as [r|fails envOf|fails envOf]; cbn.
  - by apply serve_ok.
  - rewrite cleanupStaleReminders_unchanged. by intros [= <-].
  - rewrite restoreReminders_unchanged. destruct fails; by intros [= <-].
Qed.

(** X5: at most one timer for a reminder id, also with the two sweeps among the
    requests: after any sequence of schedule and cancel requests, hourly
    sweeps and start-up sweeps, each run to its end, from the bot's start. *)
Theorem one_timer_through_sweeps d os s :
  performAll os (boot d) = Some s → ∀ id, (length (liveTimers id s) ≤ 1)%nat.
Proof.
  intros Hs id. apply registry_ok_at_most_one.
  revert Hs. generalize (boot_ok d). generalize (boot d).
  induction os as [|o os IH]; intros s0 Hok; cbn.
  - by intros [= <-].
  - destruct (perform o s0) as [s1|] eqn:Ho; [|done]. apply IH. by eapply perform_ok.
Qed.

Lemma one_timer_through_sweeps_witness :
  performAll lifetime (boot stored_two) = Some lived ∧
  ∀ id, (length (liveTimers id lived) ≤ 1)%nat.
Proof.
  split; [vm_compute; reflexivity|].
  apply (one_timer_through_sweeps stored_two lifetime lived). vm_compute; reflexivity.
Defined.

(** *** The sweep at start *)

(** X6: [restoreReminders] arms nothing.  The keys of its loop are the
    indices of the array that [db.all()] resolves to; none starts with
    'user_', so whatever the table holds no call of [setupReminder] is made:
    the function comes to its end, or throws when [db.all()] rejects, with
    the state as it was.  At the start of the bot no reminder id has a timer
    afterwards, the ids of the stored tasks among them. *)
Theorem restoreReminders_arms_nothing dbAllFails envOf :
  (∀ s, restoreReminders dbAllFails envOf s
        = (if dbAllFails then Throw StorageError else Return tt, s)) ∧
  (∀ d id, liveTimers id (restoreReminders dbAllFails envOf (boot d)).2 = [] ∧
           activeReminders (restoreReminders dbAllFails envOf (boot d)).2 !! id = None).
Proof.
  split; [intros s; apply restoreReminders_unchanged|].
  intros d id. by rewrite restoreReminders_unchanged.
Qed.

(** The table of [stored_two] at the start: task b of user 42 could be set
    up, and has no timer after the sweep. *)
Example restore_leaves_stored_task :
  db_get_task "42" "b" (db (boot stored_two)) = Some (daily_at "b" 10).2 ∧
  (setupReminder monday10 "42" "b" (SString "daily") (at_ 10 0) (boot stored_two)).1
    = Return (local 2024 0 1 10 0 0 0) ∧
  restoreReminders false (λ _, monday10) (boot stored_two) = (Return tt, boot stored_two) ∧
  liveTimers "42_b" (boot stored_two) = [].
Proof. repeat split; vm_compute; reflexivity. Qed.

(** *** The hourly sweep *)

Lemma cleanupAll_unchanged sweeps s : cleanupAll sweeps s = Some s.
Proof.
  induction sweeps as [|[fails envOf] sweeps IH]; cbn; [done|].
  by rewrite cleanupStaleReminders_unchanged.
Qed.

(** X7: a call of [setupReminder] for an id with a registered job that throws
    before it schedules (no timezone, a rejected read, a 'weekly' or 'monthly'
    schedule) has cancelled that job and left the entry in [activeReminders].
    The hourly sweep does not repair that: however often it runs
    afterwards, the id stays without a timer. *)
Theorem failed_reschedule_is_not_repaired e userId taskName st tm s j err s' sweeps s'' :
  registry_ok s →
  activeReminders s !! reminderId userId taskName = Some (Some j) →
  dbSetFails e = false →
  setupReminder e userId taskName st tm s = (Throw err, s') →
  cleanupAll sweeps s' = Some s'' →
  liveTimers (reminderId userId taskName) s'' = [] ∧
  activeReminders s'' !! reminderId userId taskName = Some (Some j).
Proof.
  intros Hok Hj Hset Hcall. set (id := reminderId userId taskName) in *.
  assert (s' = cancelled id s) as ->.
  { destruct (setupReminder_cases e userId taskName st tm s)
      as [(Hs & _)|[H|[(_ & H)|(z & nextRun & _ & _ & H)]]].
    - by rewrite Hcall in Hs.
    - rewrite Hcall in H. discriminate.
    - congruence.
    - rewrite Hcall in H. discriminate. }
  rewrite cleanupAll_unchanged. intros [= <-].
  split; [by apply cancelled_no_timer|].
  by destruct (cancelled_fields id s) as (-> & _ & _).
Qed.

Lemma failed_reschedule_is_not_repaired_witness :
  liveTimers (reminderId "42" "workout") swept_after_reschedule = [] ∧
  activeReminders swept_after_reschedule !! reminderId "42" "workout" = Some (Some 4%nat).
Proof.
  apply (failed_reschedule_is_not_repaired monday10 "42" "workout" (SString "weekly") (at_ 9 0)
           served 4%nat ReferenceError rescheduled hourly_sweeps swept_after_reschedule).
  - apply served_strict.
  - vm_compute; reflexivity.
  - reflexivity.
  - vm_compute; reflexivity.
  - vm_compute; reflexivity.
Defined.

(** *** A time that node-schedule does not take *)

(** X22: with an hour outside 0..23 or a minute outside 0..59, a call of
    [setupReminder] that gets as far as scheduling returns the next run and
    writes the record, but [nodeSchedule.scheduleJob] gave [null]: the id has
    no timer and [null] is its entry.  From then on every call of
    [setupReminder] and of [handleTaskCancellation] for the id throws at
    [.cancel()] and changes nothing: the id can be neither scheduled again
    nor cancelled. *)
Theorem null_job_blocks_the_id e userId taskName st tm s z nextRun :
  registry_ok s →
  validRule tm = false →
  ¬ nullEntry (reminderId userId taskName) s →
  dbGetFails e = false → dbSetFails e = false →
  db_get_timezone userId (db s) = Some z →
  nextRunOf (clock e) z st tm = Return nextRun →
  let id := reminderId userId taskName in
  let r := setupReminder e userId taskName st tm s in
  r.1 = Return nextRun ∧
  liveTimers id r.2 = [] ∧
  activeReminders r.2 !! id = Some None ∧
  db_get_task userId taskName (db r.2) =
    Some {| name := taskName; schedule := st; time := tm; timezone := z;
            nextReminder := valueOf z nextRun |} ∧
  (∀ e' st' tm', setupReminder e' userId taskName st' tm' r.2 = (Throw TypeError, r.2)) ∧
  (∀ dbDeleteFails,
      handleTaskCancellation dbDeleteFails userId taskName r.2 = (Throw TypeError, r.2)).
Proof.
  intros Hok Hrule Hnull Hget Hset Htz Hnext id r.
  destruct (setupReminder_invalid_time e userId taskName st tm s z nextRun
              Hok Hrule Hnull Hget Hset Htz Hnext) as (H1 & H2 & H3 & H4).
  fold id r in H1, H2, H3, H4. do 4 (split; [done|]). split.
  - intros e' st' tm'. by apply setupReminder_null.
  - intros fails. by apply handleTaskCancellation_null.
Qed.

Lemma null_job_blocks_the_id_witness :
  let r := setupReminder monday10 "42" "late" (SString "daily") (at_ 24 0) (boot stored) in
  r.1 = Return (local 2024 0 2 0 0 0 0) ∧
  liveTimers "42_late" r.2 = [] ∧
  activeReminders r.2 !! "42_late" = Some None ∧
  db_get_task "42" "late" (db r.2) =
    Some {| name := "late"; schedule := SString "daily"; time := at_ 24 0; timezone := tokyo;
            nextReminder := valueOf tokyo (local 2024 0 2 0 0 0 0) |} ∧
  (∀ e' st' tm', setupReminder e' "42" "late" st' tm' r.2 = (Throw TypeError, r.2)) ∧
  (∀ dbDeleteFails,
      handleTaskCancellation dbDeleteFails "42" "late" r.2 = (Throw TypeError, r.2)).
Proof.
  apply (null_job_blocks_the_id monday10 "42" "late" (SString "daily") (at_ 24 0)
           (boot stored) tokyo (local 2024 0 2 0 0 0 0)).
  - apply boot_ok.
  - reflexivity.
  - unfold nullEntry. vm_compute. discriminate.
  - reflexivity.
  - reflexivity.
  - reflexivity.
  - vm_compute. reflexivity.
Defined.

End LifecycleFacts.

(** ** Countdown tickers over time *)

Module CountdownMore.
Import Moment Bot Scenario Lifecycle MoreInputs Countdown.
Local Open Scope Z_scope.

Lemma happen_intervals_ok ev s : intervals_ok s → intervals_ok (happen ev s).
Proof.
  intros Hok.
  assert (∀ h' s0, intervals_ok s0 → intervals_ok (clearInterval h' s0)) as Hclear.
  { intros h' s0 H0 h0 c0. cbn. intros [_ H]%lookup_delete_Some. by eapply H0. }
  destruct ev as [h te|m target|fails userId taskName]; cbn [happen].
  - unfold fire. destruct (intervals s !! h) as [c|]; [|done].
    assert (intervals_ok (log_tick h s)) as Hlog by done.
    unfold countdownTick. destruct (_ <=? 0); [by apply (Hclear h)|].
    destruct (messages (log_tick h s) !! _); [|by apply (Hclear h)].
    destruct (editRejects te); [by apply (Hclear h)|done].
  - by apply startCountdownUpdate_ok.
  - unfold handleTaskCancellation. case_decide as Hnull; [done|].
    set (s1 := match activeReminders s !! reminderId userId taskName with
               | Some (Some j) =>
                   with_activeReminders (delete (reminderId userId taskName)) (cancel j s)
               | _ => s
               end).
    assert (intervals_ok s1) as Hok1
      by (subst s1; by destruct (activeReminders s !! _) as [[?|]|]).
    clearbody s1.
    destruct (activeCountdowns s1 !! _) as [h'|]; destruct fails; cbn [snd];
      try done; by apply (Hclear h').
Qed.

Lemma happen_countdowns_ok ev s :
  intervals_ok s → countdowns_ok s → countdowns_ok (happen ev s).
Proof.
  intros Hiv Hok.
  (* clearing the interval registered under a key and deleting the key *)
  assert (∀ key h s0, countdowns_ok s0 → activeCountdowns s0 !! key = Some h →
            countdowns_ok (with_activeCountdowns (delete key) (clearInterval h s0))) as Hdrop.
  { intros key h s0 H0 Hkey h' c'. cbn. intros [Hne Hh']%lookup_delete_Some.
    rewrite lookup_delete_ne; [by apply H0|].
    intros ->. apply H0 in Hh'. congruence. }
  destruct ev as [h te|m target|fails userId taskName]; cbn [happen].
  - unfold fire. destruct (intervals s !! h) as [c|] eqn:Hh; [|done].
    assert (countdowns_ok (log_tick h s)) as Hlog by done.
    assert (activeCountdowns (log_tick h s) !! countdownIdOf (tickerMessage c) = Some h) as Hreg
      by by apply Hok.
    unfold countdownTick. destruct (_ <=? 0); [by apply (Hdrop _ h (log_tick h s))|].
    destruct (messages (log_tick h s) !! _); [|by apply (Hdrop _ h (log_tick h s))].
    destruct (editRejects te); [by apply (Hdrop _ h (log_tick h s))|done].
  - unfold startCountdownUpdate. intros h' c'.
    destruct (activeCountdowns s !! countdownIdOf m) as [old|] eqn:Hold; cbn.
    + intros [[<- <-]|[Hne [Hne' Hh']%lookup_delete_Some]]%lookup_insert_Some.
      * cbn. apply lookup_insert_eq.
      * rewrite lookup_insert_ne; [by apply Hok|].
        intros Heq. rewrite Heq in Hold. apply Hok in Hh'. congruence.
    + intros [[<- <-]|[Hne Hh']]%lookup_insert_Some.
      * cbn. apply lookup_insert_eq.
      * rewrite lookup_insert_ne; [by apply Hok|].
        intros Heq. rewrite Heq in Hold. apply Hok in Hh'. congruence.
  - unfold handleTaskCancellation. case_decide as Hnull; [done|].
    set (s1 := match activeReminders s !! reminderId userId taskName with
               | Some (Some j) =>
                   with_activeReminders (delete (reminderId userId taskName)) (cancel j s)
               | _ => s
               end).
    assert (countdowns_ok s1) as Hok1
      by (subst s1; by destruct (activeReminders s !! _) as [[?|]|]).
    clearbody s1.
    destruct (activeCountdowns s1 !! _) as [h'|] eqn:Hkey; destruct fails; cbn [snd];
      try done; by apply (Hdrop _ h' s1).
Qed.

(** X9: one ticker for a message at most: after any sequence of ticker starts,
    interval ticks and task cancellations, every live interval is the one
    registered in [activeCountdowns] for its message, so two live intervals
    never refresh the same message. *)
Theorem one_ticker_per_message evs s0 :
  intervals s0 = ∅ →
  let s := happenAll evs s0 in
  (∀ h c, intervals s !! h = Some c →
          activeCountdowns s !! countdownIdOf (tickerMessage c) = Some h) ∧
  (∀ h1 h2 c1 c2, intervals s !! h1 = Some c1 → intervals s !! h2 = Some c2 →
                  countdownIdOf (tickerMessage c1) = countdownIdOf (tickerMessage c2) →
                  h1 = h2).
Proof.
  intros Hempty s.
  assert (intervals_ok s ∧ countdowns_ok s) as [_ Hok].
  { subst s. unfold happenAll.
    assert (intervals_ok s0 ∧ countdowns_ok s0) as H0.
    { split; intros h c; rewrite Hempty, lookup_empty; done. }
    revert H0. generalize s0. induction evs as [|ev evs IH]; intros s1 [H1 H2]; cbn; [done|].
    apply IH. split; [by apply happen_intervals_ok|by apply happen_countdowns_ok]. }
  split; [exact Hok|].
  intros h1 h2 c1 c2 H1%Hok H2%Hok Heq. rewrite Heq in H1. congruence.
Qed.

Lemma one_ticker_per_message_witness :
  let s := happenAll ticker_events channel in
  (∀ h c, intervals s !! h = Some c →
          activeCountdowns s !! countdownIdOf (tickerMessage c) = Some h) ∧
  (∀ h1 h2 c1 c2, intervals s !! h1 = Some c1 → intervals s !! h2 = Some c2 →
                  countdownIdOf (tickerMessage c1) = countdownIdOf (tickerMessage c2) →
                  h1 = h2).
Proof. apply (one_ticker_per_message ticker_events channel). reflexivity. Defined.

Example restarted_ticker_replaces_the_first :
  let s := happenAll ticker_events channel in
  intervals s !! 0%nat = None ∧ is_Some (intervals s !! 1%nat) ∧
  activeCountdowns s !! "guild_1001" = Some 1%nat.
Proof.
  cbv zeta. split; [vm_compute; reflexivity|].
  split; [eexists; vm_compute; reflexivity|vm_compute; reflexivity].
Qed.

(** *** formatCountdown *)

Lemma append_not_empty (a b : string) : b ≠ "" → a +:+ b ≠ "".
Proof. destruct a; cbn; [done|discriminate]. Qed.

Lemma concat_not_empty sep (l : list string) :
  l ≠ [] → Forall (λ x, x ≠ "") l → String.concat sep l ≠ "".
Proof.
  destruct l as [|x [|y l]]; [done|..]; intros _ Hall; apply Forall_cons in Hall as [Hx _]; cbn.
  - done.
  - destruct x; [done|discriminate].
Qed.

(** X10: before the target, [formatCountdown] leaves out every unit that is zero:
    its text is empty exactly when less than a second is left. *)
Theorem formatCountdown_blank now targetDate :
  now < targetDate →
  formatCountdown now targetDate = "" ↔ targetDate - now < 1000.
Proof.
  intros Hlt. unfold formatCountdown.
  destruct (Z.leb_spec (targetDate - now) 0) as [?|_]; [lia|].
  set (diff := targetDate - now) in *.
  set (days := diff / msPerDay). set (hrs := (diff / msPerHour) mod 24).
  set (mins := (diff / msPerMinute) mod 60). set (secs := (diff / msPerSecond) mod 60).
  assert (diff < 1000 ↔ days <= 0 ∧ hrs <= 0 ∧ mins <= 0 ∧ secs <= 0) as Hzero.
  { subst days hrs mins secs. unfold msPerDay, msPerHour, msPerMinute, msPerSecond.
    assert (0 < diff) by (subst diff; lia). clearbody diff.
    split; [intros ?; repeat split|intros (? & ? & ? & ?)]; Z.div_mod_to_equations; lia. }
  split.
  - intros Hempty. apply Hzero.
    destruct (Z.ltb_spec 0 days) as [?|?], (Z.ltb_spec 0 hrs) as [?|?],
      (Z.ltb_spec 0 mins) as [?|?], (Z.ltb_spec 0 secs) as [?|?];
      try (repeat split; assumption);
      exfalso; revert Hempty; apply concat_not_empty; try done;
      repeat (apply Forall_cons; split; [by apply append_not_empty|]); by apply Forall_nil.
  - intros (? & ? & ? & ?)%Hzero.
    destruct (Z.ltb_spec 0 days), (Z.ltb_spec 0 hrs), (Z.ltb_spec 0 mins), (Z.ltb_spec 0 secs);
      try lia. done.
Qed.

Lemma formatCountdown_blank_witness :
  formatCountdown sentAt (sentAt + 999) = "" ↔ sentAt + 999 - sentAt < 1000.
Proof. apply (formatCountdown_blank sentAt (sentAt + 999)). lia. Defined.

Example formatCountdown_skips_inner_zero :
  formatCountdown sentAt (sentAt + 86400000 + 5 * 60000) = "1d 5m".
Proof. vm_compute; reflexivity. Qed.

(** *** A ticker before its target *)

(** X11: a tick before the target, with the message in place and the edit
    accepted, leaves the ticker running and registered and writes the new
    countdown line. *)
Theorem ticker_keeps_running h c te s line :
  intervals s !! h = Some c →
  tickNow te < targetDate c →
  messages s !! messageId (tickerMessage c) = Some line →
  editRejects te = false →
  let s' := fire h te s in
  intervals s' !! h = Some c ∧
  activeCountdowns s' = activeCountdowns s ∧
  ticks s' = h :: ticks s ∧
  messages s' !! messageId (tickerMessage c)
    = Some ("Next reminder in: " +:+ formatCountdown (formatNow te) (targetDate c)).
Proof.
  intros Hh Hlt Hm He s'.
  destruct (fire_running h c te s line Hh Hlt Hm He) as (H1 & H2 & H3).
  repeat split; try done. subst s'. rewrite (fire_armed _ _ _ _ Hh). unfold countdownTick.
  destruct (Z.leb_spec (targetDate c - tickNow te) 0) as [?|_]; [lia|].
  cbn [messages log_tick]. rewrite Hm, He. done.
Qed.

Lemma ticker_keeps_running_witness :
  let s' := fire 0%nat earlyTick ticking in
  intervals s' !! 0%nat
    = Some {| tickerMessage := reminderMessage; targetDate := sentAt + 60000 |} ∧
  activeCountdowns s' = activeCountdowns ticking ∧
  ticks s' = 0%nat :: ticks ticking ∧
  messages s' !! "1001" = Some ("Next reminder in: " +:+ formatCountdown (sentAt + 10000) (sentAt + 60000)).
Proof.
  apply (ticker_keeps_running 0%nat
           {| tickerMessage := reminderMessage; targetDate := sentAt + 60000 |}
           earlyTick ticking "Next reminder in: 1m").
  - vm_compute; reflexivity.
  - cbn. lia.
  - vm_compute; reflexivity.
  - reflexivity.
Defined.

End CountdownMore.

(** ** Saving and loading the data file *)

Module DataFileMore.
Import DataManager Scenario MoreInputs DataFile.

Section WithCodec.

Variable JSON_parse : string → option json.
Variable JSON_stringify : json → string.

Lemma loadData_present this fs text :
  files fs !! dataPath this = Some text →
  loadData JSON_parse this fs = (parsed JSON_parse text, fs).
Proof.
  intros Hfile. unfold loadData. rewrite (ensureDataFile_present _ _ _ Hfile).
  unfold readFile. by rewrite Hfile.
Qed.

(** X12: [loadData] a second time finds what the first left: the same result and
    no further change of the file system.  An existing data file is never
    written over. *)
Theorem loadData_twice dirname__ fs :
  let this := constructor dirname__ in
  loadData JSON_parse this (loadData JSON_parse this fs).2 = loadData JSON_parse this fs ∧
  ∀ text, files fs !! dataPath this = Some text → (loadData JSON_parse this fs).2 = fs.
Proof.
  intros this. split.
  - destruct (files fs !! dataPath this) as [text|] eqn:Hfile.
    + rewrite (loadData_present _ _ _ Hfile). cbn [snd]. by apply loadData_present.
    + destruct (decide (dataPath this ∈ dirs fs)) as [Hdir|Hnodir].
      * assert (loadData JSON_parse this fs = (Throw EISDIR, fs)) as ->; [|cbn [snd]].
        all: unfold loadData, ensureDataFile, access;
          rewrite decide_True by (by right); unfold readFile; rewrite Hfile;
          by rewrite decide_True.
      * assert (access (dataPath this) fs = Throw ENOENT) as Hacc.
        { unfold access. rewrite decide_False; [done|].
          intros [[text Ht]|Hin]; [congruence|done]. }
        assert (loadData JSON_parse this fs = (parsed JSON_parse initialText, created this fs))
          as ->.
        { unfold loadData. subst this. rewrite (ensureDataFile_absent dirname__ fs Hacc).
          unfold readFile, created. cbn [files]. by rewrite lookup_insert_eq. }
        cbn [snd]. apply loadData_present. unfold created. cbn [files]. apply lookup_insert_eq.
  - intros text Hfile. by rewrite (loadData_present _ _ _ Hfile).
Qed.

(** [saveData] does not make the directory: where the directory of the data
    file is missing it throws and writes nothing. *)
Lemma saveData_needs_directory this data fs :
  dirname (dataPath this) ∉ dirs fs →
  dataPath this ∉ dirs fs →
  saveData JSON_stringify this data fs = (Throw ENOENT, fs).
Proof.
  intros Hnodir Hnot. unfold saveData, writeFile. by rewrite !decide_False.
Qed.

(** X13: [saveData] relies on an earlier [loadData]: where the directory of the
    data file is missing, [saveData] alone throws and writes nothing; after a
    [loadData] it goes through, and the next [loadData] returns what was
    saved, when [JSON.parse] reads back what [JSON.stringify] wrote. *)
Theorem save_then_load dirname__ data fs :
  let this := constructor dirname__ in
  JSON_parse (JSON_stringify data) = Some data →
  access (dataPath this) fs = Throw ENOENT →
  dirname (dataPath this) ∉ dirs fs →
  let fs1 := (loadData JSON_parse this fs).2 in
  let fs2 := (saveData JSON_stringify this data fs1).2 in
  saveData JSON_stringify this data fs = (Throw ENOENT, fs) ∧
  (saveData JSON_stringify this data fs1).1 = Return tt ∧
  files fs2 !! dataPath this = Some (JSON_stringify data) ∧
  loadData JSON_parse this fs2 = (Return data, fs2).
Proof.
  intros this Hcodec Hacc Hnodir fs1 fs2.
  split.
  { apply saveData_needs_directory; [done|].
    unfold access in Hacc. case_decide as H; [done|]. intros Hin. apply H. by right. }
  assert (fs1 = created this fs) as Hfs1.
  { subst fs1. unfold loadData. subst this. rewrite (ensureDataFile_absent dirname__ fs Hacc).
    unfold readFile, created. cbn [files]. by rewrite lookup_insert_eq. }
  assert (dataPath this ∉ dirs fs) as Hnot.
  { unfold access in Hacc. case_decide as H; [done|]. intros Hin. apply H. by right. }
  assert (saveData JSON_stringify this data fs1
          = (Return tt, {| dirs := dirs fs1;
                           files := <[dataPath this := JSON_stringify data]> (files fs1) |}))
    as Hsave.
  { unfold saveData, writeFile. rewrite Hfs1.
    rewrite decide_False by (by apply dataPath_not_created).
    by rewrite decide_True by apply mkdir_recursive_self. }
  subst fs2. rewrite Hsave. cbn [fst snd]. split; [done|].
  assert (files {| dirs := dirs fs1;
                   files := <[dataPath this := JSON_stringify data]> (files fs1) |}
          !! dataPath this = Some (JSON_stringify data)) as Hfile
    by apply lookup_insert_eq.
  split; [done|]. rewrite (loadData_present _ _ _ Hfile). unfold parsed. by rewrite Hcodec.
Qed.

End WithCodec.

Lemma save_then_load_witness :
  let fs1 := (loadData parseAny bot emptyDisk).2 in
  let fs2 := (saveData printAny bot (JString "tasks") fs1).2 in
  saveData printAny bot (JString "tasks") emptyDisk = (Throw ENOENT, emptyDisk) ∧
  (saveData printAny bot (JString "tasks") fs1).1 = Return tt ∧
  files fs2 !! dataPath bot = Some (printAny (JString "tasks")) ∧
  loadData parseAny bot fs2 = (Return (JString "tasks"), fs2).
Proof.
  apply (save_then_load parseAny printAny ["bot"; "src"] (JString "tasks") emptyDisk).
  - reflexivity.
  - vm_compute. reflexivity.
  - vm_compute. discriminate.
Defined.

End DataFileMore.

(** ** The menus *)

Module FlowFacts.
Import Stdlib.Strings.Ascii.
Import Moment MomentFacts Bot Scenario Lifecycle MoreInputs Flow NextRun NextRunMore Registry.
Local Open Scope Z_scope.

(** *** Strings *)

Lemma append_nil_l (s : string) : "" +:+ s = s.
Proof. reflexivity. Qed.

Lemma append_cons c (a s : string) : String c a +:+ s = String c (a +:+ s).
Proof. reflexivity. Qed.

Lemma split_not_nil sep s : split sep s ≠ [].
Proof.
  destruct s as [|c s]; cbn; [done|].
  case_decide; [done|]. by destruct (split sep s).
Qed.

Lemma split_none sep s : contains sep s = false → split sep s = [s].
Proof.
  induction s as [|c s IH]; cbn; [done|].
  case_decide; [done|]. intros Hs. by rewrite (IH Hs).
Qed.

Lemma split_app sep a b :
  contains sep a = false → split sep (a +:+ String sep b) = a :: split sep b.
Proof.
  induction a as [|c a IH]; cbn; rewrite ?append_nil_l, ?append_cons; cbn.
  - intros _. by rewrite decide_True.
  - case_decide; [done|]. intros Ha. by rewrite (IH Ha).
Qed.

Lemma contains_app sep a b :
  contains sep (a +:+ b) = contains sep a || contains sep b.
Proof. induction a as [|c a IH]; rewrite ?append_nil_l, ?append_cons; cbn; [done|]. by case_decide. Qed.

Lemma firstSegment_whole taskName :
  contains "_" taskName = false → firstSegment taskName = taskName.
Proof. intros H. unfold firstSegment. by rewrite (split_none _ _ H). Qed.

Lemma firstSegment_cut a b :
  contains "_" a = false → firstSegment (a +:+ "_" +:+ b) = a.
Proof.
  intros H. unfold firstSegment.
  change (a +:+ "_" +:+ b) with (a +:+ String "_" b). by rewrite (split_app _ _ _ H).
Qed.

Lemma append_nil_r (s : string) : s +:+ "" = s.
Proof. induction s as [|c s IH]; [done|]. by rewrite append_cons, IH. Qed.

Lemma split_no_sep sep s : Forall (λ x, contains sep x = false) (split sep s).
Proof.
  induction s as [|c s IH]; cbn.
  - by apply Forall_singleton.
  - case_decide; [by apply Forall_cons|].
    destruct (split sep s) as [|x xs].
    + apply Forall_singleton. cbn. by rewrite decide_False.
    + apply Forall_cons in IH as [Hx Hxs]. apply Forall_cons. split; [|done].
      cbn. by rewrite decide_False.
Qed.

Lemma firstSegment_no_sep taskName : contains "_" (firstSegment taskName) = false.
Proof.
  unfold firstSegment. pose proof (split_no_sep "_" taskName) as H.
  destruct (split "_" taskName) as [|x xs]; [done|]. by apply Forall_cons in H as [H _].
Qed.

Lemma join_cons sep x y r : join sep (x :: y :: r) = x +:+ sep +:+ join sep (y :: r).
Proof. reflexivity. Qed.

Lemma join_no_sep c sep l :
  contains c sep = false → Forall (λ x, contains c x = false) l →
  contains c (join sep l) = false.
Proof.
  intros Hsep. induction l as [|x l IH]; intros Hl; [done|].
  apply Forall_cons in Hl as [Hx Hr]. destruct l as [|y r]; [exact Hx|].
  rewrite join_cons, !contains_app, Hx, Hsep. by apply IH.
Qed.

Lemma join_not_empty sep l : l ≠ [] → Forall (λ x, x ≠ "") l → join sep l ≠ "".
Proof.
  destruct l as [|x [|y r]]; [done|..]; intros _ [Hx _]%Forall_cons; [exact Hx|].
  rewrite join_cons. by destruct x.
Qed.

Lemma split_join sep l :
  l ≠ [] → Forall (λ x, contains sep x = false) l →
  split sep (join (String sep "") l) = l.
Proof.
  induction l as [|x l IH]; [done|]. intros _ [Hx Hr]%Forall_cons.
  destruct l as [|y r]; [by apply split_none|].
  rewrite join_cons.
  change (x +:+ String sep "" +:+ join (String sep "") (y :: r))
    with (x +:+ String sep (join (String sep "") (y :: r))).
  rewrite (split_app _ _ _ Hx). f_equal. by apply IH.
Qed.

(** The parts of a custom id [<type>_<rest>] and [<type>_<arg>_<rest>] for a
    type and an argument without underscore. *)
Lemma split_id2 type rest :
  contains "_" type = false →
  split "_" (type +:+ "_" +:+ rest) = type :: split "_" rest.
Proof. intros H. change (type +:+ "_" +:+ rest) with (type +:+ String "_" rest). by apply split_app. Qed.

Lemma split_id3 type arg rest :
  contains "_" type = false → contains "_" arg = false →
  split "_" (type +:+ "_" +:+ arg +:+ "_" +:+ rest) = type :: arg :: split "_" rest.
Proof. intros H1 H2. by rewrite split_id2, split_id2. Qed.

Lemma split_first_segment taskName :
  split "_" taskName !! 0%nat = Some (firstSegment taskName).
Proof.
  unfold firstSegment. pose proof (split_not_nil "_" taskName).
  by destruct (split "_" taskName).
Qed.

(** *** Task names with an underscore *)

(** X14: the schedule buttons carry the task name after the type; the handler
    takes the third part of the split id.  Whatever the name, the screen that
    follows is built for the part of the name before its first underscore:
    the whole name when it has none, and a shorter name otherwise. *)
Theorem schedule_buttons_cut_the_task_name taskName :
  handleScheduleSelection <$> (customIdOf <$> showScheduleOptions taskName)
  = [ showTimeSelection "daily" (firstSegment taskName) None;
      showWeekDaySelection (firstSegment taskName);
      showMonthDaySelection (firstSegment taskName);
      showDaySelection (firstSegment taskName) ] ∧
  (contains "_" taskName = false → firstSegment taskName = taskName) ∧
  (∀ a b, contains "_" a = false → firstSegment (a +:+ "_" +:+ b) = a).
Proof.
  split; [|split; [apply firstSegment_whole|apply firstSegment_cut]].
  cbn [showScheduleOptions fmap list_fmap customIdOf].
  unfold handleScheduleSelection.
  change ("schedule_daily_" +:+ taskName) with ("schedule" +:+ "_" +:+ "daily" +:+ "_" +:+ taskName).
  change ("schedule_weekly_" +:+ taskName)
    with ("schedule" +:+ "_" +:+ "weekly" +:+ "_" +:+ taskName).
  change ("schedule_monthly_" +:+ taskName)
    with ("schedule" +:+ "_" +:+ "monthly" +:+ "_" +:+ taskName).
  change ("schedule_custom_" +:+ taskName)
    with ("schedule" +:+ "_" +:+ "custom" +:+ "_" +:+ taskName).
  rewrite !split_id3 by done.
  cbn [lookup list_lookup]. rewrite !split_first_segment. done.
Qed.

Example underscore_in_task_name :
  handleScheduleSelection "schedule_daily_water_plants" = showTimeSelection "daily" "water" None.
Proof. vm_compute; reflexivity. Qed.

(** *** Which handler a button reaches *)

Lemma handleButton_type type rest :
  contains "_" type = false →
  handleButton (type +:+ "_" +:+ rest)
  = if decide (type = "schedule") then Some ScheduleSelection
    else if decide (type = "day") then Some DaySelection
    else if decide (type = "weekday") then Some WeekDaySelection
    else if decide (type = "monthday") then Some MonthDaySelection
    else if decide (type = "confirm") then
      (if decide (Some (firstSegment rest) = Some "days") then Some DayConfirmation else None)
    else if decide (type = "add") then Some TaskButton
    else if decide (type = "remove") then Some TaskButton
    else None.
Proof.
  intros H. unfold handleButton. rewrite (split_id2 _ _ H).
  cbn [lookup list_lookup shown default]. by rewrite split_first_segment.
Qed.

(** X15: every button of the schedule, weekday, month-day and day screens reaches
    the handler meant for it, whatever the task name.  The Previous and Next
    buttons of the timezone list, whose ids begin with [tz_], reach none:
    [handleButton] has no case for them, so only the first page of a region's
    timezones can be used.  Every time menu reaches [handleTimeChoice]. *)
Theorem buttons_and_their_handlers taskName :
  (∀ c, c ∈ showScheduleOptions taskName → handleButton (customIdOf c) = Some ScheduleSelection) ∧
  (∀ c, c ∈ showWeekDaySelection taskName → handleButton (customIdOf c) = Some WeekDaySelection) ∧
  (∀ c, c ∈ showMonthDaySelection taskName → handleButton (customIdOf c) = Some MonthDaySelection) ∧
  (∀ c, c ∈ showDaySelection taskName →
        handleButton (customIdOf c)
        = Some (if decide (customIdOf c = "confirm_days_" +:+ taskName)
                then DayConfirmation else DaySelection)) ∧
  (∀ rest, handleButton ("tz_" +:+ rest) = None) ∧
  (∀ scheduleType name scheduleDay c,
      c ∈ showTimeSelection scheduleType name scheduleDay →
      handleSelectMenu (customIdOf c) = Some TimeChoice).
Proof.
  split; [|split; [|split; [|split; [|split; [done|]]]]];
    [..|by intros scheduleType name scheduleDay c ->%list_elem_of_singleton].
  - intros c Hc. unfold showScheduleOptions in Hc.
    repeat (apply elem_of_cons in Hc as [->|Hc]); [..|by apply elem_of_nil in Hc]; cbn [customIdOf].
    + change ("schedule_daily_" +:+ taskName) with ("schedule" +:+ "_" +:+ "daily_" +:+ taskName).
      by rewrite handleButton_type.
    + change ("schedule_weekly_" +:+ taskName) with ("schedule" +:+ "_" +:+ "weekly_" +:+ taskName).
      by rewrite handleButton_type.
    + change ("schedule_monthly_" +:+ taskName)
        with ("schedule" +:+ "_" +:+ "monthly_" +:+ taskName).
      by rewrite handleButton_type.
    + change ("schedule_custom_" +:+ taskName) with ("schedule" +:+ "_" +:+ "custom_" +:+ taskName).
      by rewrite handleButton_type.
  - intros c (day & -> & _)%list_elem_of_fmap. cbn [customIdOf].
    change ("weekday_" +:+ pretty day.2 +:+ "_" +:+ taskName)
      with ("weekday" +:+ "_" +:+ pretty day.2 +:+ "_" +:+ taskName).
    by rewrite handleButton_type.
  - intros c (day & -> & _)%list_elem_of_fmap. cbn [customIdOf].
    change ("monthday_" +:+ pretty day +:+ "_" +:+ taskName)
      with ("monthday" +:+ "_" +:+ pretty day +:+ "_" +:+ taskName).
    by rewrite handleButton_type.
  - intros c [(day & -> & _)%list_elem_of_fmap| ->%list_elem_of_singleton]%elem_of_app;
      cbn [customIdOf].
    + change ("day_" +:+ pretty day.2 +:+ "_" +:+ taskName)
        with ("day" +:+ "_" +:+ pretty day.2 +:+ "_" +:+ taskName).
      rewrite handleButton_type by done. by rewrite decide_False.
    + change ("confirm_days_" +:+ taskName) with ("confirm" +:+ "_" +:+ "days" +:+ "_" +:+ taskName).
      rewrite handleButton_type by done.
      change ("days" +:+ "_" +:+ taskName) with ("days" +:+ String "_" taskName).
      unfold firstSegment. rewrite split_app by done. cbn.
      by destruct (decide (_ +:+ _ = _)).
Qed.

(** *** The days and the times of the menus *)

Lemma weekday_DAYS d : d ∈ DAYS.*2 ↔ 0 <= d <= 6.
Proof. cbn. rewrite !elem_of_cons, elem_of_nil. lia. Qed.

(** The decimal numerals of the days, read back by [Number]. *)
Lemma pretty_day d :
  0 <= d <= 31 →
  contains "_" (pretty d) = false ∧ contains "," (pretty d) = false ∧
  Number (pretty d) = Some d ∧ pretty d ≠ "".
Proof.
  intros Hd.
  assert (d ∈ Z.of_nat <$> seq 0 32) as H.
  { apply list_elem_of_fmap. exists (Z.to_nat d). split; [lia|]. apply elem_of_seq. lia. }
  cbn in H. repeat (apply elem_of_cons in H as [->|H]); [..|by apply elem_of_nil in H];
    vm_compute; repeat split; discriminate.
Qed.

Lemma parseInt_day d : 0 <= d <= 31 → parseInt (pretty d) = Some d.
Proof.
  intros (_ & _ & Hn & He)%pretty_day. unfold parseInt. by rewrite decide_False.
Qed.

Lemma numbers_days days :
  (∀ d, d ∈ days → 0 <= d <= 31) → numbers (pretty <$> days) = Some days.
Proof.
  induction days as [|d days IH]; intros H; [done|]. cbn [fmap list_fmap numbers].
  destruct (pretty_day d) as (_ & _ & -> & _); [apply H; by left|].
  change (list_fmap Z string pretty days) with (pretty <$> days).
  rewrite IH; [done|]. intros d' Hd'. apply H. by right.
Qed.

(** Every option of the time menu is read back as its hour, with no
    minutes. *)
Lemma parseTime_options :
  parseTime <$> (value <$> generateTimeOptions)
  = (λ h, Some {| hours := h; minutes := 0 |}) <$> (Z.of_nat <$> seq 0 24).
Proof. vm_compute. reflexivity. Qed.

Lemma parseTime_option selectedTime :
  selectedTime ∈ value <$> generateTimeOptions →
  ∃ h, 0 <= h < 24 ∧ parseTime selectedTime = Some {| hours := h; minutes := 0 |}.
Proof.
  intros H. apply (list_elem_of_fmap_2 parseTime) in H. rewrite parseTime_options in H.
  apply list_elem_of_fmap in H as (h & Hh & (n & -> & Hn%elem_of_seq)%list_elem_of_fmap).
  exists (Z.of_nat n). split; [lia|done].
Qed.

(** *** The custom id of the time menu, read by handleTimeChoice *)

Lemma timeChoiceCall_plain scheduleType name selectedTime tm :
  contains "_" scheduleType = false → contains "_" name = false →
  parseTime selectedTime = Some tm →
  timeChoiceCall ("time_" +:+ scheduleType +:+ "_" +:+ name) selectedTime
  = Some (name, SString scheduleType, tm).
Proof.
  intros H1 H2 Hv. unfold timeChoiceCall. rewrite Hv.
  change ("time_" +:+ scheduleType +:+ "_" +:+ name)
    with ("time" +:+ "_" +:+ scheduleType +:+ "_" +:+ name).
  rewrite split_id3 by done. by rewrite (split_none _ _ H2).
Qed.

Lemma timeChoiceCall_days scheduleType name days selectedTime tm :
  contains "_" scheduleType = false → contains "_" name = false →
  days ≠ [] → (∀ d, d ∈ days → 0 <= d <= 31) →
  parseTime selectedTime = Some tm →
  timeChoiceCall ("time_" +:+ scheduleType +:+ "_" +:+ name +:+ "_" +:+ join "," (pretty <$> days))
    selectedTime
  = Some (name, SArray days, tm).
Proof.
  intros H1 H2 Hne Hdays Hv. unfold timeChoiceCall. rewrite Hv.
  change ("time_" +:+ scheduleType +:+ "_" +:+ name +:+ "_" +:+ join "," (pretty <$> days))
    with ("time" +:+ "_" +:+ scheduleType +:+ "_" +:+ name +:+ "_" +:+ join "," (pretty <$> days)).
  rewrite split_id3 by done. rewrite split_id2 by done.
  assert (Forall (λ x : string, contains "_" x = false) (pretty <$> days)) as Hu.
  { apply Forall_fmap, Forall_forall. intros d Hd. by destruct (pretty_day d (Hdays d Hd)). }
  assert (Forall (λ x : string, contains "," x = false) (pretty <$> days)) as Hc.
  { apply Forall_fmap, Forall_forall. intros d Hd.
    by destruct (pretty_day d (Hdays d Hd)) as (_ & ? & _). }
  assert (Forall (λ x : string, x ≠ "") (pretty <$> days)) as He.
  { apply Forall_fmap, Forall_forall. intros d Hd.
    by destruct (pretty_day d (Hdays d Hd)) as (_ & _ & _ & ?). }
  assert (pretty <$> days ≠ []) as Hne' by (by destruct days).
  rewrite (split_none "_" (join "," (pretty <$> days))) by (by apply join_no_sep).
  cbn [lookup list_lookup].
  rewrite decide_False by (by apply join_not_empty).
  rewrite (split_join "," _ Hne' Hc). by rewrite numbers_days.
Qed.

Lemma timeChoiceCall_day scheduleType name d selectedTime tm :
  contains "_" scheduleType = false → contains "_" name = false → 0 <= d <= 31 →
  parseTime selectedTime = Some tm →
  timeChoiceCall ("time_" +:+ scheduleType +:+ "_" +:+ name +:+ "_" +:+ pretty d) selectedTime
  = Some (name, SArray [d], tm).
Proof.
  intros H1 H2 Hd Hv.
  apply (timeChoiceCall_days scheduleType name [d] selectedTime tm); try done.
  by intros d' ->%list_elem_of_singleton.
Qed.

(** A schedule with a weekday in its array, at a time of the menu: the call
    of [handleTimeChoice] answers that the task is scheduled. *)
Lemma handleTimeChoice_day e userId customId selectedTime name d tm s z :
  timeChoiceCall customId selectedTime = Some (name, SArray [d], tm) →
  0 <= d <= 6 →
  validRule tm = true →
  ¬ nullEntry (reminderId userId name) s →
  dbGetFails e = false → dbSetFails e = false → db_get_timezone userId (db s) = Some z →
  ∃ nextRun s',
    handleTimeChoice e userId customId selectedTime s = Some (Return (TaskScheduled nextRun), s') ∧
    day nextRun = d ∧
    schedule <$> db_get_task userId name (db s') = Some (SArray [d]) ∧
    activeReminders s' !! reminderId userId name = Some (Some (nextJob s)).
Proof.
  intros Hcall Hd Hrule Hnull Hget Hset Htz.
  assert (includes [d] d = true) as Hin by (apply includes_elem; by left).
  destruct (customLoop_exits [d]
              (second 0 (minute (minutes tm) (hour (hours tm) (tz (clock e 1%nat) z)))) d
              ltac:(lia) Hin)
    as (k & _ & Hloop & Hday%includes_elem%list_elem_of_singleton & _).
  assert (nextRunOf (clock e) z (SArray [d]) tm
          = Return (add_days k
                      (second 0 (minute (minutes tm) (hour (hours tm) (tz (clock e 1%nat) z))))))
    as Hnext by (unfold nextRunOf, nextRunWith; by rewrite Hloop).
  eexists _, _. unfold handleTimeChoice. rewrite Hcall.
  rewrite (setupReminder_reaches_write _ _ _ _ _ _ _ _ Hnull Hget Htz Hnext), Hset.
  rewrite (registered_valid _ _ _ Hrule).
  assert (describable (SArray [d]) = true) as ->.
  { cbn [describable forallb]. rewrite bool_decide_eq_true_2; [done|]. by apply weekday_DAYS. }
  split; [done|]. split; [done|]. split.
  - cbn [db with_db]. by rewrite db_get_task_set.
  - apply armed_registered.
Qed.

(** The 'weekly' schedule as a string: [setupReminder] throws, whatever the
    store does, and the [catch] of [handleTimeChoice] shows the error. *)
Lemma handleTimeChoice_weekly e userId customId selectedTime name tm s :
  timeChoiceCall customId selectedTime = Some (name, SString "weekly", tm) →
  handleTimeChoice e userId customId selectedTime s
  = Some (Return SchedulingError, cancelled (reminderId userId name) s).
Proof.
  intros Hcall. unfold handleTimeChoice. rewrite Hcall.
  destruct (decide (nullEntry (reminderId userId name) s)) as [Hnull|Hnull].
  { by rewrite (setupReminder_null _ _ _ _ _ _ Hnull), (cancelled_null _ _ Hnull). }
  rewrite (setupReminder_split _ _ _ _ _ _ Hnull). unfold setupReminder_resume.
  destruct (dbGetFails e); [done|]. by destruct (db_get_timezone _ _).
Qed.

(** A call for an id whose entry is [null] throws at the [cancel]: the
    [catch] of [handleTimeChoice] shows the error and nothing has changed. *)
Lemma handleTimeChoice_null e userId customId selectedTime name st tm s :
  timeChoiceCall customId selectedTime = Some (name, st, tm) →
  nullEntry (reminderId userId name) s →
  handleTimeChoice e userId customId selectedTime s = Some (Return SchedulingError, s).
Proof.
  intros Hcall Hnull. unfold handleTimeChoice.
  by rewrite Hcall, (setupReminder_null _ _ _ _ _ _ Hnull).
Qed.

(** An array with one number that is no weekday: the loop never ends. *)
Lemma handleTimeChoice_hangs e userId customId selectedTime name d tm s z :
  timeChoiceCall customId selectedTime = Some (name, SArray [d], tm) →
  6 < d →
  ¬ nullEntry (reminderId userId name) s →
  dbGetFails e = false → db_get_timezone userId (db s) = Some z →
  handleTimeChoice e userId customId selectedTime s
  = Some (Hang, cancelled (reminderId userId name) s).
Proof.
  intros Hcall Hd Hnull Hget Htz. unfold handleTimeChoice. rewrite Hcall.
  rewrite (setupReminder_split _ _ _ _ _ _ Hnull). unfold setupReminder_resume.
  destruct (cancelled_fields (reminderId userId name) s) as (_ & _ & Hdb).
  rewrite Hget, Hdb, Htz. unfold nextRunOf, nextRunWith.
  rewrite (customLoop_no_weekday [d]); [done|].
  intros d' ->%list_elem_of_singleton. by right.
Qed.

Lemma handleWeekDaySelection_day taskName d :
  0 <= d <= 31 →
  handleWeekDaySelection ("weekday_" +:+ pretty d +:+ "_" +:+ taskName)
  = Some (showTimeSelection "weekly" (firstSegment taskName) (Some d)).
Proof.
  intros Hd. destruct (pretty_day d Hd) as (Hu & _ & _ & _). unfold handleWeekDaySelection.
  change ("weekday_" +:+ pretty d +:+ "_" +:+ taskName)
    with ("weekday" +:+ "_" +:+ pretty d +:+ "_" +:+ taskName).
  rewrite split_id3 by done. cbn [lookup list_lookup].
  by rewrite (parseInt_day d Hd), split_first_segment.
Qed.

Lemma handleMonthDaySelection_day taskName d :
  0 <= d <= 31 →
  handleMonthDaySelection ("monthday_" +:+ pretty d +:+ "_" +:+ taskName)
  = Some (showTimeSelection "monthly" (firstSegment taskName) (Some d)).
Proof.
  intros Hd. destruct (pretty_day d Hd) as (Hu & _ & _ & _). unfold handleMonthDaySelection.
  change ("monthday_" +:+ pretty d +:+ "_" +:+ taskName)
    with ("monthday" +:+ "_" +:+ pretty d +:+ "_" +:+ taskName).
  rewrite split_id3 by done. cbn [lookup list_lookup].
  by rewrite (parseInt_day d Hd), split_first_segment.
Qed.

(** *** The weekly screen *)

(** X16: a day picked on the weekly screen, at a time of the time menu, with a
    store that answers and a timezone stored.  Monday..Saturday reach
    [setupReminder] as the array [[d]]: the task is scheduled and stored as a
    custom schedule of that one weekday, and its next run is on weekday [d].
    Sunday has the value 0, which the time menu leaves out of its id, so
    [setupReminder] gets the string 'weekly' and throws: the user is shown
    the scheduling error and the task has no timer.  In both cases the name
    of the task is cut at its first underscore.  (For an id whose entry is
    [null] every call throws at the [cancel]: the scheduling error is shown
    and nothing changes.) *)
Theorem weekly_screen_choice e userId taskName d selectedTime s z :
  d ∈ DAYS.*2 → selectedTime ∈ value <$> generateTimeOptions →
  dbGetFails e = false → dbSetFails e = false → db_get_timezone userId (db s) = Some z →
  ∃ menuId,
    handleWeekDaySelection ("weekday_" +:+ pretty d +:+ "_" +:+ taskName)
      = Some [SelectMenu menuId (value <$> generateTimeOptions)] ∧
    if decide (d = 0) then
      handleTimeChoice e userId menuId selectedTime s
      = Some (Return SchedulingError, cancelled (reminderId userId (firstSegment taskName)) s)
    else if decide (nullEntry (reminderId userId (firstSegment taskName)) s) then
      handleTimeChoice e userId menuId selectedTime s = Some (Return SchedulingError, s)
    else
      ∃ nextRun s',
        handleTimeChoice e userId menuId selectedTime s
          = Some (Return (TaskScheduled nextRun), s') ∧
        day nextRun = d ∧
        schedule <$> db_get_task userId (firstSegment taskName) (db s') = Some (SArray [d]) ∧
        activeReminders s' !! reminderId userId (firstSegment taskName)
          = Some (Some (nextJob s)).
Proof.
  intros Hd%weekday_DAYS (h & Hh & Hv)%parseTime_option Hget Hset Htz.
  assert (0 <= d <= 31) as Hd' by lia.
  rewrite (handleWeekDaySelection_day taskName d Hd'). unfold showTimeSelection.
  eexists. split; [reflexivity|].
  case_decide as Hz.
  - subst d. cbn [Z.eqb]. rewrite append_nil_r.
    apply (handleTimeChoice_weekly _ _ _ _ _ {| hours := h; minutes := 0 |}).
    by apply timeChoiceCall_plain; [|apply firstSegment_no_sep|].
  - assert ((d =? 0) = false) as -> by lia.
    assert (timeChoiceCall
              ("time_" +:+ "weekly" +:+ "_" +:+ firstSegment taskName +:+ "_" +:+ pretty d)
              selectedTime
            = Some (firstSegment taskName, SArray [d], {| hours := h; minutes := 0 |})) as Hcall.
    { by apply timeChoiceCall_day; [|apply firstSegment_no_sep|..]. }
    case_decide as Hnull; [by eapply handleTimeChoice_null|].
    apply (handleTimeChoice_day e userId _ selectedTime _ d {| hours := h; minutes := 0 |} s z);
      [done|lia|unfold validRule; cbn; lia|done..].
Qed.

Lemma weekly_screen_choice_witness :
  ∃ menuId,
    handleWeekDaySelection ("weekday_" +:+ pretty 0 +:+ "_" +:+ "workout")
      = Some [SelectMenu menuId (value <$> generateTimeOptions)] ∧
    if decide (0 = 0) then
      handleTimeChoice monday10 "42" menuId "09:00" (boot stored)
      = Some (Return SchedulingError, cancelled (reminderId "42" (firstSegment "workout"))
                                        (boot stored))
    else if decide (nullEntry (reminderId "42" (firstSegment "workout")) (boot stored)) then
      handleTimeChoice monday10 "42" menuId "09:00" (boot stored)
      = Some (Return SchedulingError, boot stored)
    else
      ∃ nextRun s',
        handleTimeChoice monday10 "42" menuId "09:00" (boot stored)
          = Some (Return (TaskScheduled nextRun), s') ∧
        day nextRun = 0 ∧
        schedule <$> db_get_task "42" (firstSegment "workout") (db s') = Some (SArray [0]) ∧
        activeReminders s' !! reminderId "42" (firstSegment "workout")
          = Some (Some (nextJob (boot stored))).
Proof.
  apply (weekly_screen_choice monday10 "42" "workout" 0 "09:00" (boot stored) tokyo).
  - apply weekday_DAYS. lia.
  - apply (bool_decide_unpack _). vm_compute. reflexivity.
  - reflexivity.
  - reflexivity.
  - reflexivity.
Defined.

(** *** The monthly screen *)

(** X17: a day 1..31 picked on the monthly screen, at a time of the time menu,
    with a store that answers and a timezone stored.  The day reaches
    [setupReminder] as the array [[d]], the form of a custom schedule, never
    as the string 'monthly'.  Up to 6 it is taken for a weekday: the task is
    scheduled for weekday [d].  From 7 on no weekday is in the array: the
    loop of [setupReminder] never ends, after the job registered for the id
    was cancelled.  (For an id whose entry is [null] every call throws at
    the [cancel]: the scheduling error is shown and nothing changes.) *)
Theorem monthly_screen_choice e userId taskName d selectedTime s z :
  1 <= d <= 31 → selectedTime ∈ value <$> generateTimeOptions →
  dbGetFails e = false → dbSetFails e = false → db_get_timezone userId (db s) = Some z →
  ∃ menuId,
    handleMonthDaySelection ("monthday_" +:+ pretty d +:+ "_" +:+ taskName)
      = Some [SelectMenu menuId (value <$> generateTimeOptions)] ∧
    if decide (nullEntry (reminderId userId (firstSegment taskName)) s) then
      handleTimeChoice e userId menuId selectedTime s = Some (Return SchedulingError, s)
    else if decide (d <= 6) then
      ∃ nextRun s',
        handleTimeChoice e userId menuId selectedTime s
          = Some (Return (TaskScheduled nextRun), s') ∧
        day nextRun = d ∧
        schedule <$> db_get_task userId (firstSegment taskName) (db s') = Some (SArray [d]) ∧
        activeReminders s' !! reminderId userId (firstSegment taskName)
          = Some (Some (nextJob s))
    else
      handleTimeChoice e userId menuId selectedTime s
      = Some (Hang, cancelled (reminderId userId (firstSegment taskName)) s).
Proof.
  intros Hd (h & Hh & Hv)%parseTime_option Hget Hset Htz.
  assert (0 <= d <= 31) as Hd' by lia.
  rewrite (handleMonthDaySelection_day taskName d Hd'). unfold showTimeSelection.
  eexists. split; [reflexivity|].
  assert ((d =? 0) = false) as -> by lia.
  assert (timeChoiceCall
            ("time_" +:+ "monthly" +:+ "_" +:+ firstSegment taskName +:+ "_" +:+ pretty d)
            selectedTime
          = Some (firstSegment taskName, SArray [d], {| hours := h; minutes := 0 |})) as Hcall.
  { by apply timeChoiceCall_day; [|apply firstSegment_no_sep|..]. }
  case_decide as Hnull; [by eapply handleTimeChoice_null|].
  case_decide as Hsmall.
  - apply (handleTimeChoice_day e userId _ selectedTime _ d {| hours := h; minutes := 0 |} s z);
      [done|lia|unfold validRule; cbn; lia|done..].
  - apply (handleTimeChoice_hangs e userId _ selectedTime _ d {| hours := h; minutes := 0 |} s z);
      [done|lia|done..].
Qed.

Lemma monthly_screen_choice_witness :
  ∃ menuId,
    handleMonthDaySelection ("monthday_" +:+ pretty 15 +:+ "_" +:+ "rent")
      = Some [SelectMenu menuId (value <$> generateTimeOptions)] ∧
    if decide (nullEntry (reminderId "42" (firstSegment "rent")) (boot stored)) then
      handleTimeChoice monday10 "42" menuId "09:00" (boot stored)
      = Some (Return SchedulingError, boot stored)
    else if decide (15 <= 6) then
      ∃ nextRun s',
        handleTimeChoice monday10 "42" menuId "09:00" (boot stored)
          = Some (Return (TaskScheduled nextRun), s') ∧
        day nextRun = 15 ∧
        schedule <$> db_get_task "42" (firstSegment "rent") (db s') = Some (SArray [15]) ∧
        activeReminders s' !! reminderId "42" (firstSegment "rent")
          = Some (Some (nextJob (boot stored)))
    else
      handleTimeChoice monday10 "42" menuId "09:00" (boot stored)
      = Some (Hang, cancelled (reminderId "42" (firstSegment "rent")) (boot stored)).
Proof.
  apply (monthly_screen_choice monday10 "42" "rent" 15 "09:00" (boot stored) tokyo).
  - lia.
  - apply (bool_decide_unpack _). vm_compute. reflexivity.
  - reflexivity.
  - reflexivity.
  - reflexivity.
Defined.

(** *** The custom screen *)

Lemma toggle_twice day l x : x ∈ toggle day (toggle day l) ↔ x ∈ l.
Proof.
  unfold toggle. destruct (decide (day ∈ l)) as [Hin|Hout].
  - rewrite decide_False by (rewrite list_elem_of_filter; tauto).
    rewrite elem_of_app, list_elem_of_filter, list_elem_of_singleton.
    destruct (decide (x = day)) as [->|]; tauto.
  - rewrite decide_True by (apply elem_of_app; right; by left).
    rewrite list_elem_of_filter, elem_of_app, list_elem_of_singleton.
    split; [tauto|]. intros Hx. split; [|tauto]. by intros ->.
Qed.

Lemma toggle_NoDup day l : NoDup l → NoDup (toggle day l).
Proof.
  intros Hl. unfold toggle. case_decide as Hin.
  - by apply NoDup_filter.
  - apply NoDup_app. split; [done|]. split; [|apply NoDup_singleton].
    by intros x Hx ->%list_elem_of_singleton.
Qed.

(** X18: one press of a day button flips that day in the selection of the user
    and leaves the other days and the other users as they were; a second
    press of the same button gives back the selection.  The selection stays
    free of duplicates.  The task named in the button plays no part: the
    selection is kept per user, not per task. *)
Theorem day_button_flips_one_day userId customId customId' day selectedDays selectedDays1 buttons1 :
  split "_" customId !! 1%nat = Some day →
  split "_" customId' !! 1%nat = Some day →
  handleDaySelection userId customId selectedDays = Some (selectedDays1, buttons1) →
  let before := default [] (selectedDays !! userId) in
  let after := default [] (selectedDays1 !! userId) in
  (day ∈ after ↔ day ∉ before) ∧
  (∀ other, other ≠ day → other ∈ after ↔ other ∈ before) ∧
  (NoDup before → NoDup after) ∧
  (∀ user, user ≠ userId → selectedDays1 !! user = selectedDays !! user) ∧
  ∃ selectedDays2 buttons2,
    handleDaySelection userId customId' selectedDays1 = Some (selectedDays2, buttons2) ∧
    (∀ x, x ∈ default [] (selectedDays2 !! userId) ↔ x ∈ before) ∧
    (∀ user, user ≠ userId → selectedDays2 !! user = selectedDays !! user).
Proof.
  intros Hday Hday' H before after. subst before after.
  unfold handleDaySelection in *. rewrite Hday in H. rewrite Hday'.
  injection H as <- <-. rewrite lookup_insert_eq. cbn [default from_option id].
  set (l := default [] (selectedDays !! userId)).
  split; [|split; [|split; [|split]]].
  - unfold toggle. case_decide as Hin.
    + rewrite list_elem_of_filter. tauto.
    + rewrite elem_of_app, list_elem_of_singleton. tauto.
  - intros other Hother. unfold toggle. case_decide as Hin.
    + rewrite list_elem_of_filter. tauto.
    + rewrite elem_of_app, list_elem_of_singleton. tauto.
  - apply toggle_NoDup.
  - intros user Huser. by rewrite lookup_insert_ne.
  - eexists _, _. split; [reflexivity|]. rewrite lookup_insert_eq. cbn [default from_option id]. split.
    + apply toggle_twice.
    + intros user Huser. by rewrite !lookup_insert_ne.
Qed.

Lemma day_button_flips_one_day_witness :
  let selectedDays : gmap string (list string) := {[ "42" := ["1"; "3"] ]} in
  ∃ selectedDays1 buttons1,
    handleDaySelection "42" "day_3_workout" selectedDays = Some (selectedDays1, buttons1) ∧
    let before := default [] (selectedDays !! "42") in
    let after := default [] (selectedDays1 !! "42") in
    (("3" : string) ∈ after ↔ ("3" : string) ∉ before) ∧
    (∀ other, other ≠ "3" → other ∈ after ↔ other ∈ before) ∧
    (NoDup before → NoDup after) ∧
    (∀ user, user ≠ "42" → selectedDays1 !! user = selectedDays !! user) ∧
    ∃ selectedDays2 buttons2,
      handleDaySelection "42" "day_3_laundry" selectedDays1 = Some (selectedDays2, buttons2) ∧
      (∀ x, x ∈ default [] (selectedDays2 !! "42") ↔ x ∈ before) ∧
      (∀ user, user ≠ "42" → selectedDays2 !! user = selectedDays !! user).
Proof.
  intros selectedDays. eexists _, _. split; [reflexivity|].
  eapply (day_button_flips_one_day "42" "day_3_workout" "day_3_laundry" "3" selectedDays).
  - reflexivity.
  - reflexivity.
  - reflexivity.
Defined.

Lemma handleDaySelection_day userId d taskName selectedDays :
  0 <= d <= 31 →
  ∃ buttons,
    handleDaySelection userId ("day_" +:+ pretty d +:+ "_" +:+ taskName) selectedDays
    = Some (<[userId := toggle (pretty d) (default [] (selectedDays !! userId))]> selectedDays,
            buttons).
Proof.
  intros Hd. destruct (pretty_day d Hd) as (Hu & _ & _ & _). unfold handleDaySelection.
  change ("day_" +:+ pretty d +:+ "_" +:+ taskName)
    with ("day" +:+ "_" +:+ pretty d +:+ "_" +:+ taskName).
  rewrite split_id3 by done. cbn [lookup list_lookup]. eauto.
Qed.

Lemma pressAll_fresh userId presses :
  ∀ selectedDays l,
    default [] (selectedDays !! userId) = l →
    NoDup (l ++ (pretty <$> presses.*1)) →
    (∀ d, d ∈ presses.*1 → 0 <= d <= 31) →
    ∃ selectedDays',
      pressAll userId ((λ p : Z * string, "day_" +:+ pretty p.1 +:+ "_" +:+ p.2) <$> presses)
        selectedDays = Some selectedDays' ∧
      default [] (selectedDays' !! userId) = l ++ (pretty <$> presses.*1) ∧
      ∀ user, user ≠ userId → selectedDays' !! user = selectedDays !! user.
Proof.
  induction presses as [|[d taskName] presses IH]; intros selectedDays l Hl Hnd Hdays.
  - exists selectedDays. cbn. by rewrite app_nil_r.
  - cbn [fmap list_fmap pressAll fst snd].
    destruct (handleDaySelection_day userId d taskName selectedDays) as [buttons ->];
      [apply Hdays; by left|].
    rewrite Hl. cbn [fmap list_fmap fst] in Hnd.
    assert (pretty d ∉ l) as Hfresh.
    { apply NoDup_app in Hnd as (_ & Hdisj & _). intros Hin. apply (Hdisj _ Hin). by left. }
    unfold toggle. rewrite decide_False by done.
    destruct (IH (<[userId := l ++ [pretty d]]> selectedDays) (l ++ [pretty d]))
      as (selectedDays' & Hpress & Hsel & Hothers).
    + by rewrite lookup_insert_eq.
    + by rewrite <- app_assoc.
    + intros d' Hd'. apply Hdays. by right.
    + exists selectedDays'. split; [exact Hpress|]. split.
      * by rewrite Hsel, <- app_assoc.
      * intros user Huser. by rewrite (Hothers user Huser), lookup_insert_ne.
Qed.

(** X19: days picked on the custom screen and confirmed, at a time of the time
    menu.  The presses add to what the selection of the user held before,
    whichever task each was made for; the confirmation empties the selection
    and the time menu hands [setupReminder] the array of all these days, in
    the order in which they were picked, for the task of the confirmation
    with its name cut at the first underscore. *)
Theorem custom_screen_choice userId taskName earlier presses selectedDays selectedTime :
  default [] (selectedDays !! userId) = pretty <$> earlier →
  NoDup (earlier ++ presses.*1) →
  presses ≠ [] →
  (∀ d, d ∈ earlier ++ presses.*1 → d ∈ DAYS.*2) →
  selectedTime ∈ value <$> generateTimeOptions →
  ∃ selectedDays' menuId h,
    pressAll userId ((λ p : Z * string, "day_" +:+ pretty p.1 +:+ "_" +:+ p.2) <$> presses)
      selectedDays = Some selectedDays' ∧
    handleDayConfirmation userId ("confirm_days_" +:+ taskName) selectedDays'
      = (delete userId selectedDays', Some [SelectMenu menuId (value <$> generateTimeOptions)]) ∧
    0 <= h < 24 ∧
    timeChoiceCall menuId selectedTime
      = Some (firstSegment taskName, SArray (earlier ++ presses.*1),
              {| hours := h; minutes := 0 |}).
Proof.
  intros Hsel Hnd Hne Hdays (h & Hh & Hv)%parseTime_option.
  assert (∀ d, d ∈ earlier ++ presses.*1 → 0 <= d <= 31) as Hdays'.
  { intros d Hd%Hdays%weekday_DAYS. lia. }
  destruct (pressAll_fresh userId presses selectedDays (pretty <$> earlier) Hsel)
    as (selectedDays' & Hpress & Hsel' & _).
  { rewrite <- fmap_app. by apply (NoDup_fmap_2 _). }
  { intros d Hd. apply Hdays', elem_of_app. by right. }
  rewrite <- fmap_app in Hsel'.
  exists selectedDays'. eexists _, h. split; [exact Hpress|].
  assert (earlier ++ presses.*1 ≠ []) as Hne'.
  { destruct presses; [done|]. by destruct earlier. }
  unfold handleDayConfirmation. rewrite Hsel'.
  change ("confirm_days_" +:+ taskName) with ("confirm" +:+ "_" +:+ "days" +:+ "_" +:+ taskName).
  rewrite split_id3 by done. cbn [lookup list_lookup]. rewrite split_first_segment.
  cbn [shown default from_option id].
  destruct (pretty <$> earlier ++ presses.*1) as [|x xs] eqn:Hl.
  { by destruct (earlier ++ presses.*1). }
  rewrite <- Hl. split; [reflexivity|]. split; [done|].
  by apply (timeChoiceCall_days "custom"); [|apply firstSegment_no_sep|..].
Qed.

Lemma custom_screen_choice_witness :
  ∃ selectedDays' menuId h,
    pressAll "42"
      ((λ p : Z * string, "day_" +:+ pretty p.1 +:+ "_" +:+ p.2) <$> [(3, "run"); (1, "run")])
      {[ "42" := ["5"] ]} = Some selectedDays' ∧
    handleDayConfirmation "42" ("confirm_days_" +:+ "run") selectedDays'
      = (delete "42" selectedDays', Some [SelectMenu menuId (value <$> generateTimeOptions)]) ∧
    0 <= h < 24 ∧
    timeChoiceCall menuId "18:00"
      = Some (firstSegment "run", SArray ([5] ++ [(3, "run"); (1, "run")].*1),
              {| hours := h; minutes := 0 |}).
Proof.
  apply (custom_screen_choice "42" "run" [5] [(3, "run"); (1, "run")] {[ "42" := ["5"] ]} "18:00").
  - reflexivity.
  - apply (bool_decide_unpack _). vm_compute. reflexivity.
  - discriminate.
  - intros d Hd. apply weekday_DAYS. cbn in Hd.
    repeat (apply elem_of_cons in Hd as [->|Hd]); [lia..|by apply elem_of_nil in Hd].
  - apply (bool_decide_unpack _). vm_compute. reflexivity.
Defined.

(** *** The daily button *)

(** X20: the daily button and then a time of the time menu, with a store that
    answers and a timezone stored: the task, its name cut at the first
    underscore, is scheduled and stored with the schedule 'daily', at the
    hour picked and minute 0, today or tomorrow.  (For an id whose entry is
    [null] the call throws at the [cancel]: the scheduling error is shown
    and nothing changes.) *)
Theorem daily_choice_is_scheduled e userId taskName selectedTime s z :
  selectedTime ∈ value <$> generateTimeOptions →
  dbGetFails e = false → dbSetFails e = false → db_get_timezone userId (db s) = Some z →
  ∃ menuId h,
    handleScheduleSelection ("schedule_daily_" +:+ taskName)
      = [SelectMenu menuId (value <$> generateTimeOptions)] ∧
    0 <= h < 24 ∧ parseTime selectedTime = Some {| hours := h; minutes := 0 |} ∧
    if decide (nullEntry (reminderId userId (firstSegment taskName)) s) then
      handleTimeChoice e userId menuId selectedTime s = Some (Return SchedulingError, s)
    else
      ∃ nextRun s',
        handleTimeChoice e userId menuId selectedTime s
          = Some (Return (TaskScheduled nextRun), s') ∧
        get_hour nextRun = h ∧ get_minute nextRun = 0 ∧ get_second nextRun = 0 ∧
        0 <= dayNumber nextRun - dayNumber (tz (clock e 1%nat) z) <= 1 ∧
        db_get_task userId (firstSegment taskName) (db s')
          = Some {| name := firstSegment taskName; schedule := SString "daily";
                    time := {| hours := h; minutes := 0 |}; timezone := z;
                    nextReminder := valueOf z nextRun |} ∧
        activeReminders s' !! reminderId userId (firstSegment taskName)
          = Some (Some (nextJob s)).
Proof.
  intros (h & Hh & Hv)%parseTime_option Hget Hset Htz.
  set (candidate := second 0 (minute 0 (hour h (tz (clock e 1%nat) z)))).
  set (nextRun := if isBefore candidate (tz (clock e 0%nat) z) then add_days 1 candidate
                  else candidate).
  assert (nextRunOf (clock e) z (SString "daily") {| hours := h; minutes := 0 |} = Return nextRun)
    as Hnext by reflexivity.
  assert (timeChoiceCall ("time_" +:+ "daily" +:+ "_" +:+ firstSegment taskName) selectedTime
          = Some (firstSegment taskName, SString "daily", {| hours := h; minutes := 0 |}))
    as Hcall
    by exact (timeChoiceCall_plain "daily" (firstSegment taskName) selectedTime _ eq_refl
                (firstSegment_no_sep taskName) Hv).
  eexists _, h. split.
  { unfold handleScheduleSelection.
    change ("schedule_daily_" +:+ taskName)
      with ("schedule" +:+ "_" +:+ "daily" +:+ "_" +:+ taskName).
    rewrite split_id3 by done. cbn [lookup list_lookup]. rewrite split_first_segment.
    cbn [shown default from_option id]. unfold showTimeSelection. rewrite append_nil_r.
    reflexivity. }
  split; [done|]. split; [done|].
  case_decide as Hnull; [by eapply handleTimeChoice_null|].
  eexists nextRun, _. split.
  { unfold handleTimeChoice. rewrite Hcall.
    rewrite (setupReminder_reaches_write _ _ _ _ _ _ _ _ Hnull Hget Htz Hnext), Hset.
    rewrite registered_valid by (unfold validRule; cbn; lia). reflexivity. }
  destruct (candidate_clock h 0 (tz (clock e 1%nat) z)) as (H1 & H2 & H3 & H4 & _); [lia..|].
  fold candidate in H1, H2, H3, H4.
  assert (get_hour nextRun = h ∧ get_minute nextRun = 0 ∧ get_second nextRun = 0 ∧
          0 <= dayNumber nextRun - dayNumber (tz (clock e 1%nat) z) <= 1) as (? & ? & ? & ?).
  { subst nextRun. destruct (isBefore candidate _).
    - unfold get_hour, get_minute, get_second in *.
      rewrite timeOfDay_add_days, dayNumber_add_days, H4. repeat split; try done; lia.
    - rewrite H4. repeat split; try done; lia. }
  do 4 (split; [done|]). split.
  - cbn [db with_db]. by rewrite db_get_task_set.
  - apply armed_registered.
Qed.

Lemma daily_choice_is_scheduled_witness :
  ∃ menuId h,
    handleScheduleSelection ("schedule_daily_" +:+ "water_plants")
      = [SelectMenu menuId (value <$> generateTimeOptions)] ∧
    0 <= h < 24 ∧ parseTime "09:00" = Some {| hours := h; minutes := 0 |} ∧
    if decide (nullEntry (reminderId "42" (firstSegment "water_plants")) (boot stored)) then
      handleTimeChoice monday10 "42" menuId "09:00" (boot stored)
      = Some (Return SchedulingError, boot stored)
    else
      ∃ nextRun s',
        handleTimeChoice monday10 "42" menuId "09:00" (boot stored)
          = Some (Return (TaskScheduled nextRun), s') ∧
        get_hour nextRun = h ∧ get_minute nextRun = 0 ∧ get_second nextRun = 0 ∧
        0 <= dayNumber nextRun - dayNumber (tz (clock monday10 1%nat) tokyo) <= 1 ∧
        db_get_task "42" (firstSegment "water_plants") (db s')
          = Some {| name := firstSegment "water_plants"; schedule := SString "daily";
                    time := {| hours := h; minutes := 0 |}; timezone := tokyo;
                    nextReminder := valueOf tokyo nextRun |} ∧
        activeReminders s' !! reminderId "42" (firstSegment "water_plants")
          = Some (Some (nextJob (boot stored))).
Proof.
  apply (daily_choice_is_scheduled monday10 "42" "water_plants" "09:00" (boot stored) tokyo).
  - apply (bool_decide_unpack _). vm_compute. reflexivity.
  - reflexivity.
  - reflexivity.
  - reflexivity.
Defined.

(** *** The timezone menus *)

Lemma prefix_append p rest : String.prefix p (p +:+ rest) = true.
Proof.
  induction p as [|c p IH]; [by destruct rest|].
  rewrite append_cons. cbn [String.prefix]. by destruct (ascii_dec c c).
Qed.

(** X21: [/addtask] of a user with no timezone opens the region menu with the id
    [timezone_region_addtask], so that the task goes on once the timezone is
    chosen.  [handleTimezoneChoice] takes the second part of the id for the
    action: that is 'region' or 'select' followed by whatever the id goes on
    with, never 'addtask'.  So the menu of the timezones always has the id
    [timezone_select], and choosing a timezone always ends with the message
    that the timezone is set: the schedule options of the task are not
    shown. *)
Theorem timezone_choice_never_resumes_addtask :
  (∀ isFromAddTask,
      handleSelectMenu (handleTimezoneSelection isFromAddTask) = Some TimezoneChoice ∧
      handleTimezoneChoice (handleTimezoneSelection isFromAddTask)
      = RegionTimezones "timezone_select") ∧
  (∀ rest, handleTimezoneChoice ("timezone_region" +:+ rest) = RegionTimezones "timezone_select") ∧
  (∀ rest, handleTimezoneChoice ("timezone_select" +:+ rest) = TimezoneSet) ∧
  (∀ customId, handleTimezoneChoice customId = ScheduleOptions →
               split "_" customId !! 1%nat = Some "addtask").
Proof.
  assert (∀ rest, handleTimezoneChoice ("timezone_region" +:+ rest)
                  = RegionTimezones "timezone_select") as Hregion.
  { intros rest. unfold handleTimezoneChoice.
    rewrite prefix_append.
    change ("timezone_region" +:+ rest) with ("timezone" +:+ "_" +:+ "region" +:+ rest).
    rewrite split_id2 by done. cbn [lookup list_lookup].
    rewrite decide_False; [done|].
    change ("region" +:+ rest) with (String "r" ("egion" +:+ rest)). cbn [split].
    rewrite decide_False by done. by destruct (split "_" ("egion" +:+ rest)). }
  split; [|split; [exact Hregion|split]].
  - intros isFromAddTask. split; [by destruct isFromAddTask|]. apply Hregion.
  - intros rest. unfold handleTimezoneChoice.
    change (String.prefix "timezone_region" ("timezone_select" +:+ rest)) with false.
    change ("timezone_select" +:+ rest) with ("timezone" +:+ "_" +:+ "select" +:+ rest).
    rewrite split_id2 by done. cbn [lookup list_lookup].
    rewrite decide_False; [done|].
    change ("select" +:+ rest) with (String "s" ("elect" +:+ rest)). cbn [split].
    rewrite decide_False by done. by destruct (split "_" ("elect" +:+ rest)).
  - intros customId. unfold handleTimezoneChoice.
    destruct (String.prefix _ _); [done|]. by case_decide.
Qed.

End FlowFacts.
